(** * Storefront: cart pricing, checkout and payment verification

    A shallow embedding of [storefront/views.py] (with the parts of
    [storefront/models.py] it reads) and the properties of the cart,
    checkout and payment-verification flow.

    Layout: Python built-ins used by the views ([int], [str], [str.strip]),
    the [decimal] arithmetic of the default context, the data model, the
    views as functions in a state-and-exception monad, and then the
    lemmas and theorems. *)

From Stdlib Require Import ZArith Lia Bool List Ascii String.
From stdpp Require Import base option list strings gmap fin_maps.

Local Open Scope string_scope.
Local Open Scope Z_scope.

(** ** Exceptions and results *)

(** The exceptions a view of this module can let escape. [GatewayError]
    stands for whatever the payment client raises on a failed remote call
    other than [SignatureVerificationError], which [payment_verify]
    catches. *)
Inductive exn : Type :=
  | Http404
  | ValueError
  | MultipleObjectsReturned
  | DecimalOverflow
  | GatewayError (detail : string).

Inductive result (A : Type) : Type :=
  | Ok (a : A)
  | Raise (e : exn).
Arguments Ok {A} a.
Arguments Raise {A} e.

(** [result] is a monad; the [x ← m; k] notation propagates [Raise]. *)
Global Instance result_ret : MRet result := λ A a, Ok a.
Global Instance result_bind : MBind result := λ A B k r,
  match r with
  | Ok a => k a
  | Raise e => Raise e
  end.

Fixpoint rmap_list {A B} (f : A → result B) (l : list A) : result (list B) :=
  match l with
  | [] => Ok []
  | a :: l' => b ← f a; bs ← rmap_list f l'; Ok (b :: bs)
  end.

(** ** Python built-ins on strings and integers *)

(** A [string] is a Python [str] of ASCII text, one character for one
    code point below 128. On such text [strip], [int] and [str] below
    follow CPython exactly. Python knows more white space and more
    decimal digits beyond ASCII; the model does not, and takes every
    character from 128 on for an ordinary one. The properties whose
    statement depends on that difference assume [isascii] of the text
    they read. *)

Module Py.

(** [s.isascii()] *)
Fixpoint isascii (s : string) : bool :=
  match s with
  | EmptyString => true
  | String a r => (Z.of_nat (nat_of_ascii a) <? 128) && isascii r
  end.

(** Characters for which [str.isspace] holds, among the ASCII ones:
    TAB, LF, VT, FF, CR, FS, GS, RS, US and SPACE. *)
Definition is_space (a : ascii) : bool :=
  let n := Z.of_nat (nat_of_ascii a) in
  ((9 <=? n) && (n <=? 13)) || ((28 <=? n) && (n <=? 32)).

(** The white space [int] skips around a literal, [Py_ISSPACE] of the
    interpreter: TAB, LF, VT, FF, CR and SPACE only. *)
Definition is_c_space (a : ascii) : bool :=
  let n := Z.of_nat (nat_of_ascii a) in
  ((9 <=? n) && (n <=? 13)) || (n =? 32).

Fixpoint lstrip_by (sp : ascii → bool) (s : string) : string :=
  match s with
  | String a r => if sp a then lstrip_by sp r else s
  | EmptyString => EmptyString
  end.

Fixpoint rstrip_by (sp : ascii → bool) (s : string) : string :=
  match s with
  | String a r =>
      match rstrip_by sp r with
      | EmptyString => if sp a then EmptyString else String a EmptyString
      | r' => String a r'
      end
  | EmptyString => EmptyString
  end.

Definition lstrip (s : string) : string := lstrip_by is_space s.
Definition rstrip (s : string) : string := rstrip_by is_space s.

(** [s.strip()] *)
Definition strip (s : string) : string := rstrip (lstrip s).

Definition digit_of_ascii (a : ascii) : option Z :=
  let n := Z.of_nat (nat_of_ascii a) in
  if (48 <=? n) && (n <=? 57) then Some (n - 48) else None.

Definition ascii_of_digit (d : Z) : ascii :=
  ascii_of_nat (Z.to_nat (48 + d)).

(** [sys.get_int_max_str_digits()]: the longest integer, in decimal
    digits, that the interpreter converts from or to a string. Nothing
    in the project changes the default. *)
Definition max_str_digits : Z := 4300.

(** The digit part of an integer literal as [int(str)] accepts it:
    decimal digits, with single underscores between digits. [seen] says
    whether the previous character was a digit. *)
Fixpoint int_digits (acc : Z) (seen : bool) (s : string) : option Z :=
  match s with
  | EmptyString => if seen then Some acc else None
  | String a r =>
      if Ascii.eqb a "_"%char then
        if seen then int_digits acc false r else None
      else
        match digit_of_ascii a with
        | Some d => int_digits (10 * acc + d) true r
        | None => None
        end
  end.

(** The number of digits of a literal; underscores do not count. *)
Fixpoint count_digits (s : string) : Z :=
  match s with
  | EmptyString => 0
  | String a r =>
      match digit_of_ascii a with
      | Some _ => 1 + count_digits r
      | None => count_digits r
      end
  end.

(** The literal after the sign: refused when it has more than
    [max_str_digits] digits, leading zeros included. *)
Definition int_literal (s : string) : option Z :=
  if count_digits s <=? max_str_digits then int_digits 0 false s else None.

(** [int(s)] for a string [s] (base 10): surrounding white space is
    dropped, one sign is allowed, and anything else raises
    [ValueError], as does a literal of more than [max_str_digits]
    digits. *)
Definition int (s : string) : result Z :=
  let body := rstrip_by is_c_space (lstrip_by is_c_space s) in
  let parsed :=
    match body with
    | String "+" r => int_literal r
    | String "-" r => Z.opp <$> int_literal r
    | _ => int_literal body
    end in
  match parsed with
  | Some n => Ok n
  | None => Raise ValueError
  end.

Fixpoint str_digits (fuel : nat) (n : Z) (acc : string) : string :=
  match fuel with
  | O => acc
  | S f =>
      let acc' := String (ascii_of_digit (n mod 10)) acc in
      if n <? 10 then acc' else str_digits f (n / 10) acc'
  end.

(** [str(n)] for an integer [n] of at most [max_str_digits] digits. The
    views apply it to primary keys and to the ids of the URL converter,
    which are such integers. *)
Definition str (n : Z) : string :=
  if n <? 0
  then String "-" (str_digits (S (Z.to_nat (Z.log2 (- n)))) (- n) EmptyString)
  else str_digits (S (Z.to_nat (Z.log2 n))) n EmptyString.

(** [len(str(n))] for [0 <= n]. *)
Definition str_length (n : Z) : Z :=
  Z.of_nat (String.length (str_digits (S (Z.to_nat (Z.log2 n))) n EmptyString)).

(** [f"{n}"] for an integer [n] of any size: [str(n)], and [ValueError]
    when [n] has more than [max_str_digits] digits. *)
Definition format_int (n : Z) : result string :=
  if str_length (Z.abs n) <=? max_str_digits then Ok (str n)
  else Raise ValueError.

End Py.

(** ** The [decimal] module, default context *)

Module Dec.

(** A finite [Decimal]: [coef * 10 ^ dexp]. The sign is carried by the
    coefficient; negative zero, infinities and NaN do not occur in this
    program (prices come from a [DecimalField], quantities are
    integers). *)
Record Decimal : Type := mkDec { coef : Z; dexp : Z }.

Global Instance Decimal_eq_dec : EqDecision Decimal.
Proof. solve_decision. Defined.

(** [decimal.getcontext()]: the default context, which nothing in the
    project changes. [Overflow] is trapped; [Inexact], [Rounded],
    [Subnormal], [Underflow] and [Clamped] are not. *)
Definition prec : Z := 28.
Definition Emax : Z := 999999.
Definition Emin : Z := -999999.
Definition Etiny : Z := Emin - prec + 1.
Definition Etop : Z := Emax - prec + 1.

Fixpoint ndigits_aux (fuel : nat) (n : Z) : Z :=
  match fuel with
  | O => 1
  | S f => if n <? 10 then 1 else 1 + ndigits_aux f (n / 10)
  end.

(** [len(str(n))] for [0 <= n]. *)
Definition ndigits (n : Z) : Z := ndigits_aux (Z.to_nat (Z.log2 n)) n.

(** ROUND_HALF_EVEN: [n] with its last [d] digits dropped. *)
Definition round_half_even (n d : Z) : Z :=
  let p := 10 ^ d in
  let q := n / p in
  let r := n mod p in
  if (p <? 2 * r) || ((p =? 2 * r) && Z.odd q) then q + 1 else q.

(** [Decimal._fix]: round the exact result [c * 10 ^ e] of an operation
    to the context. *)
Definition fix_ (c e : Z) : result Decimal :=
  let n := Z.abs c in
  if n =? 0 then Ok (mkDec 0 (Z.min (Z.max e Etiny) Emax))
  else
    let exp_min0 := ndigits n + e - prec in
    if Etop <? exp_min0 then Raise DecimalOverflow
    else
      let exp_min := Z.max exp_min0 Etiny in
      if e <? exp_min then
        let q := round_half_even n (exp_min - e) in
        let '(q', e') :=
          if 10 ^ prec <=? q then (q / 10, exp_min + 1) else (q, exp_min) in
        if Etop <? e' then Raise DecimalOverflow
        else Ok (mkDec (Z.sgn c * q') e')
      else Ok (mkDec c e).

(** [Decimal(n)] for an integer [n]: exact, no rounding. *)
Definition of_int (n : Z) : Decimal := mkDec n 0.

(** [a + b]: the exact sum at the smaller exponent, then [_fix]. *)
Definition add (a b : Decimal) : result Decimal :=
  let e := Z.min (dexp a) (dexp b) in
  fix_ (coef a * 10 ^ (dexp a - e) + coef b * 10 ^ (dexp b - e)) e.

(** [a * b]: the exact product, then [_fix]. *)
Definition mul (a b : Decimal) : result Decimal :=
  fix_ (coef a * coef b) (dexp a + dexp b).

(** [a * n] for an integer [n]: [n] is first converted exactly. *)
Definition mul_int (a : Decimal) (n : Z) : result Decimal :=
  mul a (of_int n).

(** [int(a)]: truncation towards zero. *)
Definition to_int (a : Decimal) : Z :=
  if 0 <=? dexp a then coef a * 10 ^ dexp a
  else Z.quot (coef a) (10 ^ (- dexp a)).

(** [round(a)]: to the nearest integer, ties to even. *)
Definition round (a : Decimal) : Z :=
  if 0 <=? dexp a then coef a * 10 ^ dexp a
  else Z.sgn (coef a) * round_half_even (Z.abs (coef a)) (- dexp a).

(** The exact value of [a] in hundredths, an integer when
    [-2 <= dexp a]. *)
Definition hundredths (a : Decimal) : Z := coef a * 10 ^ (dexp a + 2).

(** [Decimal("0.00")] *)
Definition zero_00 : Decimal := mkDec 0 (-2).

End Dec.

Import Dec (Decimal, mkDec, coef, dexp).

(** ** models.py *)

(** The values of an integer column of the database, and so of the
    automatic primary key [id] of a model: 64 bits, signed. *)
Definition db_integer (i : Z) : bool := (- 2 ^ 63 <=? i) && (i <? 2 ^ 63).

(** [Product]: the fields the views read. [id] is the primary key the
    database assigned, so it is a [db_integer]. *)
Record Product : Type := mkProduct {
  product_id : Z;
  product_name : string;
  product_price : Decimal;
  is_featured : bool;
  is_active : bool;
  product_id_range : Is_true (db_integer product_id)
}.

Global Instance Product_eq_dec : EqDecision Product.
Proof.
  intros [i1 n1 p1 f1 a1 H1] [i2 n2 p2 f2 a2 H2].
  destruct (decide (i1 = i2)) as [<-|?]; [|right; congruence].
  destruct (decide (n1 = n2)) as [<-|?]; [|right; congruence].
  destruct (decide (p1 = p2)) as [<-|?]; [|right; congruence].
  destruct (decide (f1 = f2)) as [<-|?]; [|right; congruence].
  destruct (decide (a1 = a2)) as [<-|?]; [|right; congruence].
  left. f_equal. apply proof_irrel.
Defined.

Record UserProfile : Type := mkUserProfile {
  phone : string;
  address : string;
  city : string;
  state : string;
  postal_code : string
}.

(** [django.contrib.auth.models.User], as far as the views read it. *)
Record User : Type := mkUser {
  username : string;
  email : string;
  first_name : string;
  last_name : string;
  is_authenticated : bool
}.

Definition get_full_name (u : User) : string :=
  Py.strip (first_name u +:+ " " +:+ last_name u).

(** ** Settings, gateway client, session, request *)

(** [getattr(settings, name, "")] gives the empty string for a missing
    setting, which the code treats like an empty one. *)
Record Settings : Type := mkSettings {
  RAZORPAY_KEY_ID : string;
  RAZORPAY_KEY_SECRET : string;
  razorpay_installed : bool;
  ORDER_NOTIFY_EMAIL : string;
  DEFAULT_FROM_EMAIL : string
}.

Record OrderData : Type := mkOrderData {
  od_amount : Z;
  od_currency : string;
  od_receipt : string;
  od_notes : list (string * string)
}.

(** The [razorpay.Client]: [order.create] returns the remote order's id
    or raises; [utility.verify_payment_signature] is given the order id,
    the payment id and the signature and answers [false] where the
    library raises [SignatureVerificationError]. *)
Record Gateway : Type := mkGateway {
  order_create : OrderData → result string;
  verify_payment_signature : string → string → string → bool
}.

(** What a request reads and does not change: the settings, the product
    table in the order of [Product.Meta.ordering], the payment client. *)
Record Env : Type := mkEnv {
  settings : Settings;
  catalog : list Product;
  razorpay : Gateway
}.

(** The dict stored under [PENDING_PAYMENT_SESSION_KEY] by [checkout].
    The code stores the amount as [str(total)] and reads it back with
    [Decimal(...)], which gives the same [Decimal]; the record keeps the
    [Decimal]. *)
Record PendingPayment : Type := mkPendingPayment {
  pp_customer_name : string;
  pp_customer_email : string;
  pp_customer_address : string;
  pp_amount : Decimal;
  pp_razorpay_order_id : string;
  pp_username : string
}.

(** The values the code stores under that key: the empty dict (written
    by a successful [payment_verify]) or a pending record. *)
Inductive PendingValue : Type :=
  | PendingEmpty
  | PendingRecord (p : PendingPayment).

(** [request.session]: the two keys of this module, the dirty flag and
    the session key. [None] is a key that is not in the session. *)
Record Session : Type := mkSession {
  session_cart : option (gmap string Z);
  session_pending : option PendingValue;
  session_modified : bool;
  session_key : option string
}.

Record Request : Type := mkRequest {
  method : string;
  POST : gmap string string;
  user : User
}.

Inductive level : Type := success | info | warning | error.

(** An f-string of [_send_order_notification]: its text, with the amount
    that is formatted with [:.2f] kept as the [Decimal]. *)
Inductive piece : Type :=
  | Text (s : string)
  | Money2f (d : Decimal).

Record Mail : Type := mkMail {
  mail_subject : string;
  mail_message : list (list piece);
  mail_from_email : string;
  mail_recipient_list : list string
}.

Record Notification : Type := mkNotification {
  n_customer_name : string;
  n_customer_email : string;
  n_total : Decimal;
  n_payment_method : string;
  n_payment_id : string;
  n_username : string
}.

Record CartItem : Type := mkCartItem {
  item_product : Product;
  item_quantity : Z;
  item_line_total : Decimal
}.

Inductive ctxval : Type :=
  | CStr (s : string)
  | CInt (n : Z)
  | CDec (d : Decimal)
  | CItems (l : list CartItem)
  | CDict (l : list (string * string)).

(** Responses. A redirect or a URL in a context is kept as the route name
    it is reversed from; [RedirectToLogin] is the answer of
    [@login_required], [HttpResponseNotAllowed] that of [@require_POST]. *)
Inductive response : Type :=
  | Redirect (to : string)
  | Render (template : string) (context : list (string * ctxval))
  | RedirectToLogin
  | HttpResponseNotAllowed.

(** Everything a view can change: the session, the user's profile row,
    the flashed messages, the mails handed to [send_mail], the orders
    sent to the gateway, and the calls of [_send_order_notification]
    (recorded so that they can be counted). *)
Record World : Type := mkWorld {
  session : Session;
  profile_row : option UserProfile;
  flash : list (level * string);
  outbox : list Mail;
  remote_orders : list OrderData;
  notify_calls : list Notification
}.

Definition set_session (f : Session → Session) (w : World) : World :=
  mkWorld (f (session w)) (profile_row w) (flash w) (outbox w)
          (remote_orders w) (notify_calls w).

Definition set_profile_row (p : option UserProfile) (w : World) : World :=
  mkWorld (session w) p (flash w) (outbox w) (remote_orders w) (notify_calls w).

Definition add_flash (m : level * string) (w : World) : World :=
  mkWorld (session w) (profile_row w) (flash w ++ [m]) (outbox w)
          (remote_orders w) (notify_calls w).

Definition add_mail (m : Mail) (w : World) : World :=
  mkWorld (session w) (profile_row w) (flash w) (outbox w ++ [m])
          (remote_orders w) (notify_calls w).

Definition add_remote_order (d : OrderData) (w : World) : World :=
  mkWorld (session w) (profile_row w) (flash w) (outbox w)
          (remote_orders w ++ [d]) (notify_calls w).

Definition add_notify_call (n : Notification) (w : World) : World :=
  mkWorld (session w) (profile_row w) (flash w) (outbox w)
          (remote_orders w) (notify_calls w ++ [n]).

(** [request.session[CART_SESSION_KEY] = cart; modified = True] *)
Definition store_cart (c : gmap string Z) (s : Session) : Session :=
  mkSession (Some c) (session_pending s) true (session_key s).

(** [request.session[PENDING_PAYMENT_SESSION_KEY] = v; modified = True] *)
Definition store_pending (v : PendingValue) (s : Session) : Session :=
  mkSession (session_cart s) (Some v) true (session_key s).

(** ** The monad of the views: state and exceptions *)

Definition M (A : Type) : Type := World → result A * World.

Global Instance M_ret : MRet M := λ A a w, (Ok a, w).
Global Instance M_bind : MBind M := λ A B k m w,
  match m w with
  | (Ok a, w') => k a w'
  | (Raise e, w') => (Raise e, w')
  end.

Definition get_world : M World := λ w, (Ok w, w).
Definition modify (f : World → World) : M unit := λ w, (Ok (), f w).
Definition lift {A} (r : result A) : M A := λ w, (r, w).

(** ** views.py *)

Definition CART_SESSION_KEY : string := "cart".
Definition PENDING_PAYMENT_SESSION_KEY : string := "pending_online_payment".

Definition PAYMENT_METHODS : list (string * string) :=
  [ ("cod", "Cash on Delivery");
    ("online", "Online Payment (UPI / Debit Card / Credit Card)") ].

(** [PAYMENT_METHODS[key]] and [key in PAYMENT_METHODS] *)
Definition payment_method_label (key : string) : option string :=
  snd <$> find (λ kv, String.eqb (fst kv) key) PAYMENT_METHODS.

(** [d.get(key, default)] on a form or a dict *)
Definition get_or {V} (d : gmap string V) (key : string) (dflt : V) : V :=
  default dflt (d !! key).

(** [a or b] on strings *)
Definition str_or (a b : string) : string :=
  if String.eqb a "" then b else a.

Definition newline : string := String (ascii_of_nat 10) EmptyString.

(** [sep.join(part for part in parts if part)] *)
Fixpoint join_nonempty (sep : string) (parts : list string) : string :=
  match parts with
  | [] => ""
  | part :: rest =>
      if String.eqb part "" then join_nonempty sep rest
      else
        match join_nonempty sep rest with
        | EmptyString => part
        | tail => part +:+ sep +:+ tail
        end
  end.

Definition _get_cart (s : Session) : gmap string Z :=
  default ∅ (session_cart s).

Definition _save_cart (c : gmap string Z) : M unit :=
  modify (set_session (store_cart c)).

(** [Product.objects.filter(id__in=product_ids, is_active=True)] *)
Definition active_products_in (K : list Product) (product_ids : list Z)
  : list Product :=
  filter (λ p, product_id p ∈ product_ids ∧ is_active p = true) K.

(** The [for product in products] loop of [_build_cart_items]. *)
Fixpoint price_loop (c : gmap string Z) (products : list Product)
    (items : list CartItem) (total : Decimal)
  : result (list CartItem * Decimal) :=
  match products with
  | [] => Ok (items, total)
  | product :: rest =>
      let quantity := get_or c (Py.str (product_id product)) 0 in
      line_total ← Dec.mul_int (product_price product) quantity;
      total' ← Dec.add total line_total;
      price_loop c rest (items ++ [mkCartItem product quantity line_total])
                 total'
  end.

Definition _build_cart_items (K : list Product) (c : gmap string Z)
  : result (list CartItem * Decimal) :=
  if decide (c = ∅) then Ok ([], Dec.zero_00)
  else
    product_ids ← rmap_list Py.int (fst <$> map_to_list c);
    price_loop c (active_products_in K product_ids) [] Dec.zero_00.

Definition _get_razorpay_client (env : Env) : option Gateway :=
  let key_id := RAZORPAY_KEY_ID (settings env) in
  let key_secret := RAZORPAY_KEY_SECRET (settings env) in
  if String.eqb key_id "" || String.eqb key_secret ""
     || negb (razorpay_installed (settings env))
  then None
  else Some (razorpay env).

Definition _send_order_notification (env : Env) (n : Notification) : M unit :=
  _ ← modify (add_notify_call n);
  let notify_to := ORDER_NOTIFY_EMAIL (settings env) in
  if String.eqb notify_to "" then mret ()
  else
    let subject := "New Order Placed: " +:+ n_customer_name n in
    let lines :=
      [ [Text "A new order has been placed on E-commarse."];
        [Text ("Customer Name: " +:+ n_customer_name n)];
        [Text ("Username: " +:+ str_or (n_username n) "Guest")];
        [Text ("Customer Email: " +:+ str_or (n_customer_email n) "N/A")];
        [Text "Total Amount: Rs "; Money2f (n_total n)];
        [Text ("Payment Method: " +:+ n_payment_method n)] ] in
    let lines :=
      if String.eqb (n_payment_id n) "" then lines
      else (lines ++ [[Text ("Payment ID: " +:+ n_payment_id n)]])%list in
    modify (add_mail (mkMail subject lines
                             (DEFAULT_FROM_EMAIL (settings env))
                             [notify_to])).

(** [UserProfile.objects.get_or_create(user=user)] *)
Definition _get_or_create_user_profile : M UserProfile :=
  w ← get_world;
  match profile_row w with
  | Some p => mret p
  | None =>
      let p := mkUserProfile "" "" "" "" "" in
      _ ← modify (set_profile_row (Some p));
      mret p
  end.

Definition _build_saved_address (p : UserProfile) : string :=
  let line2 := join_nonempty " " [city p; state p; postal_code p] in
  join_nonempty newline [Py.strip (address p); Py.strip line2].

(** [get_object_or_404(Product, id=product_id, is_active=True)] *)
Definition get_object_or_404 (K : list Product) (pid : Z) : result Product :=
  match filter (λ p, product_id p = pid ∧ is_active p = true) K with
  | [] => Raise Http404
  | [p] => Ok p
  | _ => Raise MultipleObjectsReturned
  end.

Definition add_to_cart (env : Env) (request : Request) (pid : Z) : M response :=
  if negb (String.eqb (method request) "POST") then mret HttpResponseNotAllowed
  else
    product ← lift (get_object_or_404 (catalog env) pid);
    quantity ← lift (match POST request !! "quantity" with
                     | Some s => Py.int s
                     | None => Ok 1
                     end);
    let quantity := if quantity <? 1 then 1 else quantity in
    w ← get_world;
    let c := _get_cart (session w) in
    let key := Py.str (product_id product) in
    let c := <[key := get_or c key 0 + quantity]> c in
    _ ← _save_cart c;
    _ ← modify (add_flash
                  (success, "Added " +:+ product_name product +:+ " to cart."));
    mret (Redirect (str_or (get_or (POST request) "next" "") "products")).

(** [remove_from_cart]. [pid] is the integer the URL converter read from
    the path, so [str(product_id)] is within the limit on digits. *)
Definition remove_from_cart (request : Request) (pid : Z) : M response :=
  if negb (String.eqb (method request) "POST") then mret HttpResponseNotAllowed
  else
    w ← get_world;
    let c := _get_cart (session w) in
    let key := Py.str pid in
    _ ← match c !! key with
        | Some _ =>
            _ ← _save_cart (delete key c);
            modify (add_flash (info, "Item removed from cart."))
        | None => mret ()
        end;
    mret (Redirect "cart").

Definition cart (env : Env) (request : Request) : M response :=
  w ← get_world;
  '(items, total) ← lift (_build_cart_items (catalog env) (_get_cart (session w)));
  mret (Render "storefront/cart.html"
          [ ("page_title", CStr "Your Cart");
            ("items", CItems items);
            ("total", CDec total) ]).

(** [int(total * 100)] *)
Definition amount_subunits (total : Decimal) : result Z :=
  t ← Dec.mul_int total 100; Ok (Dec.to_int t).

(** [checkout]. On the online path the order data is built before
    [client.order.create] is called: the f-string of the receipt formats
    the amount, and raises [ValueError] for an amount of more than
    [Py.max_str_digits] digits, so that no order is sent then. *)
Definition checkout (env : Env) (request : Request) : M response :=
  if negb (is_authenticated (user request)) then mret RedirectToLogin
  else
    w ← get_world;
    '(items, total) ← lift (_build_cart_items (catalog env) (_get_cart (session w)));
    profile ← _get_or_create_user_profile;
    let u := user request in
    match items with
    | [] =>
        _ ← modify (add_flash (warning, "Your cart is empty."));
        mret (Redirect "products")
    | _ :: _ =>
        if String.eqb (method request) "POST" then
          let customer_name :=
            str_or (Py.strip (get_or (POST request) "name"
                                (str_or (get_full_name u) (username u))))
                   (username u) in
          let customer_email := Py.strip (get_or (POST request) "email" (email u)) in
          let customer_address := Py.strip (get_or (POST request) "address" "") in
          let payment_method := get_or (POST request) "payment_method" "cod" in
          _ ← (if String.eqb customer_address "" then mret ()
               else modify (set_profile_row
                              (Some (mkUserProfile (phone profile) customer_address
                                       (city profile) (state profile)
                                       (postal_code profile)))));
          match payment_method_label payment_method with
          | None =>
              _ ← modify (add_flash (error, "Please select a valid payment method."));
              mret (Redirect "checkout")
          | Some label =>
              if String.eqb payment_method "cod" then
                _ ← _send_order_notification env
                      (mkNotification customer_name customer_email total
                         "Cash on Delivery" "" (username u));
                _ ← modify (set_session (store_cart ∅));
                mret (Render "storefront/checkout_success.html"
                        [ ("page_title", CStr "Order Confirmed");
                          ("customer_name", CStr customer_name);
                          ("total", CDec total);
                          ("payment_method_label", CStr label) ])
              else
                match _get_razorpay_client env with
                | None =>
                    _ ← modify (add_flash
                          (error, "Online payment is not configured yet. Add Razorpay keys in settings/env."));
                    mret (Redirect "checkout")
                | Some client =>
                    amount ← lift (amount_subunits total);
                    w1 ← get_world;
                    amount_text ← lift (Py.format_int amount);
                    let data :=
                      mkOrderData amount "INR"
                        ("order_"
                         +:+ str_or (default "" (session_key (session w1))) (username u)
                         +:+ "_" +:+ amount_text)
                        [ ("customer_name", customer_name);
                          ("email", customer_email);
                          ("username", username u) ] in
                    _ ← modify (add_remote_order data);
                    order_id ← lift (order_create client data);
                    _ ← modify (set_session (store_pending
                          (PendingRecord
                             (mkPendingPayment customer_name customer_email
                                customer_address total order_id (username u)))));
                    mret (Render "storefront/online_payment.html"
                            [ ("page_title", CStr "Online Payment");
                              ("razorpay_key_id", CStr (RAZORPAY_KEY_ID (settings env)));
                              ("razorpay_order_id", CStr order_id);
                              ("amount_subunits", CInt amount);
                              ("total", CDec total);
                              ("currency", CStr "INR");
                              ("customer_name", CStr customer_name);
                              ("customer_email", CStr customer_email);
                              ("verify_url", CStr "payment_verify") ])
                end
          end
        else
          mret (Render "storefront/checkout.html"
                  [ ("page_title", CStr "Checkout");
                    ("items", CItems items);
                    ("total", CDec total);
                    ("payment_methods", CDict PAYMENT_METHODS);
                    ("initial_name", CStr (str_or (get_full_name u) (username u)));
                    ("initial_email", CStr (email u));
                    ("initial_address", CStr (_build_saved_address profile)) ])
    end.

Definition payment_verify (env : Env) (request : Request) : M response :=
  if negb (is_authenticated (user request)) then mret RedirectToLogin
  else if negb (String.eqb (method request) "POST") then mret HttpResponseNotAllowed
  else
    match _get_razorpay_client env with
    | None =>
        _ ← modify (add_flash (error, "Online payment is not configured."));
        mret (Redirect "checkout")
    | Some client =>
        w ← get_world;
        match session_pending (session w) with
        | None | Some PendingEmpty =>
            _ ← modify (add_flash (error, "No pending online payment found."));
            mret (Redirect "checkout")
        | Some (PendingRecord pending) =>
            let razorpay_payment_id := get_or (POST request) "razorpay_payment_id" "" in
            let razorpay_order_id := get_or (POST request) "razorpay_order_id" "" in
            let razorpay_signature := get_or (POST request) "razorpay_signature" "" in
            if negb (String.eqb razorpay_order_id (pp_razorpay_order_id pending)) then
              _ ← modify (add_flash
                    (error, "Order mismatch detected. Please try checkout again."));
              mret (Redirect "checkout")
            else if negb (verify_payment_signature client razorpay_order_id
                            razorpay_payment_id razorpay_signature) then
              mret (Render "storefront/payment_failed.html"
                      [ ("page_title", CStr "Payment Failed");
                        ("reason", CStr "Payment signature verification failed.") ])
            else
              let customer_name :=
                str_or (pp_customer_name pending) (username (user request)) in
              _ ← _send_order_notification env
                    (mkNotification customer_name (pp_customer_email pending)
                       (pp_amount pending)
                       "Online Payment (UPI / Debit Card / Credit Card)"
                       razorpay_payment_id (pp_username pending));
              _ ← modify (set_session (store_cart ∅));
              _ ← modify (set_session (store_pending PendingEmpty));
              mret (Render "storefront/checkout_success.html"
                      [ ("page_title", CStr "Order Confirmed");
                        ("customer_name", CStr customer_name);
                        ("total", CDec (pp_amount pending));
                        ("payment_method_label",
                         CStr "Online Payment (UPI / Debit Card / Credit Card)");
                        ("payment_id", CStr razorpay_payment_id) ])
        end
    end.


(** ** Specification-side definitions *)

(** Every character of [s] satisfies [P]. *)
Fixpoint string_forall (P : ascii → Prop) (s : string) : Prop :=
  match s with
  | EmptyString => True
  | String a r => P a ∧ string_forall P r
  end.

Definition is_digit (a : ascii) : Prop :=
  ∃ d, 0 ≤ d < 10 ∧ a = Py.ascii_of_digit d.

(** A cart key as [add_to_cart] writes it: [str(product.id)]. *)
Definition canonical_key (key : string) : bool :=
  match Py.int key with
  | Ok i => String.eqb (Py.str i) key
  | Raise _ => false
  end.

(** The product table as the database keeps it: [id] is the primary
    key, and a price read from [DecimalField(decimal_places=2)] has
    exponent -2. *)
Definition catalog_ok (K : list Product) : Prop :=
  NoDup (product_id <$> K) ∧ Forall (λ p, dexp (product_price p) = -2) K.

(** The active product a cart key stands for, if there is one. *)
Definition active_product_of_key (K : list Product) (key : string)
  : option Product :=
  List.find (λ p, String.eqb (Py.str (product_id p)) key && is_active p) K.

(** What one cart entry is worth under the weight [w]: [w p quantity]
    when its product [p] exists and is active, nothing otherwise. *)
Definition entry_worth (w : Product → Z → Z) (K : list Product)
    (key : string) (quantity : Z) : Z :=
  match active_product_of_key K key with
  | Some p => w p quantity
  | None => 0
  end.

(** The sum of [entry_worth] over the entries of the cart. *)
Definition cart_sum (w : Product → Z → Z) (K : list Product)
    (c : gmap string Z) : Z :=
  map_fold (λ key quantity acc, entry_worth w K key quantity + acc) 0 c.

(** [price * quantity] in hundredths, for a two-decimal-place price. *)
Definition line_cents (p : Product) (quantity : Z) : Z :=
  coef (product_price p) * quantity.

(** The exact total of the cart in hundredths: the sum of
    [price * quantity] over the entries whose product is active. *)
Definition cart_total_cents (K : list Product) (c : gmap string Z) : Z :=
  cart_sum line_cents K c.

(** The sum of the absolute values of the same line totals. *)
Definition cart_magnitude (K : list Product) (c : gmap string Z) : Z :=
  cart_sum (λ p q, Z.abs (line_cents p q)) K c.

(** The same sums, taken along the product table. *)
Fixpoint catalog_sum (w : Product → Z → Z) (c : gmap string Z)
    (K : list Product) : Z :=
  match K with
  | [] => 0
  | p :: K' =>
      (if is_active p
       then match c !! Py.str (product_id p) with
            | Some q => w p q
            | None => 0
            end
       else 0) + catalog_sum w c K'
  end.

(** The item the pricing loop builds for a product whose line total is
    exact. *)
Definition priced_item (c : gmap string Z) (p : Product) : CartItem :=
  let quantity := get_or c (Py.str (product_id p)) 0 in
  mkCartItem p quantity (mkDec (line_cents p quantity) (-2)).

(** The order id, payment id and signature a verification request
    submits. *)
Definition submitted_order_id (request : Request) : string :=
  get_or (POST request) "razorpay_order_id" "".
Definition submitted_payment_id (request : Request) : string :=
  get_or (POST request) "razorpay_payment_id" "".
Definition submitted_signature (request : Request) : string :=
  get_or (POST request) "razorpay_signature" "".

(** The success path of [payment_verify]: an authenticated POST, a
    configured gateway, a pending record whose order id is the submitted
    one, and a signature the gateway accepts. *)
Definition verified (env : Env) (request : Request) (w : World) : bool :=
  is_authenticated (user request)
  && String.eqb (method request) "POST"
  && match _get_razorpay_client env, session_pending (session w) with
     | Some client, Some (PendingRecord pending) =>
         String.eqb (submitted_order_id request) (pp_razorpay_order_id pending)
         && verify_payment_signature client (submitted_order_id request)
              (submitted_payment_id request) (submitted_signature request)
     | _, _ => false
     end.

(** Sample data: the scenario of the specification (a lamp at 100.00,
    active; a vase at 50.00, inactive; two lamps and one vase in the
    cart), and a cart with a quantity of thirty-one digits. *)
Definition lamp : Product := mkProduct 3 "Lamp" (mkDec 10000 (-2)) false true I.
Definition vase : Product := mkProduct 5 "Vase" (mkDec 5000 (-2)) false false I.
Definition pen : Product := mkProduct 1 "Pen" (mkDec 1999 (-2)) false true I.
Definition sample_catalog : list Product := [lamp; vase].
Definition sample_cart : gmap string Z := <["3" := 2]> (<["5" := 1]> ∅).
Definition pen_catalog : list Product := [pen].
Definition huge_cart : gmap string Z := {["1" := 10 ^ 30 + 1]}.

(** A configured shop, a logged-in customer with two lamps and a vase in
    the cart and a pending online payment for the remote order
    [order_A1]; the sample gateway accepts the signature [valid]. *)
Definition sample_gateway : Gateway :=
  mkGateway (λ _, Ok "order_A1") (λ _ _ signature, String.eqb signature "valid").
Definition sample_settings : Settings :=
  mkSettings "rzp_key" "rzp_secret" true "shop@example.com"
             "no-reply@ecommarse.local".
Definition sample_env : Env := mkEnv sample_settings sample_catalog sample_gateway.
Definition alice : User := mkUser "alice" "alice@example.com" "Alice" "Doe" true.
Definition sample_pending : PendingPayment :=
  mkPendingPayment "Alice Doe" "alice@example.com" "1 Main St"
                   (mkDec 20000 (-2)) "order_A1" "alice".
Definition sample_session : Session :=
  mkSession (Some sample_cart) (Some (PendingRecord sample_pending)) true
            (Some "sk1").
Definition sample_world : World := mkWorld sample_session None [] [] [] [].
Definition verify_request (order_id signature : string) : Request :=
  mkRequest "POST"
    (<["razorpay_order_id" := order_id]>
       (<["razorpay_payment_id" := "pay_1"]>
          (<["razorpay_signature" := signature]> ∅)))
    alice.
Definition post_request (form : gmap string string) : Request :=
  mkRequest "POST" form alice.
Definition empty_form : gmap string string := ∅.

(** ** The catalog pages of views.py and context_processors.py *)

(** What [home] and [products] hand to the template: the page title and
    the products the query set yields. *)
Record CatalogPage : Type := mkCatalogPage {
  page_template : string;
  page_title : string;
  page_products : list Product
}.

(** [Product.objects.filter(is_featured=True, is_active=True)[:6]] *)
Definition home (env : Env) (request : Request) : M CatalogPage :=
  let featured_products :=
    take 6 (filter (λ p, is_featured p = true ∧ is_active p = true)
              (catalog env)) in
  mret (mkCatalogPage "storefront/home.html" "Home" featured_products).

(** [Product.objects.filter(is_active=True)] *)
Definition products (env : Env) (request : Request) : M CatalogPage :=
  let product_list := filter (λ p, is_active p = true) (catalog env) in
  mret (mkCatalogPage "storefront/products.html" "Products" product_list).

Definition about (request : Request) : M response :=
  mret (Render "storefront/about.html" [("page_title", CStr "About")]).

Definition contact (request : Request) : M response :=
  mret (Render "storefront/contact.html" [("page_title", CStr "Contact")]).

(** [sum(cart.values())] *)
Definition sum_values (c : gmap string Z) : Z :=
  map_fold (λ _ quantity acc, acc + quantity) 0 c.

(** [cart_summary] of context_processors.py, on the session of the
    request. *)
Definition cart_summary (w : World) : list (string * ctxval) :=
  let c := default ∅ (session_cart (session w)) in
  let cart_count := sum_values c in
  [("cart_count", CInt cart_count)].

(** ** More specification-side definitions *)

(** The carts the views write: every key is [str(id)] and every quantity
    is at least 1. *)
Definition cart_ok (c : gmap string Z) : Prop :=
  map_Forall (λ key quantity, canonical_key key = true ∧ 1 ≤ quantity) c.

(** The quantity field of an add-to-cart form as [add_to_cart] reads it,
    before the at-least-1 guard. *)
Definition submitted_quantity (request : Request) : result Z :=
  match POST request !! "quantity" with
  | Some s => Py.int s
  | None => Ok 1
  end.

(** The quantity [add_to_cart] adds for a field that reads as [q]. *)
Definition at_least_one (q : Z) : Z := if q <? 1 then 1 else q.

(** The profile row [get_or_create] creates. *)
Definition blank_profile : UserProfile := mkUserProfile "" "" "" "" "".

(** More sample data: a visitor without a session cart, a shop without
    gateway keys, a gateway that is down, a catalog with eight featured
    products. *)
Definition fresh_session : Session := mkSession None None false None.
Definition fresh_world : World := mkWorld fresh_session None [] [] [] [].
Definition get_request : Request := mkRequest "GET" empty_form alice.
Definition anonymous : User := mkUser "" "" "" "" false.
Definition unconfigured_env : Env :=
  mkEnv (mkSettings "" "" true "" "no-reply@ecommarse.local")
        sample_catalog sample_gateway.
Definition featured (i : Z) (range : Is_true (db_integer i)) : Product :=
  mkProduct i "Item" (mkDec 100 (-2)) true true range.
Definition featured_catalog : list Product :=
  [featured 11 I; featured 12 I; featured 13 I; featured 14 I; featured 15 I;
   featured 16 I; featured 17 I; featured 18 I; vase].

Definition mixed_catalog : list Product := [lamp; pen; vase].
Definition mixed_cart : gmap string Z := <["3" := 2]> (<["1" := 5]> ∅).

Definition barter_form : gmap string string :=
  <["address" := " 9 Elm Rd "]> {["payment_method" := "barter"]}.

(** * Properties *)

Example py_int_ex1 : Py.int " 1_000 " = Ok 1000. Proof. reflexivity. Qed.
Example py_int_ex2 : Py.int "abc" = Raise ValueError. Proof. reflexivity. Qed.
Example py_int_ex3 : Py.int "-7" = Ok (-7). Proof. reflexivity. Qed.
Example py_int_ex4 : Py.int "1__0" = Raise ValueError. Proof. reflexivity. Qed.
Example py_int_ex5 :
  Py.int (String (ascii_of_nat 31) "5") = Raise ValueError
  ∧ Py.strip (String (ascii_of_nat 31) " 5 ") = "5".
Proof. split; reflexivity. Qed.
Example py_int_ex6 : Py.int " +12 " = Ok 12 ∧ Py.int "+ 12" = Raise ValueError.
Proof. split; reflexivity. Qed.
Example py_str_ex1 : Py.str 1203 = "1203". Proof. reflexivity. Qed.
Example py_str_ex2 : Py.str (-45) = "-45". Proof. reflexivity. Qed.
Example py_str_ex3 : Py.str 0 = "0". Proof. reflexivity. Qed.
Example dec_ex1 :
  Dec.mul_int (mkDec 1999 (-2)) (10 ^ 30 + 1)
  = Ok (mkDec 1999000000000000000000000000 4).
Proof. vm_compute. reflexivity. Qed.
Example dec_ex2 :
  Dec.fix_ 99999999999999999999999999995 0
  = Ok (mkDec 1000000000000000000000000000 2).
Proof. vm_compute. reflexivity. Qed.

(** ** Facts about the built-ins *)

Section py_facts.

Lemma digit_cases d :
  0 ≤ d < 10 →
  d = 0 ∨ d = 1 ∨ d = 2 ∨ d = 3 ∨ d = 4 ∨ d = 5 ∨ d = 6 ∨ d = 7 ∨ d = 8 ∨ d = 9.
Proof. lia. Qed.

Ltac by_digit H :=
  destruct (digit_cases _ H) as [->|[->|[->|[->|[->|[->|[->|[->|[->| ->]]]]]]]]];
  reflexivity.

Lemma digit_of_ascii_of_digit d :
  0 ≤ d < 10 → Py.digit_of_ascii (Py.ascii_of_digit d) = Some d.
Proof. intros H. by_digit H. Qed.

Lemma digit_not_space d : 0 ≤ d < 10 → Py.is_space (Py.ascii_of_digit d) = false.
Proof. intros H. by_digit H. Qed.

Lemma digit_not_underscore d :
  0 ≤ d < 10 → Ascii.eqb (Py.ascii_of_digit d) "_"%char = false.
Proof. intros H. by_digit H. Qed.

Lemma digit_not_c_space d :
  0 ≤ d < 10 → Py.is_c_space (Py.ascii_of_digit d) = false.
Proof. intros H. by_digit H. Qed.

Lemma string_forall_impl (P Q : ascii → Prop) s :
  (∀ a, P a → Q a) → string_forall P s → string_forall Q s.
Proof. intros HPQ. induction s as [|a r IH]; simpl; [done|]. intros [? ?]; auto. Qed.

Lemma lstrip_by_id sp s :
  string_forall (λ a, sp a = false) s → Py.lstrip_by sp s = s.
Proof. destruct s as [|a r]; simpl; [done|]. by intros [-> _]. Qed.

Lemma rstrip_by_id sp s :
  string_forall (λ a, sp a = false) s → Py.rstrip_by sp s = s.
Proof.
  induction s as [|a r IH]; simpl; [done|].
  intros [Ha Hr]. rewrite (IH Hr), Ha. by destruct r.
Qed.

Lemma strip_id s :
  string_forall (λ a, Py.is_space a = false) s → Py.strip s = s.
Proof.
  intros H. unfold Py.strip, Py.lstrip, Py.rstrip.
  by rewrite (lstrip_by_id _ _ H), (rstrip_by_id _ _ H).
Qed.

(** What [rstrip] leaves is empty or ends with a character that is not
    white space, so stripping it again changes nothing. *)
Lemma rstrip_by_cons sp a r :
  Py.rstrip_by sp (String a r)
  = match Py.rstrip_by sp r with
    | EmptyString => if sp a then EmptyString else String a EmptyString
    | r' => String a r'
    end.
Proof. reflexivity. Qed.

Lemma rstrip_by_idemp sp s :
  Py.rstrip_by sp (Py.rstrip_by sp s) = Py.rstrip_by sp s.
Proof.
  induction s as [|a r IH]; [done|]. rewrite rstrip_by_cons.
  destruct (Py.rstrip_by sp r) as [|b r'] eqn:Hr.
  - destruct (sp a) eqn:Ha; [done|]. rewrite rstrip_by_cons. cbn. by rewrite Ha.
  - by rewrite rstrip_by_cons, IH.
Qed.

Lemma rstrip_by_head sp a r :
  sp a = false → ∃ r', Py.rstrip_by sp (String a r) = String a r'.
Proof.
  intros Ha. rewrite rstrip_by_cons. destruct (Py.rstrip_by sp r); rewrite ?Ha; eauto.
Qed.

Lemma lstrip_by_head sp s :
  Py.lstrip_by sp s = EmptyString
  ∨ ∃ a r, Py.lstrip_by sp s = String a r ∧ sp a = false.
Proof.
  induction s as [|a r IH]; [by left|]. cbn [Py.lstrip_by].
  destruct (sp a) eqn:Ha; [done|]. right. eauto.
Qed.

(** [s.strip().strip() == s.strip()] *)
Lemma strip_idemp s : Py.strip (Py.strip s) = Py.strip s.
Proof.
  unfold Py.strip, Py.lstrip, Py.rstrip.
  destruct (lstrip_by_head Py.is_space s) as [->|(a & r & -> & Ha)]; [done|].
  destruct (rstrip_by_head Py.is_space a r Ha) as [r' Hr']. rewrite Hr'.
  cbn [Py.lstrip_by]. rewrite Ha, <- Hr'. apply rstrip_by_idemp.
Qed.

Lemma str_digits_forall f n acc :
  0 ≤ n → string_forall is_digit acc → string_forall is_digit (Py.str_digits f n acc).
Proof.
  revert n acc. induction f as [|f IH]; intros n acc Hn Hacc; simpl; [done|].
  assert (Hd : string_forall is_digit (String (Py.ascii_of_digit (n mod 10)) acc)).
  { simpl. split; [|done]. exists (n mod 10). split; [|done].
    apply Z.mod_pos_bound. lia. }
  destruct (n <? 10); [done|].
  apply IH; [|done]. apply Z.div_pos; lia.
Qed.

Lemma str_digits_nonempty f n acc : Py.str_digits (S f) n acc ≠ EmptyString.
Proof.
  revert n acc. induction f as [|f IH]; intros n acc.
  - simpl. by destruct (n <? 10).
  - change (Py.str_digits (S (S f)) n acc)
      with (if n <? 10 then String (Py.ascii_of_digit (n mod 10)) acc
            else Py.str_digits (S f) (n / 10) (String (Py.ascii_of_digit (n mod 10)) acc)).
    destruct (n <? 10); [done|]. apply IH.
Qed.

(** Reading back the digits written by [str_digits]. *)
Lemma int_digits_str_digits f n acc seen rest :
  0 ≤ n < 2 ^ Z.of_nat (S f) →
  ∃ k, Py.int_digits acc seen (Py.str_digits (S f) n rest)
       = Py.int_digits (acc * k + n) true rest.
Proof.
  revert n acc seen rest. induction f as [|f IH]; intros n acc seen rest Hn.
  - assert (Hlt : n < 10) by (change (2 ^ Z.of_nat 1) with 2 in Hn; lia).
    simpl. apply Z.ltb_lt in Hlt as Hb. rewrite Hb. simpl.
    rewrite Z.mod_small by lia.
    rewrite digit_not_underscore, digit_of_ascii_of_digit by lia.
    exists 10. f_equal. lia.
  - change (Py.str_digits (S (S f)) n rest)
      with (if n <? 10 then String (Py.ascii_of_digit (n mod 10)) rest
            else Py.str_digits (S f) (n / 10) (String (Py.ascii_of_digit (n mod 10)) rest)).
    destruct (Z.ltb_spec n 10) as [Hlt|Hge].
    + simpl. rewrite Z.mod_small by lia.
      rewrite digit_not_underscore, digit_of_ascii_of_digit by lia.
      exists 10. f_equal. lia.
    + assert (Hdiv : 0 ≤ n / 10 < 2 ^ Z.of_nat (S f)).
      { split; [apply Z.div_pos; lia|].
        apply Z.div_lt_upper_bound; [lia|].
        rewrite (Nat2Z.inj_succ (S f)), Z.pow_succ_r in Hn by lia. lia. }
      destruct (IH (n / 10) acc seen
                  (String (Py.ascii_of_digit (n mod 10)) rest) Hdiv) as [k Hk].
      rewrite Hk. simpl.
      assert (Hm : 0 ≤ n mod 10 < 10) by (apply Z.mod_pos_bound; lia).
      rewrite digit_not_underscore, digit_of_ascii_of_digit by done.
      exists (10 * k). f_equal.
      pose proof (Z.div_mod n 10 ltac:(lia)). lia.
Qed.

Lemma log2_fuel n : 0 ≤ n → n < 2 ^ Z.of_nat (S (Z.to_nat (Z.log2 n))).
Proof.
  intros Hn. rewrite Nat2Z.inj_succ, Z2Nat.id by apply Z.log2_nonneg.
  destruct (Z.eq_dec n 0) as [->|Hne]; [done|].
  apply Z.log2_spec. lia.
Qed.

Lemma unsigned_literal (A : Type) s (x y z : string → A) :
  string_forall is_digit s → s ≠ EmptyString →
  match s with
  | String "+" r => x r
  | String "-" r => y r
  | _ => z s
  end = z s.
Proof.
  destruct s as [|a r]; [done|]. intros [(d & Hd & ->) _] _.
  destruct (digit_cases _ Hd) as [->|[->|[->|[->|[->|[->|[->|[->|[->| ->]]]]]]]]];
    reflexivity.
Qed.

Lemma is_digit_not_c_space a : is_digit a → Py.is_c_space a = false.
Proof. intros (d & Hd & ->). by apply digit_not_c_space. Qed.

(** The digits [str] writes for a natural number read back as that
    number. *)
Lemma str_digits_read n :
  0 ≤ n →
  Py.int_digits 0 false (Py.str_digits (S (Z.to_nat (Z.log2 n))) n EmptyString)
  = Some n.
Proof.
  intros Hn.
  destruct (int_digits_str_digits (Z.to_nat (Z.log2 n)) n 0 false EmptyString)
    as [k Hk]; [split; [lia|by apply log2_fuel]|].
  rewrite Hk. simpl. f_equal; lia.
Qed.

(** Reading [str(n)] as a signed literal gives [n], whatever its
    length. *)
Lemma str_read n s :
  s = Py.str n →
  match s with
  | String "+" r => Py.int_digits 0 false r
  | String "-" r => Z.opp <$> Py.int_digits 0 false r
  | _ => Py.int_digits 0 false s
  end = Some n.
Proof.
  intros ->. unfold Py.str. destruct (Z.ltb_spec n 0) as [Hneg|Hpos].
  - rewrite str_digits_read by lia. simpl. f_equal; lia.
  - rewrite (unsigned_literal _ _ (Py.int_digits 0 false)
               (λ r, Z.opp <$> Py.int_digits 0 false r) (Py.int_digits 0 false));
      [by apply str_digits_read| |apply str_digits_nonempty].
    apply str_digits_forall; [lia|done].
Qed.

Lemma str_inj n m : Py.str n = Py.str m → n = m.
Proof.
  intros H. pose proof (str_read n _ eq_refl) as Hn.
  rewrite H, (str_read m _ eq_refl) in Hn. congruence.
Qed.

Lemma count_digits_length s :
  string_forall is_digit s → Py.count_digits s = Z.of_nat (String.length s).
Proof.
  induction s as [|a r IH]; [done|]. intros [(d & Hd & ->) Hr].
  cbn [Py.count_digits String.length].
  rewrite digit_of_ascii_of_digit, (IH Hr) by done. lia.
Qed.

End py_facts.

(** ** Facts about the decimal arithmetic *)

Section dec_facts.

Lemma ndigits_aux_spec f n :
  0 < n < 2 ^ Z.of_nat (S f) →
  1 ≤ Dec.ndigits_aux f n ∧
  10 ^ (Dec.ndigits_aux f n - 1) ≤ n < 10 ^ Dec.ndigits_aux f n.
Proof.
  revert n. induction f as [|f IH]; intros n Hn.
  - change (2 ^ Z.of_nat 1) with 2 in Hn. simpl. lia.
  - simpl Dec.ndigits_aux. destruct (Z.ltb_spec n 10) as [Hlt|Hge].
    + simpl. lia.
    + assert (Hdiv : 0 < n / 10 < 2 ^ Z.of_nat (S f)).
      { split; [apply Z.div_str_pos; lia|].
        apply Z.div_lt_upper_bound; [lia|].
        rewrite (Nat2Z.inj_succ (S f)), Z.pow_succ_r in Hn by lia. lia. }
      destruct (IH _ Hdiv) as (Hk & Hlo & Hhi).
      set (k := Dec.ndigits_aux f (n / 10)) in *.
      replace (1 + k - 1) with (Z.succ (k - 1)) by lia.
      replace (1 + k) with (Z.succ k) by lia.
      rewrite !Z.pow_succ_r by lia.
      pose proof (Z.div_mod n 10 ltac:(lia)).
      pose proof (Z.mod_pos_bound n 10 ltac:(lia)).
      lia.
Qed.

Lemma ndigits_spec n :
  0 < n →
  1 ≤ Dec.ndigits n ∧ 10 ^ (Dec.ndigits n - 1) ≤ n < 10 ^ Dec.ndigits n.
Proof.
  intros Hn. apply ndigits_aux_spec. split; [done|].
  apply log2_fuel. lia.
Qed.

Lemma ndigits_unique n k :
  1 ≤ k → 10 ^ (k - 1) ≤ n < 10 ^ k → Dec.ndigits n = k.
Proof.
  intros Hk [Hlo Hhi].
  assert (Hn : 0 < n) by (pose proof (Z.pow_pos_nonneg 10 (k - 1)); lia).
  destruct (ndigits_spec n Hn) as (Hd & Hlo' & Hhi').
  set (d := Dec.ndigits n) in *.
  destruct (Z.lt_trichotomy d k) as [Hlt|[Heq|Hgt]]; [|done|].
  - pose proof (Z.pow_le_mono_r 10 d (k - 1)). lia.
  - pose proof (Z.pow_le_mono_r 10 k (d - 1)). lia.
Qed.

Lemma ndigits_le n k : 0 < n < 10 ^ k → Dec.ndigits n ≤ k.
Proof.
  intros [Hn Hk]. destruct (ndigits_spec n Hn) as (Hd & Hlo & _).
  destruct (Z.le_gt_cases (Dec.ndigits n) k) as [|Hgt]; [done|].
  assert (0 ≤ k).
  { destruct (Z.le_gt_cases 0 k); [done|]. rewrite Z.pow_neg_r in Hk; lia. }
  pose proof (Z.pow_le_mono_r 10 k (Dec.ndigits n - 1)). lia.
Qed.

Lemma ndigits_mul_100 n : 0 < n → Dec.ndigits (100 * n) = Dec.ndigits n + 2.
Proof.
  intros Hn. destruct (ndigits_spec n Hn) as (Hd & Hlo & Hhi).
  apply ndigits_unique; [lia|].
  replace (Dec.ndigits n + 2 - 1) with (Dec.ndigits n - 1 + 2) by lia.
  rewrite !Z.pow_add_r by lia. change (10 ^ 2) with 100. lia.
Qed.

Lemma round_half_even_exact m d :
  0 ≤ d → Dec.round_half_even (m * 10 ^ d) d = m.
Proof.
  intros Hd. unfold Dec.round_half_even.
  assert (Hp : 0 < 10 ^ d) by (apply Z.pow_pos_nonneg; lia).
  rewrite Z.div_mul, Z.mod_mul by lia.
  replace (10 ^ d <? 2 * 0) with false by (symmetry; apply Z.ltb_ge; lia).
  replace (10 ^ d =? 2 * 0) with false by (symmetry; apply Z.eqb_neq; lia).
  done.
Qed.

Lemma round_half_even_bounds n d :
  0 ≤ n → 0 ≤ d →
  n / 10 ^ d ≤ Dec.round_half_even n d ≤ n / 10 ^ d + 1.
Proof.
  intros _ _. unfold Dec.round_half_even.
  destruct ((10 ^ d <? 2 * (n mod 10 ^ d))
            || ((10 ^ d =? 2 * (n mod 10 ^ d)) && Z.odd (n / 10 ^ d))); lia.
Qed.

Lemma sgn_unit c : c ≠ 0 → Z.sgn c = 1 ∨ Z.sgn c = -1.
Proof. destruct c; simpl; intros; auto; done. Qed.

(** A decimal that fits the precision at a cent-scale exponent is left
    alone by [_fix]. *)
Lemma fix_exact c e :
  Z.abs c < 10 ^ 28 → -2 ≤ e ≤ 0 → Dec.fix_ c e = Ok (mkDec c e).
Proof.
  intros Hc He. unfold Dec.fix_.
  destruct (Z.eqb_spec (Z.abs c) 0) as [H0|Hne].
  - assert (c = 0) as -> by lia.
    unfold Dec.Etiny, Dec.Emin, Dec.Emax, Dec.prec. do 2 f_equal. lia.
  - assert (Hn : 0 < Z.abs c) by lia.
    pose proof (ndigits_le (Z.abs c) 28 ltac:(lia)) as HL.
    unfold Dec.Etop, Dec.Etiny, Dec.Emin, Dec.Emax, Dec.prec.
    destruct (Z.ltb_spec (999999 - 28 + 1) (Dec.ndigits (Z.abs c) + e - 28)); [lia|].
    destruct (Z.ltb_spec e (Z.max (Dec.ndigits (Z.abs c) + e - 28) (-999999 - 28 + 1)));
      [lia|done].
Qed.

(** What [_fix] returns fits the precision, and its exponent does not
    go below the cents. *)
Lemma fix_bounds c e d :
  -2 ≤ e → Dec.fix_ c e = Ok d → Z.abs (coef d) < 10 ^ 28 ∧ -2 ≤ dexp d.
Proof.
  intros He. unfold Dec.fix_.
  destruct (Z.eqb_spec (Z.abs c) 0) as [H0|Hne].
  - intros [= <-]. simpl. unfold Dec.Etiny, Dec.Emin, Dec.Emax, Dec.prec. lia.
  - assert (Hn : 0 < Z.abs c) by lia.
    destruct (ndigits_spec _ Hn) as (HL & Hlo & Hhi).
    set (L := Dec.ndigits (Z.abs c)) in *.
    unfold Dec.Etop, Dec.Etiny, Dec.Emin, Dec.Emax, Dec.prec.
    destruct (Z.ltb_spec (999999 - 28 + 1) (L + e - 28)); [done|].
    destruct (Z.ltb_spec e (Z.max (L + e - 28) (-999999 - 28 + 1))) as [Hr|Hr].
    + rewrite Z.max_l by lia.
      replace (L + e - 28 - e) with (L - 28) by lia.
      assert (Hd : 0 < L - 28) by lia.
      pose proof (round_half_even_bounds (Z.abs c) (L - 28) ltac:(lia) ltac:(lia))
        as [Hq1 Hq2].
      set (q := Dec.round_half_even (Z.abs c) (L - 28)) in *.
      assert (Hdiv : Z.abs c / 10 ^ (L - 28) < 10 ^ 28).
      { apply Z.div_lt_upper_bound; [apply Z.pow_pos_nonneg; lia|].
        rewrite <- Z.pow_add_r by lia. by replace (L - 28 + 28) with L by lia. }
      assert (Hq0 : 0 ≤ q).
      { pose proof (Z.div_pos (Z.abs c) (10 ^ (L - 28)) ltac:(lia)
                      ltac:(apply Z.pow_pos_nonneg; lia)). lia. }
      destruct (Z.leb_spec (10 ^ 28) q) as [Hcarry|Hnc].
      * destruct (Z.ltb_spec (999999 - 28 + 1) (L + e - 28 + 1)); [done|].
        intros [= <-]. simpl. split; [|lia].
        assert (q = 10 ^ 28) as -> by lia.
        change (10 ^ 28 / 10) with (10 ^ 27).
        destruct (sgn_unit c ltac:(lia)) as [-> | ->]; lia.
      * destruct (Z.ltb_spec (999999 - 28 + 1) (L + e - 28)); [done|].
        intros [= <-]. simpl. split; [|lia].
        destruct (sgn_unit c ltac:(lia)) as [-> | ->]; lia.
    + intros [= <-]. simpl. split; [|done].
      assert (L ≤ 28) by lia.
      pose proof (Z.pow_le_mono_r 10 L 28). lia.
Qed.

Lemma sgn_mul_100 c k : Z.sgn (c * 100) * (k * Z.abs c) = k * c.
Proof. destruct c; simpl Z.sgn; simpl Z.abs; lia. Qed.

(** [int] and [round] of a decimal whose value is an integer. *)
Lemma to_int_round_integral c k :
  0 ≤ k →
  Dec.to_int (mkDec (c * 10 ^ k) (- k)) = c ∧
  Dec.round (mkDec (c * 10 ^ k) (- k)) = c.
Proof.
  intros Hk. unfold Dec.to_int, Dec.round. simpl.
  assert (Hp : 0 < 10 ^ k) by (apply Z.pow_pos_nonneg; lia).
  destruct (Z.leb_spec 0 (- k)) as [H0|Hneg].
  - assert (k = 0) as -> by lia. simpl. lia.
  - rewrite Z.opp_involutive. split.
    + apply Z.quot_mul. lia.
    + rewrite Z.abs_mul, (Z.abs_eq (10 ^ k)) by lia.
      rewrite round_half_even_exact by lia.
      rewrite Z.sgn_mul, (Z.sgn_pos (10 ^ k)) by lia.
      destruct c; simpl; lia.
Qed.

Lemma to_int_round_nonneg_exp c e :
  0 ≤ e →
  Dec.to_int (mkDec c e) = c * 10 ^ e ∧ Dec.round (mkDec c e) = c * 10 ^ e.
Proof.
  intros He. unfold Dec.to_int, Dec.round. simpl.
  by destruct (Z.leb_spec 0 e); [|lia].
Qed.

(** [int] and [round] agree, and give the exact value, on every decimal
    [c * 10 ^ e] written as [(c * 10 ^ j, e - j)] with [0 <= e]. *)
Lemma to_int_round_shifted c e j :
  0 ≤ e → 0 ≤ j →
  Dec.to_int (mkDec (c * 10 ^ j) (e - j)) = c * 10 ^ e ∧
  Dec.round (mkDec (c * 10 ^ j) (e - j)) = c * 10 ^ e.
Proof.
  intros He Hj. destruct (Z.le_gt_cases j e) as [Hle|Hgt].
  - destruct (to_int_round_nonneg_exp (c * 10 ^ j) (e - j) ltac:(lia)) as [-> ->].
    rewrite <- Z.mul_assoc, <- Z.pow_add_r by lia.
    by replace (j + (e - j)) with e by lia.
  - replace (c * 10 ^ j) with (c * 10 ^ e * 10 ^ (j - e)).
    2:{ rewrite <- Z.mul_assoc, <- Z.pow_add_r by lia.
        by replace (e + (j - e)) with j by lia. }
    replace (e - j) with (- (j - e)) by lia.
    apply to_int_round_integral. lia.
Qed.

(** [total * 100] is exact for a total that fits the precision at an
    exponent of at least -2, and its [int] is the exact value. *)
Lemma mul_100_exact t r :
  Z.abs (coef t) < 10 ^ 28 → -2 ≤ dexp t →
  Dec.mul_int t 100 = Ok r →
  Dec.to_int r = Dec.hundredths t ∧ Dec.round r = Dec.hundredths t.
Proof.
  destruct t as [c e]. simpl. intros Hc He.
  unfold Dec.mul_int, Dec.mul, Dec.of_int, Dec.hundredths. simpl.
  rewrite Z.add_0_r. unfold Dec.fix_.
  rewrite Z.abs_mul. change (Z.abs 100) with 100.
  destruct (Z.eqb_spec (Z.abs c * 100) 0) as [H0|Hne].
  - assert (c = 0) as -> by lia. intros [= <-].
    unfold Dec.to_int, Dec.round. simpl.
    destruct (0 <=? _); simpl; done.
  - assert (Hn : 0 < Z.abs c) by lia.
    destruct (ndigits_spec _ Hn) as (HL & Hlo & Hhi).
    pose proof (ndigits_le (Z.abs c) 28 ltac:(lia)) as HL28.
    rewrite (Z.mul_comm (Z.abs c) 100), ndigits_mul_100 by done.
    set (L := Dec.ndigits (Z.abs c)) in *.
    unfold Dec.Etop, Dec.Etiny, Dec.Emin, Dec.Emax, Dec.prec.
    destruct (Z.ltb_spec (999999 - 28 + 1) (L + 2 + e - 28)); [done|].
    destruct (Z.ltb_spec e (Z.max (L + 2 + e - 28) (-999999 - 28 + 1))) as [Hr|Hr].
    + rewrite Z.max_l by lia.
      assert (HLc : L = 27 ∨ L = 28) by lia.
      destruct HLc as [HL'|HL']; rewrite HL' in *.
      * replace (27 + 2 + e - 28 - e) with 1 by lia.
        replace (100 * Z.abs c) with (10 * Z.abs c * 10 ^ 1) by lia.
        rewrite round_half_even_exact by lia.
        destruct (Z.leb_spec (10 ^ 28) (10 * Z.abs c)) as [Hcarry|_].
        { change (10 ^ 27) with 1000000000000000000000000000 in Hhi. lia. }
        destruct (Z.ltb_spec (999999 - 28 + 1) (27 + 2 + e - 28)); [done|].
        intros [= <-]. rewrite sgn_mul_100.
        replace (27 + 2 + e - 28) with (e + 2 - 1) by lia.
        replace (10 * c) with (c * 10 ^ 1) by lia.
        apply to_int_round_shifted; lia.
      * replace (28 + 2 + e - 28 - e) with 2 by lia.
        replace (100 * Z.abs c) with (Z.abs c * 10 ^ 2) by lia.
        rewrite round_half_even_exact by lia.
        destruct (Z.leb_spec (10 ^ 28) (Z.abs c)) as [Hcarry|_]; [lia|].
        destruct (Z.ltb_spec (999999 - 28 + 1) (28 + 2 + e - 28)); [done|].
        intros [= <-].
        replace (Z.abs c) with (1 * Z.abs c) by lia. rewrite sgn_mul_100.
        replace (28 + 2 + e - 28) with (e + 2 - 0) by lia.
        replace (1 * c) with (c * 10 ^ 0) by lia.
        apply to_int_round_shifted; lia.
    + intros [= <-].
      replace (c * 100) with (c * 10 ^ 2) by lia.
      replace e with (e + 2 - 2) at 1 3 by lia.
      apply to_int_round_shifted; lia.
Qed.

Lemma mul_100_ok t :
  Z.abs (coef t) < 10 ^ 28 → -2 ≤ dexp t ≤ 999900 →
  ∃ r, Dec.mul_int t 100 = Ok r.
Proof.
  destruct t as [c e]. simpl. intros Hc He.
  unfold Dec.mul_int, Dec.mul, Dec.of_int. simpl.
  rewrite Z.add_0_r. unfold Dec.fix_.
  rewrite Z.abs_mul. change (Z.abs 100) with 100.
  destruct (Z.eqb_spec (Z.abs c * 100) 0) as [H0|Hne]; [by eexists|].
  assert (Hn : 0 < Z.abs c) by lia.
  destruct (ndigits_spec _ Hn) as (HL & Hlo & Hhi).
  pose proof (ndigits_le (Z.abs c) 28 ltac:(lia)) as HL28.
  rewrite (Z.mul_comm (Z.abs c) 100), ndigits_mul_100 by done.
  set (L := Dec.ndigits (Z.abs c)) in *.
  unfold Dec.Etop, Dec.Etiny, Dec.Emin, Dec.Emax, Dec.prec.
  destruct (Z.ltb_spec (999999 - 28 + 1) (L + 2 + e - 28)); [lia|].
  destruct (Z.ltb_spec e (Z.max (L + 2 + e - 28) (-999999 - 28 + 1))) as [Hr|Hr];
    [|by eexists].
  rewrite Z.max_l by lia.
  destruct (10 ^ 28 <=? _).
  - destruct (Z.ltb_spec (999999 - 28 + 1) (L + 2 + e - 28 + 1)); [lia|by eexists].
  - destruct (Z.ltb_spec (999999 - 28 + 1) (L + 2 + e - 28)); [lia|by eexists].
Qed.

End dec_facts.

(** ** The limit on the digits of an integer *)

Section limit_facts.

Lemma str_digits_length f n acc :
  Z.of_nat (String.length (Py.str_digits (S f) n acc))
  = Dec.ndigits_aux f n + Z.of_nat (String.length acc).
Proof.
  revert n acc. induction f as [|f IH]; intros n acc.
  - cbn [Py.str_digits Dec.ndigits_aux].
    destruct (n <? 10); cbn [String.length]; lia.
  - change (Py.str_digits (S (S f)) n acc)
      with (if n <? 10 then String (Py.ascii_of_digit (n mod 10)) acc
            else Py.str_digits (S f) (n / 10) (String (Py.ascii_of_digit (n mod 10)) acc)).
    cbn [Dec.ndigits_aux]. destruct (n <? 10).
    + cbn [String.length]. lia.
    + rewrite IH. cbn [String.length]. lia.
Qed.

Lemma str_length_ndigits n : Py.str_length n = Dec.ndigits n.
Proof.
  unfold Py.str_length, Dec.ndigits. rewrite str_digits_length.
  cbn [String.length]. lia.
Qed.

(** [len(str(n)) <= k] exactly when [n < 10 ^ k]. *)
Lemma str_length_le n k : 0 ≤ n → 1 ≤ k → Py.str_length n ≤ k ↔ n < 10 ^ k.
Proof.
  intros Hn Hk. rewrite str_length_ndigits.
  assert (Hp : 0 < 10 ^ k) by (apply Z.pow_pos_nonneg; lia).
  destruct (Z.eq_dec n 0) as [->|Hne].
  - change (Dec.ndigits 0) with 1. lia.
  - destruct (ndigits_spec n ltac:(lia)) as (Hd & Hlo & Hhi). split.
    + intros Hle. pose proof (Z.pow_le_mono_r 10 (Dec.ndigits n) k). lia.
    + intros Hlt. apply ndigits_le. lia.
Qed.

Lemma max_str_digits_pos : 1 ≤ Py.max_str_digits.
Proof. done. Qed.

(** An integer of at most [max_str_digits] digits is formatted as
    [str] writes it; a longer one raises [ValueError]. *)
Lemma format_int_ok n :
  Z.abs n < 10 ^ Py.max_str_digits → Py.format_int n = Ok (Py.str n).
Proof.
  intros Hn. unfold Py.format_int.
  apply (str_length_le (Z.abs n) _ (Z.abs_nonneg n) max_str_digits_pos) in Hn.
  by apply Z.leb_le in Hn as ->.
Qed.

Lemma format_int_raises n :
  10 ^ Py.max_str_digits ≤ Z.abs n → Py.format_int n = Raise ValueError.
Proof.
  intros Hn. unfold Py.format_int.
  destruct (Z.leb_spec (Py.str_length (Z.abs n)) Py.max_str_digits) as [Hle|_];
    [|done].
  apply (str_length_le (Z.abs n) _ (Z.abs_nonneg n) max_str_digits_pos) in Hle.
  lia.
Qed.

Lemma format_int_cases n :
  Py.format_int n = Ok (Py.str n) ∨ Py.format_int n = Raise ValueError.
Proof. unfold Py.format_int. destruct (_ <=? _); auto. Qed.

Lemma int_literal_str_digits n :
  0 ≤ n < 10 ^ Py.max_str_digits →
  Py.int_literal (Py.str_digits (S (Z.to_nat (Z.log2 n))) n EmptyString) = Some n.
Proof.
  intros [Hn Hlt]. unfold Py.int_literal.
  rewrite count_digits_length by (apply str_digits_forall; [lia|done]).
  fold (Py.str_length n).
  apply (str_length_le n _ Hn max_str_digits_pos) in Hlt.
  apply Z.leb_le in Hlt as ->. by apply str_digits_read.
Qed.

(** [int(str(n)) == n] for an integer within the limit. *)
Lemma int_str n : Z.abs n < 10 ^ Py.max_str_digits → Py.int (Py.str n) = Ok n.
Proof.
  intros Hn. unfold Py.str. destruct (Z.ltb_spec n 0) as [Hneg|Hpos].
  - set (f := Z.to_nat (Z.log2 (- n))).
    assert (Hd : string_forall is_digit (Py.str_digits (S f) (- n) EmptyString))
      by (apply str_digits_forall; [lia|done]).
    unfold Py.int. rewrite lstrip_by_id, rstrip_by_id.
    2,3: split; [done|];
         eapply string_forall_impl; [apply is_digit_not_c_space|done].
    unfold f. rewrite int_literal_str_digits by lia. cbn. f_equal. lia.
  - set (f := Z.to_nat (Z.log2 n)).
    assert (Hd : string_forall is_digit (Py.str_digits (S f) n EmptyString))
      by (apply str_digits_forall; [lia|done]).
    unfold Py.int. rewrite lstrip_by_id, rstrip_by_id.
    2,3: eapply string_forall_impl; [apply is_digit_not_c_space|done].
    rewrite (unsigned_literal _ _ Py.int_literal
               (λ r, Z.opp <$> Py.int_literal r) Py.int_literal);
      [|done|apply str_digits_nonempty].
    unfold f. by rewrite int_literal_str_digits by lia.
Qed.

(** A primary key is far below the limit. *)
Lemma db_integer_digits i :
  Is_true (db_integer i) → Z.abs i < 10 ^ Py.max_str_digits.
Proof.
  unfold db_integer. intros [Hlo%Is_true_true_1 Hhi%Is_true_true_1]%andb_prop_elim.
  apply Z.leb_le in Hlo. apply Z.ltb_lt in Hhi.
  assert (H19 : 10 ^ 19 ≤ 10 ^ Py.max_str_digits)
    by (apply Z.pow_le_mono_r; [lia|done]).
  set (L := 10 ^ Py.max_str_digits) in *.
  change (2 ^ 63) with 9223372036854775808 in *.
  change (10 ^ 19) with 10000000000000000000 in *. lia.
Qed.

Lemma product_id_digits p : Z.abs (product_id p) < 10 ^ Py.max_str_digits.
Proof. apply db_integer_digits, product_id_range. Qed.

Lemma canonical_key_str i :
  Z.abs i < 10 ^ Py.max_str_digits → canonical_key (Py.str i) = true.
Proof.
  intros Hi. unfold canonical_key. rewrite int_str by done. apply String.eqb_refl.
Qed.

End limit_facts.

(** ** Facts about cart pricing *)

Section pricing_facts.

Lemma rmap_list_ok {A B} (f : A → result B) (l : list A) :
  Forall (λ x, ∃ y, f x = Ok y) l →
  ∃ ys, rmap_list f l = Ok ys ∧ ∀ y, y ∈ ys ↔ ∃ x, x ∈ l ∧ f x = Ok y.
Proof.
  induction 1 as [|x l [y Hy] _ (ys & Hys & Hmem)].
  - exists []. split; [done|]. intros y. split; [by intros ?%elem_of_nil|].
    by intros (x & ?%elem_of_nil & _).
  - exists (y :: ys). split; [simpl; by rewrite Hy, Hys|].
    intros z. rewrite elem_of_cons, Hmem. split.
    + intros [->|(x' & Hx' & Hz)]; [exists x|exists x']; rewrite elem_of_cons; auto.
    + intros (x' & [->|Hx']%elem_of_cons & Hz); [left; congruence|right; eauto].
Qed.

Lemma canonical_key_spec key :
  canonical_key key = true → ∃ i, Py.int key = Ok i ∧ Py.str i = key.
Proof.
  unfold canonical_key. destruct (Py.int key) as [i|]; [|done].
  intros H%String.eqb_eq. eauto.
Qed.

(** The ids read from the keys of a cart with canonical keys. *)
Lemma cart_product_ids (c : gmap string Z) :
  map_Forall (λ key _, canonical_key key = true) c →
  ∃ ids, rmap_list Py.int (fst <$> map_to_list c) = Ok ids
         ∧ ∀ i, i ∈ ids ↔ is_Some (c !! Py.str i).
Proof.
  intros Hc.
  destruct (rmap_list_ok Py.int (fst <$> map_to_list c)) as (ids & Hids & Hmem).
  { apply Forall_forall. intros key [[k q] [-> Hkq]]%list_elem_of_fmap.
    apply elem_of_map_to_list in Hkq.
    destruct (canonical_key_spec k (Hc _ _ Hkq)) as (i & Hi & _). eauto. }
  exists ids. split; [done|]. intros i. rewrite Hmem. split.
  - intros (key & [[k q] [-> Hkq]]%list_elem_of_fmap & Hi). simpl in Hi.
    apply elem_of_map_to_list in Hkq.
    destruct (canonical_key_spec k (Hc _ _ Hkq)) as (i' & Hi' & Hs).
    assert (i' = i) as -> by congruence. rewrite Hs. eauto.
  - intros [q Hq]. exists (Py.str i). split.
    + apply list_elem_of_fmap. exists (Py.str i, q). split; [done|].
      by apply elem_of_map_to_list.
    + destruct (canonical_key_spec _ (Hc _ _ Hq)) as (i' & Hi' & Hs).
      by rewrite Hi', (str_inj _ _ Hs).
Qed.

Lemma catalog_sum_abs_nonneg (c : gmap string Z) K :
  0 ≤ catalog_sum (λ p q, Z.abs (line_cents p q)) c K.
Proof.
  induction K as [|p K IH]; simpl; [done|].
  destruct (is_active p); [|lia]. destruct (c !! _); lia.
Qed.

(** While the amounts fit the precision, the loop adds them exactly. *)
Lemma price_loop_exact (c : gmap string Z) (ids : list Z) K items t :
  (∀ i, i ∈ ids ↔ is_Some (c !! Py.str i)) →
  Forall (λ p, dexp (product_price p) = -2) K →
  Z.abs t + catalog_sum (λ p q, Z.abs (line_cents p q)) c K < 10 ^ 28 →
  price_loop c (active_products_in K ids) items (mkDec t (-2))
  = Ok ((items ++ (priced_item c <$> active_products_in K ids))%list,
        mkDec (t + catalog_sum line_cents c K) (-2)).
Proof.
  intros Hids. unfold active_products_in.
  revert items t. induction K as [|p K IH]; intros items t H2dp Hfit.
  - simpl. rewrite app_nil_r. do 3 f_equal. lia.
  - apply Forall_cons in H2dp as [Hp H2dp].
    pose proof (catalog_sum_abs_nonneg c K) as Hnn.
    cbn [catalog_sum] in Hfit.
    destruct (decide (product_id p ∈ ids ∧ is_active p = true)) as [[Hin Hact]|Hout].
    + rewrite filter_cons_True by done.
      apply Hids in Hin as [q Hq]. rewrite Hact, Hq in Hfit.
      assert (Hg : get_or c (Py.str (product_id p)) 0 = q)
        by (unfold get_or; by rewrite Hq).
      cbn [price_loop]. rewrite Hg.
      unfold Dec.mul_int, Dec.mul, Dec.of_int. cbn [coef dexp]. rewrite Hp.
      change (-2 + 0) with (-2).
      fold (line_cents p q).
      rewrite (fix_exact (line_cents p q) (-2)) by lia.
      cbn [mbind result_bind].
      unfold Dec.add. cbn [coef dexp].
      change (Z.min (-2) (-2)) with (-2). change (10 ^ (-2 - -2)) with 1.
      rewrite !Z.mul_1_r.
      rewrite (fix_exact (t + line_cents p q) (-2)) by lia.
      cbn [mbind result_bind].
      rewrite IH by (done || lia).
      rewrite <- app_assoc. cbn [fmap list_fmap app catalog_sum].
      unfold priced_item at 2. rewrite Hg, Hq, Hact. do 3 f_equal. lia.
    + rewrite filter_cons_False by done.
      assert (Hterm : (if is_active p
                       then match c !! Py.str (product_id p) with
                            | Some q => line_cents p q
                            | None => 0
                            end
                       else 0) = 0).
      { destruct (is_active p) eqn:Hact; [|done].
        destruct (c !! Py.str (product_id p)) as [q|] eqn:Hq; [|done].
        destruct Hout. split; [|done]. apply Hids. eauto. }
      simpl catalog_sum. rewrite Hterm.
      rewrite IH; [done|done|].
      destruct (is_active p); [|lia]. destruct (c !! Py.str (product_id p)); lia.
Qed.

Lemma active_product_of_key_none K key :
  (∀ p, p ∈ K → Py.str (product_id p) ≠ key) →
  active_product_of_key K key = None.
Proof.
  induction K as [|p K IH]; intros Hne; [done|].
  unfold active_product_of_key. simpl.
  assert (Hp : Py.str (product_id p) ≠ key) by (apply Hne; left).
  apply String.eqb_neq in Hp. rewrite Hp. simpl.
  apply IH. intros p' Hp'. apply Hne. by right.
Qed.

Lemma catalog_sum_insert w (m : gmap string Z) K key q :
  NoDup (product_id <$> K) → m !! key = None →
  catalog_sum w (<[key := q]> m) K
  = entry_worth w K key q + catalog_sum w m K.
Proof.
  intros Hnd Hm. induction K as [|p K IH]; [done|].
  rewrite fmap_cons in Hnd. apply NoDup_cons in Hnd as [Hp Hnd].
  specialize (IH Hnd). simpl catalog_sum. rewrite IH.
  unfold entry_worth, active_product_of_key. simpl List.find.
  destruct (String.eqb_spec (Py.str (product_id p)) key) as [Hk|Hk].
  - subst key. rewrite lookup_insert_eq, Hm.
    assert (Hnone : active_product_of_key K (Py.str (product_id p)) = None).
    { apply active_product_of_key_none. intros p' Hp' Heq%str_inj.
      apply Hp. rewrite <- Heq. apply list_elem_of_fmap. eauto. }
    unfold active_product_of_key in Hnone.
    destruct (is_active p); simpl; rewrite ?Hnone; lia.
  - rewrite lookup_insert_ne by done. simpl.
    destruct (is_active p); [|lia]. destruct (m !! Py.str (product_id p)); lia.
Qed.

Lemma catalog_sum_empty w K : catalog_sum w ∅ K = 0.
Proof.
  induction K as [|p K IH]; simpl; [done|].
  rewrite IH, lookup_empty. by destruct (is_active p).
Qed.

(** The sum along the product table is the sum over the cart entries. *)
Lemma catalog_sum_cart_sum w K (c : gmap string Z) :
  NoDup (product_id <$> K) → catalog_sum w c K = cart_sum w K c.
Proof.
  intros Hnd. induction c as [|key q m Hm IH] using map_ind.
  - unfold cart_sum. by rewrite catalog_sum_empty, map_fold_empty.
  - rewrite catalog_sum_insert by done. unfold cart_sum.
    rewrite map_fold_insert_L; [|intros; lia|done].
    fold (cart_sum w K m). by rewrite IH.
Qed.

(** What [_fix] guarantees carries over to every total the loop can
    return. *)
Lemma price_loop_bounds (c : gmap string Z) products items total r :
  Forall (λ p, dexp (product_price p) = -2) products →
  Z.abs (coef total) < 10 ^ 28 → -2 ≤ dexp total →
  price_loop c products items total = Ok r →
  Z.abs (coef r.2) < 10 ^ 28 ∧ -2 ≤ dexp r.2.
Proof.
  revert items total. induction products as [|p products IH];
    intros items total H2dp Hc He; simpl.
  - by intros [= <-].
  - apply Forall_cons in H2dp as [Hp H2dp].
    destruct (Dec.mul_int _ _) as [line|] eqn:Hline; [|done]. simpl.
    destruct (Dec.add total line) as [total'|] eqn:Hadd; [|done]. simpl.
    unfold Dec.mul_int, Dec.mul in Hline. simpl in Hline. rewrite Hp in Hline.
    apply fix_bounds in Hline as [_ Hle]; [|done].
    unfold Dec.add in Hadd. apply fix_bounds in Hadd as [Hc' He']; [|lia].
    by apply IH.
Qed.

Lemma build_cart_items_bounds K (c : gmap string Z) items total :
  catalog_ok K →
  _build_cart_items K c = Ok (items, total) →
  Z.abs (coef total) < 10 ^ 28 ∧ -2 ≤ dexp total.
Proof.
  intros [_ H2dp]. unfold _build_cart_items.
  destruct (decide (c = ∅)); [by intros [= <- <-]|].
  destruct (rmap_list _ _) as [ids|]; [|done]. simpl.
  intros Hloop.
  apply (price_loop_bounds _ _ _ _ _) in Hloop; [done| |done|done].
  unfold active_products_in. apply Forall_forall.
  intros p [_ Hp]%list_elem_of_filter.
  by apply (proj1 (Forall_forall _ _) H2dp).
Qed.

End pricing_facts.

(** ** Cart pricing *)

Lemma entry_worth_inactive w K key q :
  (∀ p, p ∈ K → Py.str (product_id p) = key → is_active p = false) →
  entry_worth w K key q = 0.
Proof.
  intros Hin. unfold entry_worth, active_product_of_key.
  destruct (List.find _ K) as [p|] eqn:Hfind; [|done].
  apply find_some in Hfind as [Hp [Hk Hact]%andb_prop].
  apply String.eqb_eq in Hk. apply list_elem_of_In in Hp.
  rewrite (Hin p Hp Hk) in Hact. done.
Qed.

Lemma entry_worth_active w K p q :
  NoDup (product_id <$> K) → p ∈ K → is_active p = true →
  entry_worth w K (Py.str (product_id p)) q = w p q.
Proof.
  intros Hnd Hp Hact. unfold entry_worth, active_product_of_key.
  induction K as [|p' K IH]; [by apply elem_of_nil in Hp|].
  rewrite fmap_cons in Hnd. apply NoDup_cons in Hnd as [Hp' Hnd].
  simpl. apply elem_of_cons in Hp as [<-|Hp].
  - by rewrite String.eqb_refl, Hact.
  - destruct (String.eqb_spec (Py.str (product_id p')) (Py.str (product_id p)))
      as [Heq%str_inj|_]; [|by apply IH].
    destruct Hp'. rewrite Heq. by apply list_elem_of_fmap_2.
Qed.

(** C1, as amended. For every product table (ids unique, prices at two
    decimal places) and every cart whose keys are [str(id)], as long as the
    line totals together stay below 10^28 hundredths (the 28 significant
    digits of the decimal context): [_build_cart_items] returns, its total
    is exactly the sum of [price * quantity] over the cart entries whose
    product exists and is active; an entry whose product is inactive or
    deleted is worth zero in that sum, an entry of an active product is
    worth [price * quantity]; the items returned are exactly those
    products with their quantities; and the empty cart gives
    [([], Decimal("0.00"))]. *)
Theorem build_cart_items_total K (c : gmap string Z) :
  catalog_ok K →
  map_Forall (λ key _, canonical_key key = true) c →
  cart_magnitude K c < 10 ^ 28 →
  (∃ items total,
     _build_cart_items K c = Ok (items, total)
     ∧ total = mkDec (cart_total_cents K c) (-2)
     ∧ Dec.hundredths total = cart_total_cents K c
     ∧ ∀ p q, (∃ lt, mkCartItem p q lt ∈ items)
              ↔ p ∈ K ∧ is_active p = true
                ∧ c !! Py.str (product_id p) = Some q)
  ∧ (∀ key q,
       (∀ p, p ∈ K → Py.str (product_id p) = key → is_active p = false) →
       entry_worth line_cents K key q = 0)
  ∧ (∀ p q, p ∈ K → is_active p = true →
       entry_worth line_cents K (Py.str (product_id p)) q
       = coef (product_price p) * q)
  ∧ _build_cart_items K ∅ = Ok ([], Dec.zero_00).
Proof.
  intros [Hnd H2dp] Hkeys Hfit.
  split; [|split; [|split]].
  - unfold _build_cart_items. destruct (decide (c = ∅)) as [->|Hne].
    + exists [], Dec.zero_00. unfold cart_total_cents, cart_sum.
      rewrite map_fold_empty. split; [done|]. split; [done|]. split; [done|].
      intros p q. split; [by intros [lt ?%elem_of_nil]|].
      intros (_ & _ & Hq). by rewrite lookup_empty in Hq.
    + destruct (cart_product_ids c Hkeys) as (ids & Hids & Hmem).
      rewrite Hids. cbn [mbind result_bind].
      unfold cart_magnitude in Hfit.
      rewrite <- catalog_sum_cart_sum in Hfit by done.
      change Dec.zero_00 with (mkDec 0 (-2)).
      rewrite (price_loop_exact c ids K [] 0 Hmem H2dp) by (simpl; lia).
      unfold cart_total_cents. rewrite <- catalog_sum_cart_sum by done.
      eexists _, _. split; [done|]. split; [done|]. split.
      { unfold Dec.hundredths. simpl. lia. }
      intros p q. simpl. split.
      * intros (lt & (p' & Heq & Hp')%list_elem_of_fmap).
        apply list_elem_of_filter in Hp' as [[Hin Hact] Hp'].
        apply Hmem in Hin as [q' Hq']. unfold priced_item, get_or in Heq.
        rewrite Hq' in Heq. simpl in Heq. injection Heq as -> -> _. done.
      * intros (Hp & Hact & Hq). exists (mkDec (line_cents p q) (-2)).
        apply list_elem_of_fmap. exists p. split.
        -- unfold priced_item, get_or. by rewrite Hq.
        -- apply list_elem_of_filter. split; [|done]. split; [|done].
           apply Hmem. eauto.
  - intros key q. apply entry_worth_inactive.
  - intros p q Hp Hact. by rewrite entry_worth_active.
  - unfold _build_cart_items. by destruct (decide _).
Qed.

Lemma sample_catalog_ok : catalog_ok sample_catalog.
Proof.
  split; [by apply (bool_decide_unpack _)|]. by repeat constructor.
Qed.

Lemma build_cart_items_total_witness :
  catalog_ok sample_catalog
  ∧ map_Forall (λ key _, canonical_key key = true) sample_cart
  ∧ cart_magnitude sample_catalog sample_cart < 10 ^ 28
  ∧ ∃ items total,
      _build_cart_items sample_catalog sample_cart = Ok (items, total)
      ∧ total = mkDec (cart_total_cents sample_catalog sample_cart) (-2).
Proof.
  assert (Hk : map_Forall (λ key _, canonical_key key = true) sample_cart)
    by (by apply (bool_decide_unpack _)).
  assert (Hm : cart_magnitude sample_catalog sample_cart < 10 ^ 28)
    by (vm_compute; reflexivity).
  split; [exact sample_catalog_ok|]. split; [exact Hk|]. split; [exact Hm|].
  destruct (build_cart_items_total sample_catalog sample_cart
              sample_catalog_ok Hk Hm) as [(items & total & H1 & H2 & _) _].
  exists items, total. split; [exact H1|exact H2].
Defined.

Example sample_cart_priced :
  _build_cart_items sample_catalog sample_cart
  = Ok ([mkCartItem lamp 2 (mkDec 20000 (-2))], mkDec 20000 (-2))
  ∧ cart_total_cents sample_catalog sample_cart = 20000.
Proof. split; vm_compute; reflexivity. Qed.

(** C1, as stated, fails: with a quantity of 10^30 + 1 of a product at
    19.99 the exact total has 34 digits, the decimal context keeps 28, and
    the total returned is 1999 * 10^30 hundredths instead of
    1999 * (10^30 + 1). *)
Lemma build_cart_items_total_inexact :
  catalog_ok pen_catalog
  ∧ map_Forall (λ key _, canonical_key key = true) huge_cart
  ∧ ∃ items total,
      _build_cart_items pen_catalog huge_cart = Ok (items, total)
      ∧ Dec.hundredths total = 1999 * 10 ^ 30
      ∧ cart_total_cents pen_catalog huge_cart = 1999 * (10 ^ 30 + 1)
      ∧ Dec.hundredths total ≠ cart_total_cents pen_catalog huge_cart.
Proof.
  split; [split; [by apply (bool_decide_unpack _)|by repeat constructor]|].
  split; [by apply (bool_decide_unpack _)|].
  eexists _, _. split; [vm_compute; reflexivity|].
  split; [vm_compute; reflexivity|].
  split; [vm_compute; reflexivity|].
  vm_compute. discriminate.
Qed.

(** ** Payment verification *)

(** Unfold the monad of the views. *)
Ltac run :=
  repeat (unfold mbind, mret, M_bind, M_ret, result_bind, result_ret,
            get_world, modify, lift;
          cbn [negb andb orb String.eqb Ascii.eqb Bool.eqb fst snd]).

(** What [_send_order_notification] does to the world: one recorded
    call, and one mail when a notification address is configured. *)
Lemma send_order_notification_run env n w :
  ∃ w', _send_order_notification env n w = (Ok (), w')
        ∧ session w' = session w
        ∧ profile_row w' = profile_row w
        ∧ flash w' = flash w
        ∧ remote_orders w' = remote_orders w
        ∧ notify_calls w' = (notify_calls w ++ [n])%list
        ∧ ((ORDER_NOTIFY_EMAIL (settings env) = "" ∧ outbox w' = outbox w)
           ∨ (ORDER_NOTIFY_EMAIL (settings env) ≠ ""
              ∧ ∃ m, outbox w' = (outbox w ++ [m])%list)).
Proof.
  unfold _send_order_notification. run.
  destruct (String.eqb_spec (ORDER_NOTIFY_EMAIL (settings env)) "") as [He|Hne].
  - eexists. split; [reflexivity|]. simpl. repeat split; auto.
  - eexists. split; [reflexivity|]. simpl. repeat split; eauto.
Qed.

(** C2. For a session holding a pending payment whose stored remote order
    id is the submitted one (authenticated POST, gateway configured): when
    the signature check fails, [payment_verify] renders the payment-failed
    view and changes nothing, so the pending record stays in the session;
    when it succeeds, the cart and the pending record are both set to the
    empty dict, [_send_order_notification] is called exactly once (sending
    at most one mail), and the confirmation is rendered. *)
Theorem payment_verify_signature env request w client pending :
  is_authenticated (user request) = true →
  method request = "POST" →
  _get_razorpay_client env = Some client →
  session_pending (session w) = Some (PendingRecord pending) →
  submitted_order_id request = pp_razorpay_order_id pending →
  (verify_payment_signature client (submitted_order_id request)
     (submitted_payment_id request) (submitted_signature request) = false →
   payment_verify env request w
   = (Ok (Render "storefront/payment_failed.html"
            [ ("page_title", CStr "Payment Failed");
              ("reason", CStr "Payment signature verification failed.") ]), w)
   ∧ session_pending (session (payment_verify env request w).2)
     = Some (PendingRecord pending))
  ∧ (verify_payment_signature client (submitted_order_id request)
       (submitted_payment_id request) (submitted_signature request) = true →
     ∃ ctx w' n,
       payment_verify env request w
       = (Ok (Render "storefront/checkout_success.html" ctx), w')
       ∧ session_cart (session w') = Some ∅
       ∧ session_pending (session w') = Some PendingEmpty
       ∧ notify_calls w' = (notify_calls w ++ [n])%list
       ∧ ((ORDER_NOTIFY_EMAIL (settings env) = "" ∧ outbox w' = outbox w)
          ∨ (ORDER_NOTIFY_EMAIL (settings env) ≠ ""
             ∧ ∃ m, outbox w' = (outbox w ++ [m])%list))).
Proof.
  intros Hauth Hpost Hclient Hpending Hid.
  unfold submitted_order_id, submitted_payment_id, submitted_signature in *.
  unfold payment_verify. rewrite Hauth, Hpost, Hclient. run.
  rewrite Hpending, Hid, String.eqb_refl.
  split; intros Hsig; rewrite Hsig; cbn [negb String.eqb Ascii.eqb Bool.eqb].
  - split; [reflexivity|]. by cbn.
  - match goal with
    | |- context [_send_order_notification env ?n w] =>
        destruct (send_order_notification_run env n w)
          as (w1 & Hrun & Hs & _ & _ & _ & Hn & Hout);
        rewrite Hrun; eexists _, _, n
    end.
    split; [reflexivity|]. cbn. rewrite Hn. auto.
Qed.

Lemma payment_verify_signature_witness :
  session_pending
    (session (payment_verify sample_env (verify_request "order_A1" "forged")
                sample_world).2)
  = Some (PendingRecord sample_pending)
  ∧ ∃ ctx w' n,
      payment_verify sample_env (verify_request "order_A1" "valid") sample_world
      = (Ok (Render "storefront/checkout_success.html" ctx), w')
      ∧ session_cart (session w') = Some ∅
      ∧ session_pending (session w') = Some PendingEmpty
      ∧ notify_calls w' = (notify_calls sample_world ++ [n])%list.
Proof.
  split.
  - apply (payment_verify_signature sample_env
             (verify_request "order_A1" "forged") sample_world
             sample_gateway sample_pending); reflexivity.
  - destruct (proj2 (payment_verify_signature sample_env
                       (verify_request "order_A1" "valid") sample_world
                       sample_gateway sample_pending
                       eq_refl eq_refl eq_refl eq_refl eq_refl) eq_refl)
      as (ctx & w' & n & H1 & H2 & H3 & H4 & _).
    exists ctx, w', n. repeat split; assumption.
Defined.

(** C3. For a session holding a pending payment (authenticated POST,
    gateway configured): when the submitted remote order id differs from
    the one stored in the pending record, [payment_verify] redirects to
    the checkout with an error message and leaves the session -- the
    pending record and the cart -- as it was, calls the notifier not at
    all and sends no mail. *)
Theorem payment_verify_mismatch env request w client pending :
  is_authenticated (user request) = true →
  method request = "POST" →
  _get_razorpay_client env = Some client →
  session_pending (session w) = Some (PendingRecord pending) →
  submitted_order_id request ≠ pp_razorpay_order_id pending →
  ∃ w',
    payment_verify env request w = (Ok (Redirect "checkout"), w')
    ∧ session_pending (session w') = Some (PendingRecord pending)
    ∧ session_cart (session w') = session_cart (session w)
    ∧ session w' = session w
    ∧ notify_calls w' = notify_calls w
    ∧ outbox w' = outbox w
    ∧ flash w'
      = (flash w ++ [(error, "Order mismatch detected. Please try checkout again.")])%list.
Proof.
  intros Hauth Hpost Hclient Hpending Hid%String.eqb_neq.
  unfold submitted_order_id in Hid.
  unfold payment_verify. rewrite Hauth, Hpost, Hclient. run.
  rewrite Hpending, Hid. run.
  eexists. split; [reflexivity|]. cbn. by rewrite Hpending.
Qed.

Lemma payment_verify_mismatch_witness :
  ∃ w',
    payment_verify sample_env (verify_request "order_B2" "valid") sample_world
    = (Ok (Redirect "checkout"), w')
    ∧ session w' = session sample_world
    ∧ notify_calls w' = notify_calls sample_world.
Proof.
  destruct (payment_verify_mismatch sample_env
              (verify_request "order_B2" "valid") sample_world
              sample_gateway sample_pending eq_refl eq_refl eq_refl eq_refl)
    as (w' & H1 & _ & _ & H2 & H3 & _).
  - vm_compute. discriminate.
  - exists w'. repeat split; assumption.
Defined.

(** C4, as amended. The pending record is set to the empty dict by
    [payment_verify] on the success path only: whatever the request, the
    session's pending value afterwards is the empty dict when the
    verification succeeded and the record as it was otherwise. A submitted
    order id that differs from the stored one and a signature that the
    gateway refuses are both among the failures, and leave the record in
    place. *)
Theorem payment_verify_pending env request w pending :
  session_pending (session w) = Some (PendingRecord pending) →
  session_pending (session (payment_verify env request w).2)
  = (if verified env request w then Some PendingEmpty
     else Some (PendingRecord pending))
  ∧ (submitted_order_id request ≠ pp_razorpay_order_id pending →
     verified env request w = false)
  ∧ (∀ client, _get_razorpay_client env = Some client →
       verify_payment_signature client (submitted_order_id request)
         (submitted_payment_id request) (submitted_signature request) = false →
       verified env request w = false).
Proof.
  intros Hpending. unfold verified, submitted_order_id, submitted_payment_id,
    submitted_signature. rewrite Hpending. split; [|split].
  - unfold payment_verify.
    destruct (is_authenticated (user request)); [|by run].
    destruct (String.eqb (method request) "POST"); [|by run].
    destruct (_get_razorpay_client env) as [client|]; [|by run].
    run. rewrite Hpending.
    destruct (String.eqb _ (pp_razorpay_order_id pending)); [|by run].
    destruct (verify_payment_signature _ _ _ _); [|by run]. run.
    match goal with
    | |- context [_send_order_notification env ?n w] =>
        destruct (send_order_notification_run env n w) as (w1 & Hrun & _);
        rewrite Hrun
    end.
    reflexivity.
  - intros Hid%String.eqb_neq. rewrite Hid.
    destruct (_get_razorpay_client env); by rewrite ?andb_false_r.
  - intros client -> ->. by rewrite !andb_false_r.
Qed.

Lemma payment_verify_pending_witness :
  session_pending
    (session (payment_verify sample_env (verify_request "order_A1" "valid")
                sample_world).2)
  = Some PendingEmpty.
Proof.
  exact (proj1 (payment_verify_pending sample_env
                  (verify_request "order_A1" "valid") sample_world
                  sample_pending eq_refl)).
Defined.

(** C4, as stated, fails on the order-mismatch path: a verification
    request for another remote order is answered by the redirect with the
    mismatch message, and the pending record is still in the session. *)
Lemma pending_survives_order_mismatch :
  payment_verify sample_env (verify_request "order_B2" "valid") sample_world
  = (Ok (Redirect "checkout"),
     add_flash (error, "Order mismatch detected. Please try checkout again.")
               sample_world)
  ∧ session_pending
      (session (payment_verify sample_env (verify_request "order_B2" "valid")
                  sample_world).2)
    = Some (PendingRecord sample_pending)
  ∧ session_pending
      (session (payment_verify sample_env (verify_request "order_B2" "valid")
                  sample_world).2)
    ≠ Some PendingEmpty.
Proof. split; [|split]; [vm_compute; reflexivity ..|vm_compute; discriminate]. Qed.

(** ** Adding to the cart *)

Lemma get_object_or_404_spec K pid p :
  get_object_or_404 K pid = Ok p →
  p ∈ K ∧ product_id p = pid ∧ is_active p = true.
Proof.
  unfold get_object_or_404.
  destruct (filter _ K) as [|p' [|? ?]] eqn:Hf; [done| |done].
  intros [= ->].
  assert (Hp : p ∈ filter (λ p, product_id p = pid ∧ is_active p = true) K)
    by (rewrite Hf; left).
  apply list_elem_of_filter in Hp as [[? ?] ?]. done.
Qed.

Lemma get_object_or_404_active K p :
  NoDup (product_id <$> K) → p ∈ K → is_active p = true →
  get_object_or_404 K (product_id p) = Ok p.
Proof.
  intros Hnd Hp Hact. unfold get_object_or_404.
  assert (Hf : filter (λ p', product_id p' = product_id p ∧ is_active p' = true) K
               = [p]); [|by rewrite Hf].
  induction K as [|p' K IH]; [by apply elem_of_nil in Hp|].
  rewrite fmap_cons in Hnd. apply NoDup_cons in Hnd as [Hp' Hnd].
  apply elem_of_cons in Hp as [<-|Hp].
  - rewrite filter_cons_True by done. f_equal.
    destruct (filter _ K) as [|x l] eqn:Hf; [done|].
    assert (Hx : x ∈ filter (λ p', product_id p' = product_id p ∧ is_active p' = true) K)
      by (rewrite Hf; left).
    apply list_elem_of_filter in Hx as [[Hid _] Hx].
    destruct Hp'. rewrite <- Hid. by apply list_elem_of_fmap_2.
  - rewrite filter_cons_False; [by apply IH|].
    intros [Hid _]. destruct Hp'. rewrite Hid. by apply list_elem_of_fmap_2.
Qed.

(** One run of [add_to_cart] with a quantity field that reads as [q]
    (or is missing, which counts as 1). *)
Lemma add_to_cart_run env request pid w product q :
  method request = "POST" →
  get_object_or_404 (catalog env) pid = Ok product →
  match POST request !! "quantity" with
  | Some s => Py.int s
  | None => Ok 1
  end = Ok q →
  ∃ to w',
    add_to_cart env request pid w = (Ok (Redirect to), w')
    ∧ session_cart (session w')
      = Some (<[Py.str (product_id product) :=
                  get_or (_get_cart (session w)) (Py.str (product_id product)) 0
                  + (if q <? 1 then 1 else q)]> (_get_cart (session w)))
    ∧ session_pending (session w') = session_pending (session w).
Proof.
  intros Hpost Hget Hq. unfold add_to_cart. rewrite Hpost, Hget, Hq. run.
  unfold _save_cart. run. eexists _, _. split; [reflexivity|]. by cbn.
Qed.

Lemma add_to_cart_stored env request pid w product q :
  method request = "POST" →
  get_object_or_404 (catalog env) pid = Ok product →
  match POST request !! "quantity" with
  | Some s => Py.int s
  | None => Ok 1
  end = Ok q →
  _get_cart (session (add_to_cart env request pid w).2)
    !! Py.str (product_id product)
  = Some (get_or (_get_cart (session w)) (Py.str (product_id product)) 0
          + (if q <? 1 then 1 else q)).
Proof.
  intros Hpost Hget Hq.
  destruct (add_to_cart_run env request pid w product q Hpost Hget Hq)
    as (to & w' & -> & Hc & _).
  cbn [snd]. unfold _get_cart at 1. rewrite Hc. cbn. apply lookup_insert_eq.
Qed.

(** C6. Adding an active product with a submitted quantity that reads as
    the integer [q] stores the prior quantity of the product (0 when it
    was not in the cart) plus [q] when [1 <= q], and plus 1 when [q < 1] or
    when the form has no quantity field; adding the same product twice
    with quantities [q1] and [q2], both at least 1, stores the prior
    quantity plus [q1 + q2]. *)
Theorem add_to_cart_quantity env request request2 pid w product :
  method request = "POST" →
  method request2 = "POST" →
  get_object_or_404 (catalog env) pid = Ok product →
  let key := Py.str (product_id product) in
  let prior := get_or (_get_cart (session w)) key 0 in
  let w1 := (add_to_cart env request pid w).2 in
  let w2 := (add_to_cart env request2 pid w1).2 in
  (POST request !! "quantity" = None →
   _get_cart (session w1) !! key = Some (prior + 1))
  ∧ (∀ s q, POST request !! "quantity" = Some s → Py.int s = Ok q →
       (1 ≤ q → _get_cart (session w1) !! key = Some (prior + q))
       ∧ (q < 1 → _get_cart (session w1) !! key = Some (prior + 1)))
  ∧ (∀ s1 q1 s2 q2,
       POST request !! "quantity" = Some s1 → Py.int s1 = Ok q1 → 1 ≤ q1 →
       POST request2 !! "quantity" = Some s2 → Py.int s2 = Ok q2 → 1 ≤ q2 →
       _get_cart (session w2) !! key = Some (prior + (q1 + q2))).
Proof.
  intros Hpost Hpost2 Hget key prior w1 w2. split; [|split].
  - intros Hnone. unfold w1, key, prior.
    rewrite (add_to_cart_stored env request pid w product 1) by (done || by rewrite Hnone).
    done.
  - intros s q Hs Hq. unfold w1, key, prior.
    rewrite (add_to_cart_stored env request pid w product q)
      by (done || by rewrite Hs).
    split; intros Hrange.
    + by destruct (Z.ltb_spec q 1); [lia|].
    + by destruct (Z.ltb_spec q 1); [|lia].
  - intros s1 q1 s2 q2 Hs1 Hq1 Hr1 Hs2 Hq2 Hr2. unfold w2, key.
    rewrite (add_to_cart_stored env request2 pid w1 product q2)
      by (done || by rewrite Hs2).
    unfold get_or at 1. unfold w1.
    rewrite (add_to_cart_stored env request pid w product q1)
      by (done || by rewrite Hs1).
    cbn. fold key prior.
    destruct (Z.ltb_spec q1 1); [lia|]. destruct (Z.ltb_spec q2 1); [lia|].
    f_equal. lia.
Qed.

Lemma add_to_cart_quantity_witness :
  _get_cart
    (session
       (add_to_cart sample_env (post_request {["quantity" := "2"]}) 3
          (add_to_cart sample_env (post_request {["quantity" := "3"]}) 3
             sample_world).2).2) !! "3"
  = Some (2 + (3 + 2)).
Proof.
  apply (proj2 (proj2 (add_to_cart_quantity sample_env
                         (post_request {["quantity" := "3"]})
                         (post_request {["quantity" := "2"]})
                         3 sample_world lamp eq_refl eq_refl eq_refl))
           "3" 3 "2" 2); (reflexivity || lia).
Defined.

(** C9. [add_to_cart] is not total over form data: for an active product
    and a POST whose quantity field is ASCII text that does not read as an
    integer ([abc], say), the [int(...)] conversion raises [ValueError]
    before the at-least-1 guard is reached; the exception escapes the
    view, nothing is stored in the cart and no message is flashed. *)
Theorem add_to_cart_non_numeric env request pid w product s :
  method request = "POST" →
  get_object_or_404 (catalog env) pid = Ok product →
  POST request !! "quantity" = Some s →
  Py.isascii s = true →
  Py.int s = Raise ValueError →
  add_to_cart env request pid w = (Raise ValueError, w).
Proof.
  intros Hpost Hget Hs _ Hint. unfold add_to_cart.
  rewrite Hpost, Hget, Hs, Hint. by run.
Qed.

Lemma add_to_cart_non_numeric_witness :
  add_to_cart sample_env (post_request {["quantity" := "abc"]}) 3 sample_world
  = (Raise ValueError, sample_world).
Proof.
  apply (add_to_cart_non_numeric sample_env
           (post_request {["quantity" := "abc"]}) 3 sample_world lamp "abc");
    reflexivity.
Defined.

(** ** Checkout *)

(** Find the call of the notifier in the goal and run it. *)
Ltac notify_step w1 Hsession Hflash Hcalls Hout :=
  match goal with
  | |- context [_send_order_notification ?env ?n ?w0] =>
      let Hrun := fresh "Hrun" in
      destruct (send_order_notification_run env n w0)
        as (w1 & Hrun & Hsession & _ & Hflash & _ & Hcalls & Hout);
      rewrite Hrun
  end.

(** The steps every authenticated checkout POST with a priced, non-empty
    cart goes through before the payment method is looked at. *)
Ltac checkout_prefix Hauth Hpost Hbuild :=
  unfold checkout; rewrite Hauth; run; rewrite Hbuild; run;
  unfold _get_or_create_user_profile; run; rewrite Hpost; run;
  match goal with
  | |- context [profile_row ?w] => destruct (profile_row w)
  end;
  match goal with
  | |- context [String.eqb (Py.strip ?a) ""] =>
      destruct (String.eqb (Py.strip a) "")
  end;
  cbn beta iota.

Lemma payment_verify_cart env request w :
  session_cart (session (payment_verify env request w).2)
  = if verified env request w then Some ∅ else session_cart (session w).
Proof.
  unfold verified, submitted_order_id, submitted_payment_id,
    submitted_signature, payment_verify.
  destruct (is_authenticated (user request)); [|by run].
  destruct (String.eqb (method request) "POST"); [|by run].
  destruct (_get_razorpay_client env) as [client|]; [|by run].
  run. destruct (session_pending (session w)) as [[|pending]|]; [by run| |by run].
  destruct (String.eqb _ (pp_razorpay_order_id pending)); [|by run].
  destruct (verify_payment_signature _ _ _ _); [|by run]. run.
  match goal with
  | |- context [_send_order_notification env ?n w] =>
      destruct (send_order_notification_run env n w) as (w1 & Hrun & _);
      rewrite Hrun
  end.
  reflexivity.
Qed.

(** C5. For an authenticated user whose cart prices to a non-empty list
    of items: a checkout POST with payment method [cod] renders the
    success view with the session cart set to the empty dict; a checkout
    POST with payment method [online] leaves the session cart as it was,
    however it ends, and, when the gateway is configured, the amount in
    hundredths has no more digits than the interpreter formats
    ([Py.max_str_digits]) and the gateway creates the remote order,
    renders the payment page with a pending record stored; and
    [payment_verify] sets the cart to the empty dict exactly when the
    verification succeeds, leaving it alone otherwise. *)
Theorem checkout_cart env request w items total :
  is_authenticated (user request) = true →
  method request = "POST" →
  _build_cart_items (catalog env) (_get_cart (session w)) = Ok (items, total) →
  items ≠ [] →
  (get_or (POST request) "payment_method" "cod" = "cod" →
   ∃ ctx w',
     checkout env request w
     = (Ok (Render "storefront/checkout_success.html" ctx), w')
     ∧ session_cart (session w') = Some ∅)
  ∧ (get_or (POST request) "payment_method" "cod" = "online" →
     session_cart (session (checkout env request w).2) = session_cart (session w)
     ∧ ∀ client a,
         _get_razorpay_client env = Some client →
         amount_subunits total = Ok a →
         Z.abs a < 10 ^ Py.max_str_digits →
         (∀ data, ∃ order_id, order_create client data = Ok order_id) →
         ∃ ctx w' pending,
           checkout env request w
           = (Ok (Render "storefront/online_payment.html" ctx), w')
           ∧ session_cart (session w') = session_cart (session w)
           ∧ session_pending (session w') = Some (PendingRecord pending))
  ∧ (∀ env' request' w0,
       session_cart (session (payment_verify env' request' w0).2)
       = if verified env' request' w0 then Some ∅
         else session_cart (session w0)).
Proof.
  intros Hauth Hpost Hbuild Hitems.
  destruct items as [|item items]; [done|]. clear Hitems.
  split; [|split].
  - intros Hpm. checkout_prefix Hauth Hpost Hbuild; rewrite Hpm;
      change (payment_method_label "cod") with (Some "Cash on Delivery"); run;
      notify_step w1 Hs Hf Hc Ho; eexists _, _; (split; [reflexivity|]);
      reflexivity.
  - intros Hpm. split.
    + checkout_prefix Hauth Hpost Hbuild; rewrite Hpm;
        change (payment_method_label "online")
          with (Some "Online Payment (UPI / Debit Card / Credit Card)"); run;
        (destruct (_get_razorpay_client env) as [client|]; [|by run]);
        (destruct (amount_subunits total) as [a|]; [|by run]); run;
        (destruct (format_int_cases a) as [-> | ->]; [|by run]); run;
        match goal with
        | |- context [order_create client ?d] => by destruct (order_create client d)
        end.
    + intros client a Hclient Ha Hlimit Hgw.
      checkout_prefix Hauth Hpost Hbuild; rewrite Hpm;
        change (payment_method_label "online")
          with (Some "Online Payment (UPI / Debit Card / Credit Card)"); run;
        rewrite Hclient, Ha; run; rewrite (format_int_ok a Hlimit); run;
        match goal with
        | |- context [order_create client ?d] =>
            destruct (Hgw d) as [order_id ->]
        end;
        eexists _, _, _; (split; [reflexivity|]); split; reflexivity.
  - apply payment_verify_cart.
Qed.

Example cod_checkout_scenario :
  ∃ w',
    checkout sample_env (post_request {["payment_method" := "cod"]}) sample_world
    = (Ok (Render "storefront/checkout_success.html"
             [ ("page_title", CStr "Order Confirmed");
               ("customer_name", CStr "Alice Doe");
               ("total", CDec (mkDec 20000 (-2)));
               ("payment_method_label", CStr "Cash on Delivery") ]), w')
    ∧ session_cart (session w') = Some ∅
    ∧ length (outbox w') = 1%nat.
Proof. eexists. split; [vm_compute; reflexivity|]. split; reflexivity. Qed.

Lemma checkout_cart_witness :
  (∃ ctx w',
     checkout sample_env (post_request {["payment_method" := "cod"]}) sample_world
     = (Ok (Render "storefront/checkout_success.html" ctx), w')
     ∧ session_cart (session w') = Some ∅)
  ∧ session_cart
      (session (checkout sample_env (post_request {["payment_method" := "online"]})
                  sample_world).2)
    = session_cart (session sample_world).
Proof.
  split.
  - apply (proj1 (checkout_cart sample_env
                    (post_request {["payment_method" := "cod"]}) sample_world
                    [mkCartItem lamp 2 (mkDec 20000 (-2))] (mkDec 20000 (-2))
                    eq_refl eq_refl ltac:(vm_compute; reflexivity)
                    ltac:(discriminate))).
    reflexivity.
  - apply (proj1 (proj2 (checkout_cart sample_env
                           (post_request {["payment_method" := "online"]})
                           sample_world
                           [mkCartItem lamp 2 (mkDec 20000 (-2))]
                           (mkDec 20000 (-2))
                           eq_refl eq_refl ltac:(vm_compute; reflexivity)
                           ltac:(discriminate)))).
    reflexivity.
Defined.

(** The amount [checkout] computes for the gateway is the exact total in
    hundredths, and truncating equals rounding. *)
Lemma amount_subunits_exact K (c : gmap string Z) items total t100 :
  catalog_ok K →
  _build_cart_items K c = Ok (items, total) →
  Dec.mul_int total 100 = Ok t100 →
  amount_subunits total = Ok (Dec.to_int t100)
  ∧ Dec.to_int t100 = Dec.round t100
  ∧ Dec.to_int t100 = Dec.hundredths total.
Proof.
  intros HK Hbuild Hmul.
  destruct (build_cart_items_bounds K c items total HK Hbuild) as [Hc He].
  destruct (mul_100_exact total t100 Hc He Hmul) as [Hi Hr].
  unfold amount_subunits. rewrite Hmul. split; [done|]. split; congruence.
Qed.

Lemma list_grown_absurd {A} (l : list A) x : l ≠ (l ++ [x])%list.
Proof.
  intros H%(f_equal length). rewrite length_app in H. simpl in H. lia.
Qed.

(** The online path of [checkout] when the amount has more digits than
    the interpreter formats: the receipt cannot be built, [ValueError]
    escapes, and nothing has been sent, stored, flashed or notified. *)
Lemma checkout_receipt_limit env request w client items total a :
  is_authenticated (user request) = true →
  method request = "POST" →
  _build_cart_items (catalog env) (_get_cart (session w)) = Ok (items, total) →
  items ≠ [] →
  get_or (POST request) "payment_method" "cod" = "online" →
  _get_razorpay_client env = Some client →
  amount_subunits total = Ok a →
  10 ^ Py.max_str_digits ≤ Z.abs a →
  ∃ w',
    checkout env request w = (Raise ValueError, w')
    ∧ session w' = session w
    ∧ remote_orders w' = remote_orders w
    ∧ flash w' = flash w
    ∧ notify_calls w' = notify_calls w
    ∧ outbox w' = outbox w.
Proof.
  intros Hauth Hpost Hbuild Hitems Hpm Hclient Ha Hlimit.
  destruct items as [|item items]; [done|]. clear Hitems.
  checkout_prefix Hauth Hpost Hbuild; rewrite Hpm;
    change (payment_method_label "online")
      with (Some "Online Payment (UPI / Debit Card / Credit Card)"); run;
    rewrite Hclient, Ha; run; rewrite (format_int_raises a Hlimit); run;
    eexists; (split; [reflexivity|]); done.
Qed.

(** C7. For every total priced from a product table with two-decimal-place
    prices, on the online checkout path with the gateway configured:
    whenever [total * 100] is computed, [int(total * 100)] equals
    [round(total * 100)] and is the exact value of the total in
    hundredths; when that amount has no more digits than the interpreter
    formats ([Py.max_str_digits]), exactly one order is sent to the
    gateway, and its amount is that integer; when it has more, building
    the receipt raises [ValueError] and no order is sent. [total * 100] is
    computed for every total whose exponent is at most 999900; and when it
    is not (decimal overflow), no order is sent either. So every order
    that is sent carries [round(total * 100)]. *)
Theorem checkout_gateway_amount env request w client items total :
  catalog_ok (catalog env) →
  is_authenticated (user request) = true →
  method request = "POST" →
  _build_cart_items (catalog env) (_get_cart (session w)) = Ok (items, total) →
  items ≠ [] →
  get_or (POST request) "payment_method" "cod" = "online" →
  _get_razorpay_client env = Some client →
  (∀ t100, Dec.mul_int total 100 = Ok t100 →
     Dec.to_int t100 = Dec.round t100
     ∧ Dec.to_int t100 = Dec.hundredths total
     ∧ (Z.abs (Dec.to_int t100) < 10 ^ Py.max_str_digits →
        ∃ data,
          remote_orders (checkout env request w).2
          = (remote_orders w ++ [data])%list
          ∧ od_amount data = Dec.to_int t100
          ∧ od_amount data = Dec.round t100
          ∧ od_amount data = Dec.hundredths total)
     ∧ (10 ^ Py.max_str_digits ≤ Z.abs (Dec.to_int t100) →
        (checkout env request w).1 = Raise ValueError
        ∧ remote_orders (checkout env request w).2 = remote_orders w))
  ∧ (dexp total ≤ 999900 → ∃ t100, Dec.mul_int total 100 = Ok t100)
  ∧ (∀ e, Dec.mul_int total 100 = Raise e →
       remote_orders (checkout env request w).2 = remote_orders w)
  ∧ (∀ data,
       remote_orders (checkout env request w).2 = (remote_orders w ++ [data])%list →
       ∃ t100, Dec.mul_int total 100 = Ok t100
               ∧ od_amount data = Dec.round t100
               ∧ od_amount data = Dec.hundredths total).
Proof.
  intros HK Hauth Hpost Hbuild Hitems Hpm Hclient.
  destruct (build_cart_items_bounds _ _ items total HK Hbuild) as [Hc He].
  assert (Hsent : ∀ t100, Dec.mul_int total 100 = Ok t100 →
            Z.abs (Dec.to_int t100) < 10 ^ Py.max_str_digits →
            ∃ data,
              remote_orders (checkout env request w).2
              = (remote_orders w ++ [data])%list
              ∧ od_amount data = Dec.to_int t100).
  { intros t100 Hmul Hlimit.
    destruct (amount_subunits_exact _ _ _ _ _ HK Hbuild Hmul) as (Ha & _).
    destruct items as [|item items]; [done|].
    checkout_prefix Hauth Hpost Hbuild; rewrite Hpm;
      change (payment_method_label "online")
        with (Some "Online Payment (UPI / Debit Card / Credit Card)"); run;
      rewrite Hclient, Ha; run; rewrite (format_int_ok _ Hlimit); run;
      match goal with
      | |- context [order_create client ?d] =>
          exists d; destruct (order_create client d)
      end;
      (split; [reflexivity|]); reflexivity. }
  assert (Hover : ∀ e, Dec.mul_int total 100 = Raise e →
            remote_orders (checkout env request w).2 = remote_orders w).
  { intros e Hmul. destruct items as [|item items]; [done|].
    checkout_prefix Hauth Hpost Hbuild; rewrite Hpm;
      change (payment_method_label "online")
        with (Some "Online Payment (UPI / Debit Card / Credit Card)"); run;
      rewrite Hclient; unfold amount_subunits; rewrite Hmul; by run. }
  split; [|split; [|split]].
  - intros t100 Hmul.
    destruct (amount_subunits_exact _ _ _ _ _ HK Hbuild Hmul) as (Ha & Hr & Hh).
    split; [done|]. split; [done|]. split.
    + intros Hlimit. destruct (Hsent t100 Hmul Hlimit) as (data & Hdata & Hamount).
      exists data. split; [done|]. split; [done|]. split; congruence.
    + intros Hlimit.
      destruct (checkout_receipt_limit env request w client items total _
                  Hauth Hpost Hbuild Hitems Hpm Hclient Ha Hlimit)
        as (w' & -> & _ & Hro & _). done.
  - intros Hle. apply mul_100_ok; [done|lia].
  - exact Hover.
  - intros data Hdata.
    destruct (Dec.mul_int total 100) as [t100|e] eqn:Hmul.
    2:{ rewrite (Hover e eq_refl) in Hdata.
        by apply list_grown_absurd in Hdata. }
    destruct (amount_subunits_exact _ _ _ _ _ HK Hbuild Hmul) as (Ha & Hr & Hh).
    exists t100. split; [done|].
    destruct (Z.lt_ge_cases (Z.abs (Dec.to_int t100)) (10 ^ Py.max_str_digits))
      as [Hlimit|Hlimit].
    + destruct (Hsent t100 eq_refl Hlimit) as (data' & Hdata' & Hamount).
      rewrite Hdata' in Hdata. apply app_inv_head in Hdata. injection Hdata as <-.
      split; congruence.
    + destruct (checkout_receipt_limit env request w client items total _
                  Hauth Hpost Hbuild Hitems Hpm Hclient Ha Hlimit)
        as (w' & Hrun & _ & Hro & _).
      rewrite Hrun in Hdata. cbn [snd] in Hdata. rewrite Hro in Hdata.
      by apply list_grown_absurd in Hdata.
Qed.

Lemma small_amount_digits a :
  Z.abs a < 10 ^ 19 → Z.abs a < 10 ^ Py.max_str_digits.
Proof.
  intros Ha.
  assert (H19 : 10 ^ 19 ≤ 10 ^ Py.max_str_digits)
    by (apply Z.pow_le_mono_r; [lia|done]).
  set (L := 10 ^ Py.max_str_digits) in *. lia.
Qed.

Lemma checkout_gateway_amount_witness :
  ∃ data,
    remote_orders
      (checkout sample_env (post_request {["payment_method" := "online"]})
         sample_world).2
    = [data]
    ∧ od_amount data = 20000.
Proof.
  destruct (proj1 (checkout_gateway_amount sample_env
                     (post_request {["payment_method" := "online"]})
                     sample_world sample_gateway
                     [mkCartItem lamp 2 (mkDec 20000 (-2))] (mkDec 20000 (-2))
                     sample_catalog_ok eq_refl eq_refl
                     ltac:(vm_compute; reflexivity) ltac:(discriminate)
                     eq_refl eq_refl)
              (mkDec 2000000 (-2)) ltac:(vm_compute; reflexivity))
    as (_ & _ & Hsent & _).
  destruct (Hsent (small_amount_digits 20000 ltac:(vm_compute; reflexivity)))
    as (data & H1 & H2 & _).
  exists data. split; [exact H1|exact H2].
Defined.

Example amount_subunits_28_digits :
  amount_subunits (mkDec (10 ^ 27 + 1) (-2)) = Ok (10 ^ 27 + 1).
Proof. vm_compute. reflexivity. Qed.

Example amount_subunits_rounded_total :
  amount_subunits (mkDec 1999000000000000000000000000 4) = Ok (1999 * 10 ^ 30).
Proof. vm_compute. reflexivity. Qed.

(** The total of 10^4299 pens at 19.99: its amount in hundredths has 4303
    digits, and the receipt cannot be formatted. *)
Example amount_subunits_beyond_limit :
  amount_subunits (mkDec 1999000000000000000000000000 4273)
  = Ok (1999 * 10 ^ 4299)
  ∧ Py.format_int (1999 * 10 ^ 4299) = Raise ValueError.
Proof.
  split; [vm_compute; reflexivity|]. apply format_int_raises.
  assert (0 < 10 ^ 4299) by (apply Z.pow_pos_nonneg; lia).
  change Py.max_str_digits with (Z.succ 4299). rewrite Z.pow_succ_r by lia.
  set (X := 10 ^ 4299) in *. lia.
Qed.

Lemma flash_unchanged_absurd (l : list (level * string)) m : l ≠ (l ++ [m])%list.
Proof.
  intros H%(f_equal length). rewrite length_app in H. simpl in H. lia.
Qed.

Lemma payment_method_label_none key :
  payment_method_label key = None → key ≠ "cod" ∧ key ≠ "online".
Proof.
  unfold payment_method_label. cbn [PAYMENT_METHODS List.find fst snd].
  destruct (String.eqb_spec "cod" key) as [<-|?]; [done|].
  destruct (String.eqb_spec "online" key) as [<-|?]; [done|].
  intros _. split; congruence.
Qed.

(** C8. An authenticated checkout POST whose form has no [payment_method]
    field behaves exactly like the same request with [payment_method]
    set to [cod]: with a priced, non-empty cart it finalizes a
    cash-on-delivery order (one notifier call labelled Cash on Delivery,
    cart set to the empty dict, success view). And whenever [checkout]
    answers with the invalid-payment-method message, the form carried an
    explicit [payment_method] value other than [cod] and [online]. *)
Theorem checkout_default_payment_method env request w :
  (is_authenticated (user request) = true →
   method request = "POST" →
   POST request !! "payment_method" = None →
   checkout env request w
   = checkout env
       (mkRequest (method request)
          (<["payment_method" := "cod"]> (POST request)) (user request)) w
   ∧ ∀ items total,
       _build_cart_items (catalog env) (_get_cart (session w)) = Ok (items, total) →
       items ≠ [] →
       ∃ ctx w' n,
         checkout env request w
         = (Ok (Render "storefront/checkout_success.html" ctx), w')
         ∧ session_cart (session w') = Some ∅
         ∧ notify_calls w' = (notify_calls w ++ [n])%list
         ∧ n_payment_method n = "Cash on Delivery")
  ∧ (flash (checkout env request w).2
     = (flash w ++ [(error, "Please select a valid payment method.")])%list →
     ∃ v, POST request !! "payment_method" = Some v ∧ v ≠ "cod" ∧ v ≠ "online").
Proof.
  split.
  - intros Hauth Hpost Hnone. split.
    + unfold checkout. cbn [method POST user]. unfold get_or.
      rewrite (lookup_insert_ne _ "payment_method" "name") by done.
      rewrite (lookup_insert_ne _ "payment_method" "email") by done.
      rewrite (lookup_insert_ne _ "payment_method" "address") by done.
      by rewrite lookup_insert_eq, Hnone.
    + intros items total Hbuild Hitems.
      destruct items as [|item items]; [done|]. clear Hitems.
      assert (Hpm : get_or (POST request) "payment_method" "cod" = "cod")
        by (unfold get_or; by rewrite Hnone).
      checkout_prefix Hauth Hpost Hbuild; rewrite Hpm;
        change (payment_method_label "cod") with (Some "Cash on Delivery"); run;
        match goal with
        | |- context [_send_order_notification env ?n ?w0] =>
            destruct (send_order_notification_run env n w0)
              as (w1 & Hrun & Hs & _ & Hf & _ & Hc & Ho);
            rewrite Hrun; eexists _, _, n
        end;
        (split; [reflexivity|]); (split; [reflexivity|]); (split; [|done]);
        cbn [notify_calls set_session]; rewrite Hc; reflexivity.
  - unfold checkout.
    destruct (is_authenticated (user request));
      [|run; by intros ?%flash_unchanged_absurd].
    run.
    destruct (_build_cart_items _ _) as [[items total]|];
      [|run; by intros ?%flash_unchanged_absurd].
    run. unfold _get_or_create_user_profile. run.
    destruct items as [|item items].
    { destruct (profile_row w); cbn; by intros [=]%app_inv_head. }
    destruct (String.eqb (method request) "POST");
      [|destruct (profile_row w); cbn;
        by intros ?%flash_unchanged_absurd].
    destruct (payment_method_label (get_or (POST request) "payment_method" "cod"))
      as [label|] eqn:Hlabel.
    + destruct (String.eqb (get_or (POST request) "payment_method" "cod") "cod").
      * destruct (profile_row w);
          destruct (String.eqb (Py.strip (get_or (POST request) "address" "")) "");
          cbn beta iota; notify_step w1 Hs Hf Hc Ho; cbn; rewrite Hf; cbn;
          by intros ?%flash_unchanged_absurd.
      * destruct (_get_razorpay_client env) as [client|].
        2:{ destruct (profile_row w);
              destruct (String.eqb (Py.strip (get_or (POST request) "address" "")) "");
              cbn; by intros [=]%app_inv_head. }
        destruct (amount_subunits total) as [a|].
        2:{ destruct (profile_row w);
              destruct (String.eqb (Py.strip (get_or (POST request) "address" "")) "");
              cbn; by intros ?%flash_unchanged_absurd. }
        run.
        destruct (format_int_cases a) as [-> | ->].
        2:{ destruct (profile_row w);
              destruct (String.eqb (Py.strip (get_or (POST request) "address" "")) "");
              cbn; by intros ?%flash_unchanged_absurd. }
        run.
        destruct (profile_row w);
          destruct (String.eqb (Py.strip (get_or (POST request) "address" "")) "");
          cbn beta iota;
          match goal with
          | |- context [order_create client ?d] => destruct (order_create client d)
          end;
          cbn; by intros ?%flash_unchanged_absurd.
    + intros _. apply payment_method_label_none in Hlabel as [Hcod Honline].
      unfold get_or in Hcod, Honline.
      destruct (POST request !! "payment_method") as [v|]; [|done].
      exists v. done.
Qed.

Lemma checkout_default_payment_method_witness :
  (∃ ctx w' n,
     checkout sample_env (post_request empty_form) sample_world
     = (Ok (Render "storefront/checkout_success.html" ctx), w')
     ∧ session_cart (session w') = Some ∅
     ∧ notify_calls w' = [n]
     ∧ n_payment_method n = "Cash on Delivery")
  ∧ ∃ v, POST (post_request {["payment_method" := "barter"]}) !! "payment_method"
         = Some v ∧ v ≠ "cod" ∧ v ≠ "online".
Proof.
  split.
  - apply (proj2 (proj1 (checkout_default_payment_method sample_env
                           (post_request empty_form) sample_world)
                    eq_refl eq_refl eq_refl)
             [mkCartItem lamp 2 (mkDec 20000 (-2))] (mkDec 20000 (-2))).
    + vm_compute. reflexivity.
    + discriminate.
  - apply (proj2 (checkout_default_payment_method sample_env
                    (post_request {["payment_method" := "barter"]}) sample_world)).
    vm_compute. reflexivity.
Defined.

(** A verification request that matches the pending record and carries a
    signature the gateway accepts is confirmed. *)
Lemma payment_verify_success_run env request w client pending :
  is_authenticated (user request) = true →
  method request = "POST" →
  _get_razorpay_client env = Some client →
  session_pending (session w) = Some (PendingRecord pending) →
  submitted_order_id request = pp_razorpay_order_id pending →
  verify_payment_signature client (submitted_order_id request)
    (submitted_payment_id request) (submitted_signature request) = true →
  ∃ ctx w' n,
    payment_verify env request w
    = (Ok (Render "storefront/checkout_success.html" ctx), w')
    ∧ notify_calls w' = (notify_calls w ++ [n])%list
    ∧ n_total n = pp_amount pending
    ∧ n_payment_id n = submitted_payment_id request.
Proof.
  intros Hauth Hpost Hclient Hpending Hid Hsig.
  unfold submitted_order_id, submitted_payment_id, submitted_signature in *.
  unfold payment_verify. rewrite Hauth, Hpost, Hclient. run.
  rewrite Hpending, Hid, String.eqb_refl. rewrite Hid in Hsig. rewrite Hsig. run.
  match goal with
  | |- context [_send_order_notification env ?n w] =>
      destruct (send_order_notification_run env n w)
        as (w1 & Hrun & _ & _ & _ & _ & Hn & _);
      rewrite Hrun; eexists _, _, n
  end.
  split; [reflexivity|]. cbn. by rewrite Hn.
Qed.

(** C10. A successful cash-on-delivery checkout sets the cart to the
    empty dict and leaves the rest of the session alone: a pending-payment
    record left by an earlier online attempt is still there afterwards,
    and a later verification request for that record, with its order id and
    a signature the gateway accepts, is confirmed and notified with the
    stale record's amount. *)
Theorem cod_checkout_keeps_pending env request w items total :
  is_authenticated (user request) = true →
  method request = "POST" →
  _build_cart_items (catalog env) (_get_cart (session w)) = Ok (items, total) →
  items ≠ [] →
  get_or (POST request) "payment_method" "cod" = "cod" →
  ∃ ctx w',
    checkout env request w
    = (Ok (Render "storefront/checkout_success.html" ctx), w')
    ∧ session_cart (session w') = Some ∅
    ∧ session_pending (session w') = session_pending (session w)
    ∧ session_key (session w') = session_key (session w)
    ∧ ∀ request2 client pending,
        session_pending (session w) = Some (PendingRecord pending) →
        is_authenticated (user request2) = true →
        method request2 = "POST" →
        _get_razorpay_client env = Some client →
        submitted_order_id request2 = pp_razorpay_order_id pending →
        verify_payment_signature client (submitted_order_id request2)
          (submitted_payment_id request2) (submitted_signature request2) = true →
        ∃ ctx2 w'' n,
          payment_verify env request2 w'
          = (Ok (Render "storefront/checkout_success.html" ctx2), w'')
          ∧ notify_calls w'' = (notify_calls w' ++ [n])%list
          ∧ n_total n = pp_amount pending.
Proof.
  intros Hauth Hpost Hbuild Hitems Hpm.
  destruct items as [|item items]; [done|]. clear Hitems.
  assert (Hrun : ∃ ctx w',
             checkout env request w
             = (Ok (Render "storefront/checkout_success.html" ctx), w')
             ∧ session_cart (session w') = Some ∅
             ∧ session_pending (session w') = session_pending (session w)
             ∧ session_key (session w') = session_key (session w)).
  { checkout_prefix Hauth Hpost Hbuild; rewrite Hpm;
      change (payment_method_label "cod") with (Some "Cash on Delivery"); run;
      notify_step w1 Hs Hf Hc Ho; eexists _, _; (split; [reflexivity|]);
      cbn; rewrite Hs; done. }
  destruct Hrun as (ctx & w' & Hrun & Hcart & Hpend & Hkey).
  exists ctx, w'. repeat (split; [done|]).
  intros request2 client pending Hp Hauth2 Hpost2 Hclient Hid Hsig.
  rewrite <- Hpend in Hp.
  destruct (payment_verify_success_run env request2 w' client pending
              Hauth2 Hpost2 Hclient Hp Hid Hsig) as (ctx2 & w'' & n & H1 & H2 & H3 & _).
  eauto 10.
Qed.

Lemma cod_checkout_keeps_pending_witness :
  ∃ ctx w',
    checkout sample_env (post_request {["payment_method" := "cod"]}) sample_world
    = (Ok (Render "storefront/checkout_success.html" ctx), w')
    ∧ session_pending (session w') = Some (PendingRecord sample_pending)
    ∧ ∃ ctx2 w'' n,
        payment_verify sample_env (verify_request "order_A1" "valid") w'
        = (Ok (Render "storefront/checkout_success.html" ctx2), w'')
        ∧ n_total n = mkDec 20000 (-2).
Proof.
  destruct (cod_checkout_keeps_pending sample_env
              (post_request {["payment_method" := "cod"]}) sample_world
              [mkCartItem lamp 2 (mkDec 20000 (-2))] (mkDec 20000 (-2))
              eq_refl eq_refl ltac:(vm_compute; reflexivity)
              ltac:(discriminate) eq_refl)
    as (ctx & w' & H1 & _ & H2 & _ & H3).
  exists ctx, w'. split; [exact H1|]. split; [exact H2|].
  destruct (H3 (verify_request "order_A1" "valid") sample_gateway sample_pending
              eq_refl eq_refl eq_refl eq_refl eq_refl eq_refl)
    as (ctx2 & w'' & n & H4 & _ & H5).
  exists ctx2, w'', n. split; [exact H4|exact H5].
Defined.

(** * Further properties of the views *)

(** ** The cart store *)

(** X1. Removing a product that is not in the cart is a no-op: the
    answer is the redirect to the cart page and the world is the same --
    nothing is written to the session, the dirty flag is not set and no
    message is flashed. *)
Theorem remove_from_cart_absent request pid w :
  method request = "POST" →
  _get_cart (session w) !! Py.str pid = None →
  remove_from_cart request pid w = (Ok (Redirect "cart"), w).
Proof.
  intros Hpost Hnone. unfold remove_from_cart. rewrite Hpost. run.
  rewrite Hnone. by run.
Qed.

Lemma remove_from_cart_absent_witness :
  remove_from_cart (post_request empty_form) 7 sample_world
  = (Ok (Redirect "cart"), sample_world).
Proof.
  apply (remove_from_cart_absent (post_request empty_form) 7 sample_world);
    reflexivity.
Defined.

(** X2. Removing a product that is in the cart deletes exactly its key:
    the other entries and the pending record are as before, the session is
    marked modified, one info message is flashed, and removing it once more
    changes nothing. *)
Theorem remove_from_cart_present request request' pid w q :
  method request = "POST" →
  method request' = "POST" →
  _get_cart (session w) !! Py.str pid = Some q →
  ∃ w',
    remove_from_cart request pid w = (Ok (Redirect "cart"), w')
    ∧ session_cart (session w')
      = Some (delete (Py.str pid) (_get_cart (session w)))
    ∧ _get_cart (session w') !! Py.str pid = None
    ∧ (∀ key, key ≠ Py.str pid →
         _get_cart (session w') !! key = _get_cart (session w) !! key)
    ∧ session_pending (session w') = session_pending (session w)
    ∧ session_modified (session w') = true
    ∧ flash w' = (flash w ++ [(info, "Item removed from cart.")])%list
    ∧ remove_from_cart request' pid w' = (Ok (Redirect "cart"), w').
Proof.
  intros Hpost Hpost' Hq. unfold remove_from_cart at 1. rewrite Hpost. run.
  rewrite Hq. unfold _save_cart. run. eexists. split; [reflexivity|].
  cbn [session set_session add_flash session_cart store_cart _get_cart
         session_pending session_modified flash default from_option id].
  split; [done|]. split; [apply lookup_delete_eq|].
  split; [intros key Hkey; by apply lookup_delete_ne|].
  split; [done|]. split; [done|]. split; [done|].
  unfold remove_from_cart. rewrite Hpost'. run. cbn [session set_session add_flash].
  unfold _get_cart at 1. cbn [session_cart store_cart default from_option id].
  by rewrite lookup_delete_eq.
Qed.

Lemma remove_from_cart_present_witness :
  ∃ w',
    remove_from_cart (post_request empty_form) 3 sample_world
    = (Ok (Redirect "cart"), w')
    ∧ _get_cart (session w') !! "3" = None
    ∧ _get_cart (session w') !! "5" = Some 1.
Proof.
  destruct (remove_from_cart_present (post_request empty_form)
              (post_request empty_form) 3 sample_world 2
              eq_refl eq_refl eq_refl)
    as (w' & H1 & _ & H2 & H3 & _).
  exists w'. split; [exact H1|]. split; [exact H2|].
  rewrite (H3 "5"); [reflexivity|discriminate].
Defined.

(** After a POST to [remove_from_cart] the cart is the old one without
    the key, whether the key was there or not. *)
Lemma remove_from_cart_cart request pid w :
  method request = "POST" →
  _get_cart (session (remove_from_cart request pid w).2)
  = delete (Py.str pid) (_get_cart (session w)).
Proof.
  intros Hpost. unfold remove_from_cart. rewrite Hpost. run.
  destruct (_get_cart (session w) !! Py.str pid) as [q|] eqn:Hq.
  - unfold _save_cart. by run.
  - run. cbn [snd]. symmetry. by apply delete_id.
Qed.

(** X3. Adding a product and then removing it leaves the cart without
    that product and otherwise as it was; when the product was not in the
    cart before, the cart is back to what it was. *)
Theorem add_then_remove env request request' pid w product q :
  method request = "POST" →
  method request' = "POST" →
  get_object_or_404 (catalog env) pid = Ok product →
  submitted_quantity request = Ok q →
  let w2 := (remove_from_cart request' pid (add_to_cart env request pid w).2).2 in
  _get_cart (session w2) = delete (Py.str pid) (_get_cart (session w))
  ∧ (_get_cart (session w) !! Py.str pid = None →
     _get_cart (session w2) = _get_cart (session w)).
Proof.
  intros Hpost Hpost' Hget Hq w2.
  destruct (get_object_or_404_spec _ _ _ Hget) as (_ & Hid & _).
  destruct (add_to_cart_run env request pid w product q Hpost Hget Hq)
    as (to & w1 & Hrun & Hcart & _).
  assert (Hw2 : _get_cart (session w2) = delete (Py.str pid) (_get_cart (session w))).
  { unfold w2. rewrite Hrun. cbn [snd]. rewrite remove_from_cart_cart by done.
    unfold _get_cart at 1. rewrite Hcart, Hid. cbn. apply delete_insert_eq. }
  split; [done|]. intros Hnone. rewrite Hw2. by apply delete_id.
Qed.

Lemma add_then_remove_witness :
  _get_cart
    (session
       (remove_from_cart (post_request empty_form) 3
          (add_to_cart sample_env (post_request {["quantity" := "4"]}) 3
             fresh_world).2).2)
  = _get_cart (session fresh_world).
Proof.
  destruct (add_then_remove sample_env (post_request {["quantity" := "4"]})
              (post_request empty_form) 3 fresh_world lamp 4) as [_ H];
    [reflexivity..|].
  apply H. reflexivity.
Defined.

(** X4. A successful [add_to_cart] touches one cart entry only: every
    other entry and the pending record are as before, the session is
    marked modified, one success message naming the product is flashed,
    nothing is mailed or ordered, and the answer redirects to the [next]
    field of the form, or to the product list when it is missing or
    empty. *)
Theorem add_to_cart_frame env request pid w product q :
  method request = "POST" →
  get_object_or_404 (catalog env) pid = Ok product →
  submitted_quantity request = Ok q →
  ∃ w',
    add_to_cart env request pid w
    = (Ok (Redirect (str_or (get_or (POST request) "next" "") "products")), w')
    ∧ (∀ key, key ≠ Py.str pid →
         _get_cart (session w') !! key = _get_cart (session w) !! key)
    ∧ session_pending (session w') = session_pending (session w)
    ∧ session_modified (session w') = true
    ∧ flash w'
      = (flash w ++ [(success, "Added " +:+ product_name product +:+ " to cart.")])%list
    ∧ outbox w' = outbox w
    ∧ remote_orders w' = remote_orders w
    ∧ notify_calls w' = notify_calls w.
Proof.
  intros Hpost Hget Hq.
  destruct (get_object_or_404_spec _ _ _ Hget) as (_ & Hid & _).
  unfold submitted_quantity in Hq.
  unfold add_to_cart. rewrite Hpost, Hget, Hq. run. unfold _save_cart. run.
  eexists. split; [reflexivity|].
  cbn [session set_session add_flash session_cart store_cart
         session_pending session_modified flash outbox remote_orders
         notify_calls].
  split; [|done]. intros key Hkey. unfold _get_cart at 1.
  cbn [session_cart store_cart default from_option id].
  rewrite lookup_insert_ne; [done|]. by rewrite Hid.
Qed.

Lemma add_to_cart_frame_witness :
  ∃ w',
    add_to_cart sample_env (post_request {["quantity" := "4"]}) 3 sample_world
    = (Ok (Redirect "products"), w')
    ∧ _get_cart (session w') !! "5" = Some 1
    ∧ session_pending (session w') = Some (PendingRecord sample_pending).
Proof.
  destruct (add_to_cart_frame sample_env (post_request {["quantity" := "4"]})
              3 sample_world lamp 4)
    as (w' & H1 & H2 & H3 & _); [reflexivity..|].
  exists w'. split; [exact H1|]. split; [|exact H3].
  rewrite (H2 "5"); [reflexivity|discriminate].
Defined.

Lemma filter_none {A} (P : A → Prop) `{!∀ x, Decision (P x)} (l : list A) :
  (∀ x, x ∈ l → ¬ P x) → filter P l = [].
Proof.
  induction l as [|x l IH]; intros Hall; [done|].
  rewrite filter_cons_False by (apply Hall; left).
  apply IH. intros y Hy. apply Hall. by right.
Qed.

(** X5. [add_to_cart] for a product id that no active product has --
    missing or deactivated -- raises [Http404] whatever the form holds,
    and leaves the world as it was. *)
Theorem add_to_cart_not_found env request pid w :
  method request = "POST" →
  (∀ p, p ∈ catalog env → product_id p = pid → is_active p = false) →
  add_to_cart env request pid w = (Raise Http404, w).
Proof.
  intros Hpost Hnone. unfold add_to_cart, get_object_or_404.
  rewrite Hpost, filter_none; [by run|].
  intros p Hp [Hid Hact]. by rewrite (Hnone p Hp Hid) in Hact.
Qed.

Lemma add_to_cart_not_found_witness :
  add_to_cart sample_env (post_request {["quantity" := "abc"]}) 5 sample_world
  = (Raise Http404, sample_world).
Proof.
  apply (add_to_cart_not_found sample_env (post_request {["quantity" := "abc"]})
           5 sample_world); [reflexivity|].
  intros p Hp Hid.
  apply elem_of_cons in Hp as [->|Hp]; [discriminate Hid|].
  apply elem_of_cons in Hp as [->|Hp]; [reflexivity|].
  by apply elem_of_nil in Hp.
Defined.

(** ** The cart invariant *)

(** The cart after [add_to_cart]: the old one, or the old one with the
    entry of the product raised by at least 1. *)
Lemma add_to_cart_cases env request pid w :
  _get_cart (session (add_to_cart env request pid w).2) = _get_cart (session w)
  ∨ ∃ q product,
      product_id product = pid
      ∧ _get_cart (session (add_to_cart env request pid w).2)
        = <[Py.str pid := get_or (_get_cart (session w)) (Py.str pid) 0
                          + at_least_one q]> (_get_cart (session w)).
Proof.
  unfold add_to_cart.
  destruct (String.eqb (method request) "POST"); [|left; by run].
  cbn [negb].
  destruct (get_object_or_404 (catalog env) pid) as [product|] eqn:Hget;
    [|left; by run].
  destruct (get_object_or_404_spec _ _ _ Hget) as (_ & Hid & _).
  run.
  destruct (match POST request !! "quantity" with
            | Some s => Py.int s
            | None => Ok 1
            end) as [q|]; [|left; by run].
  right. exists q, product. split; [done|].
  unfold _save_cart. run. cbn [snd session set_session add_flash].
  unfold _get_cart at 1. cbn [session_cart store_cart default from_option id].
  by rewrite Hid.
Qed.

(** The session cart after [checkout]: untouched, or the empty dict. *)
Lemma checkout_cart_cases env request w :
  session_cart (session (checkout env request w).2) = session_cart (session w)
  ∨ session_cart (session (checkout env request w).2) = Some ∅.
Proof.
  unfold checkout.
  destruct (is_authenticated (user request)); [|left; by run]. run.
  destruct (_build_cart_items _ _) as [[items total]|]; [|left; by run].
  run. unfold _get_or_create_user_profile. run.
  destruct items as [|item items]; [left; by destruct (profile_row w)|].
  destruct (String.eqb (method request) "POST");
    [|left; by destruct (profile_row w)].
  destruct (payment_method_label (get_or (POST request) "payment_method" "cod"))
    as [label|].
  2:{ left. destruct (profile_row w);
        by destruct (String.eqb (Py.strip (get_or (POST request) "address" "")) ""). }
  destruct (String.eqb (get_or (POST request) "payment_method" "cod") "cod").
  - right. destruct (profile_row w);
      destruct (String.eqb (Py.strip (get_or (POST request) "address" "")) "");
      cbn beta iota; notify_step w1 Hs Hf Hc Ho; reflexivity.
  - left. destruct (_get_razorpay_client env) as [client|].
    2:{ destruct (profile_row w);
          by destruct (String.eqb (Py.strip (get_or (POST request) "address" "")) ""). }
    destruct (amount_subunits total) as [a|].
    2:{ destruct (profile_row w);
          by destruct (String.eqb (Py.strip (get_or (POST request) "address" "")) ""). }
    run.
    destruct (format_int_cases a) as [-> | ->].
    2:{ destruct (profile_row w);
          by destruct (String.eqb (Py.strip (get_or (POST request) "address" "")) ""). }
    run.
    destruct (profile_row w);
      destruct (String.eqb (Py.strip (get_or (POST request) "address" "")) "");
      cbn beta iota;
      match goal with
      | |- context [order_create client ?d] => by destruct (order_create client d)
      end.
Qed.

(** X6. The views keep the cart well formed. A session without a cart
    has a well-formed one (the empty cart), and from a cart whose keys are
    all [str(id)] and whose quantities are all at least 1, every request
    to [add_to_cart], [remove_from_cart], [checkout] and
    [payment_verify] -- whatever it holds and however it ends -- leaves a
    cart of the same kind. *)
Theorem views_keep_cart_ok env request pid w :
  (session_cart (session w) = None → cart_ok (_get_cart (session w)))
  ∧ (cart_ok (_get_cart (session w)) →
     cart_ok (_get_cart (session (add_to_cart env request pid w).2))
     ∧ cart_ok (_get_cart (session (remove_from_cart request pid w).2))
     ∧ cart_ok (_get_cart (session (checkout env request w).2))
     ∧ cart_ok (_get_cart (session (payment_verify env request w).2))).
Proof.
  split.
  { intros Hnone. unfold _get_cart. rewrite Hnone. apply map_Forall_empty. }
  intros Hok. split; [|split; [|split]].
  - destruct (add_to_cart_cases env request pid w) as [->|(q & product & Hid & ->)];
      [done|].
    apply map_Forall_insert_2; [|done]. split.
    { rewrite <- Hid. apply canonical_key_str, product_id_digits. }
    unfold get_or, at_least_one.
    destruct (_get_cart (session w) !! Py.str pid) as [v|] eqn:Hv; cbn.
    + destruct (Hok _ _ Hv) as [_ Hv1]. destruct (q <? 1) eqn:Hq; lia.
    + destruct (Z.ltb_spec q 1); lia.
  - unfold remove_from_cart.
    destruct (String.eqb (method request) "POST"); [|by run]. run.
    destruct (_get_cart (session w) !! Py.str pid); [|by run].
    unfold _save_cart. run. cbn [snd session set_session add_flash].
    unfold _get_cart at 1. cbn [session_cart store_cart default from_option id].
    by apply map_Forall_delete.
  - unfold _get_cart at 1.
    destruct (checkout_cart_cases env request w) as [->| ->]; [done|].
    cbn. unfold cart_ok. apply map_Forall_empty.
  - unfold _get_cart at 1. rewrite payment_verify_cart.
    destruct (verified env request w); [|done].
    cbn. unfold cart_ok. apply map_Forall_empty.
Qed.

Lemma views_keep_cart_ok_witness :
  cart_ok (_get_cart (session fresh_world))
  ∧ cart_ok
      (_get_cart
         (session (add_to_cart sample_env (post_request {["quantity" := "-3"]})
                     3 fresh_world).2)).
Proof.
  destruct (views_keep_cart_ok sample_env (post_request {["quantity" := "-3"]})
              3 fresh_world) as [H0 H1].
  split; [apply H0; reflexivity|]. apply H1. apply H0. reflexivity.
Defined.

(** ** The cart count of the context processor *)

Lemma sum_values_insert_fresh (c : gmap string Z) key v :
  c !! key = None → sum_values (<[key := v]> c) = sum_values c + v.
Proof.
  intros Hnone. unfold sum_values.
  rewrite map_fold_insert_L; [done|intros; lia|done].
Qed.

Lemma sum_values_delete (c : gmap string Z) key :
  sum_values (delete key c) = sum_values c - get_or c key 0.
Proof.
  unfold get_or. destruct (c !! key) as [v|] eqn:Hv; cbn.
  - rewrite <- (insert_delete_id c key v Hv) at 2.
    rewrite sum_values_insert_fresh by apply lookup_delete_eq. lia.
  - rewrite delete_id by done. lia.
Qed.

Lemma sum_values_insert (c : gmap string Z) key v :
  sum_values (<[key := v]> c) = sum_values c - get_or c key 0 + v.
Proof.
  rewrite <- insert_delete_eq.
  rewrite sum_values_insert_fresh by apply lookup_delete_eq.
  rewrite sum_values_delete. lia.
Qed.

(** X7. The cart count [cart_summary] reports goes up by exactly the
    quantity a successful [add_to_cart] adds: the submitted quantity, or 1
    when that is below 1 or missing. *)
Theorem cart_summary_add env request pid w product q n :
  method request = "POST" →
  get_object_or_404 (catalog env) pid = Ok product →
  submitted_quantity request = Ok q →
  cart_summary w = [("cart_count", CInt n)] →
  cart_summary (add_to_cart env request pid w).2
  = [("cart_count", CInt (n + at_least_one q))].
Proof.
  intros Hpost Hget Hq Hn.
  destruct (add_to_cart_run env request pid w product q Hpost Hget Hq)
    as (to & w' & -> & Hcart & _).
  unfold cart_summary in *. cbn [snd]. rewrite Hcart. cbn [default from_option id].
  injection Hn as <-. rewrite sum_values_insert. unfold at_least_one.
  fold (_get_cart (session w)). do 3 f_equal. lia.
Qed.

Lemma cart_summary_add_witness :
  cart_summary (add_to_cart sample_env (post_request {["quantity" := "4"]}) 3
                  sample_world).2
  = [("cart_count", CInt (3 + 4))].
Proof.
  apply (cart_summary_add sample_env (post_request {["quantity" := "4"]}) 3
           sample_world lamp 4 3); reflexivity.
Defined.

(** X8. The cart count goes down by exactly the quantity of the product
    a POST to [remove_from_cart] removes, and stays the same when the
    product was not in the cart. *)
Theorem cart_summary_remove request pid w n :
  method request = "POST" →
  cart_summary w = [("cart_count", CInt n)] →
  cart_summary (remove_from_cart request pid w).2
  = [("cart_count", CInt (n - get_or (_get_cart (session w)) (Py.str pid) 0))].
Proof.
  intros Hpost Hn. unfold cart_summary in *. injection Hn as <-.
  fold (_get_cart (session (remove_from_cart request pid w).2)).
  rewrite remove_from_cart_cart by done. rewrite sum_values_delete.
  reflexivity.
Qed.

Lemma cart_summary_remove_witness :
  cart_summary (remove_from_cart (post_request empty_form) 3 sample_world).2
  = [("cart_count", CInt (3 - 2))].
Proof.
  apply (cart_summary_remove (post_request empty_form) 3 sample_world 3);
    reflexivity.
Defined.

(** ** More on cart pricing *)

(** What the loop appends: one item per product, in order, with the
    cart's quantity and the line total the decimal product gives. *)
Lemma price_loop_items (c : gmap string Z) products items0 t items t' :
  price_loop c products items0 t = Ok (items, t') →
  ∃ l, items = (items0 ++ l)%list
       ∧ item_product <$> l = products
       ∧ Forall (λ it,
           item_quantity it = get_or c (Py.str (product_id (item_product it))) 0
           ∧ Dec.mul_int (product_price (item_product it)) (item_quantity it)
             = Ok (item_line_total it)) l.
Proof.
  revert items0 t. induction products as [|p products IH]; intros items0 t.
  - intros [= <- <-]. exists []. by rewrite app_nil_r.
  - cbn [price_loop].
    destruct (Dec.mul_int _ _) as [line|] eqn:Hline; cbn [mbind result_bind];
      [|done].
    destruct (Dec.add t line) as [t1|]; cbn [mbind result_bind]; [|done].
    intros (l & -> & Hl & Hall)%IH.
    exists (mkCartItem p (get_or c (Py.str (product_id p)) 0) line :: l).
    rewrite <- app_assoc. split; [done|]. split; [by rewrite fmap_cons, Hl|].
    by constructor.
Qed.

Lemma filter_iff_in {A} (P Q : A → Prop) `{!∀ x, Decision (P x)}
    `{!∀ x, Decision (Q x)} (l : list A) :
  (∀ x, x ∈ l → P x ↔ Q x) → filter P l = filter Q l.
Proof.
  induction l as [|x l IH]; intros Hall; [done|].
  rewrite !filter_cons, IH by (intros y Hy; apply Hall; by right).
  assert (Hx : P x ↔ Q x) by (apply Hall; left).
  destruct (decide (P x)), (decide (Q x)); tauto.
Qed.

(** Pricing a cart with canonical keys is the loop over the active
    products that have an entry, in the order of the product table. *)
Lemma build_cart_items_loop K (c : gmap string Z) :
  map_Forall (λ key _, canonical_key key = true) c →
  _build_cart_items K c
  = price_loop c
      (filter (λ p, is_Some (c !! Py.str (product_id p)) ∧ is_active p = true) K)
      [] Dec.zero_00.
Proof.
  intros Hkeys. unfold _build_cart_items. destruct (decide (c = ∅)) as [->|Hne].
  - rewrite filter_none; [done|].
    intros p _ [[q Hq] _]. by rewrite lookup_empty in Hq.
  - destruct (cart_product_ids c Hkeys) as (ids & -> & Hmem).
    cbn [mbind result_bind]. unfold active_products_in. f_equal.
    apply filter_iff_in. intros p _. by rewrite Hmem.
Qed.

(** X9. The items [_build_cart_items] returns follow the order of the
    product table, not the order of the cart: their products are the
    active products that have a cart entry, as the table lists them, each
    once; every item carries the quantity stored in the cart and the line
    total [price * quantity] of the decimal arithmetic. *)
Theorem build_cart_items_order K (c : gmap string Z) items total :
  map_Forall (λ key _, canonical_key key = true) c →
  _build_cart_items K c = Ok (items, total) →
  item_product <$> items
  = filter (λ p, is_Some (c !! Py.str (product_id p)) ∧ is_active p = true) K
  ∧ Forall (λ it,
      c !! Py.str (product_id (item_product it)) = Some (item_quantity it)
      ∧ Dec.mul_int (product_price (item_product it)) (item_quantity it)
        = Ok (item_line_total it)) items.
Proof.
  intros Hkeys. rewrite build_cart_items_loop by done.
  intros (l & -> & Hl & Hall)%price_loop_items. cbn [app].
  split; [done|]. apply Forall_forall. intros it Hit.
  destruct (proj1 (Forall_forall _ _) Hall it Hit) as [Hq Hline].
  split; [|done].
  assert (Hp : item_product it ∈ item_product <$> l) by by apply list_elem_of_fmap_2.
  rewrite Hl in Hp. apply list_elem_of_filter in Hp as [[[q Hc] _] _].
  unfold get_or in Hq. rewrite Hc in Hq. cbn in Hq. by rewrite Hq.
Qed.

Lemma build_cart_items_order_witness :
  ∃ items total,
    _build_cart_items mixed_catalog mixed_cart = Ok (items, total)
    ∧ item_product <$> items = [lamp; pen].
Proof.
  exists [mkCartItem lamp 2 (mkDec 20000 (-2)); mkCartItem pen 5 (mkDec 9995 (-2))],
         (mkDec 29995 (-2)).
  assert (Hbuild : _build_cart_items mixed_catalog mixed_cart
                   = Ok ([mkCartItem lamp 2 (mkDec 20000 (-2));
                          mkCartItem pen 5 (mkDec 9995 (-2))], mkDec 29995 (-2)))
    by (vm_compute; reflexivity).
  split; [exact Hbuild|].
  destruct (build_cart_items_order mixed_catalog mixed_cart _ _
              ltac:(by apply (bool_decide_unpack _)) Hbuild) as [H _].
  rewrite H. vm_compute. reflexivity.
Defined.

Lemma fix_raises c e x : Dec.fix_ c e = Raise x → x = DecimalOverflow.
Proof.
  unfold Dec.fix_. destruct (Z.abs c =? 0); [done|].
  destruct (Dec.Etop <? _); [congruence|].
  destruct (e <? _); [|done].
  destruct (10 ^ Dec.prec <=? _); destruct (Dec.Etop <? _); congruence.
Qed.

Lemma price_loop_raises (c : gmap string Z) products items t x :
  price_loop c products items t = Raise x → x = DecimalOverflow.
Proof.
  revert items t. induction products as [|p products IH]; intros items t; [done|].
  cbn [price_loop].
  destruct (Dec.mul_int _ _) as [line|] eqn:Hline; cbn [mbind result_bind].
  2:{ intros [= <-]. by apply fix_raises in Hline. }
  destruct (Dec.add t line) as [t1|] eqn:Hadd; cbn [mbind result_bind].
  2:{ intros [= <-]. by apply fix_raises in Hadd. }
  apply IH.
Qed.

(** X10. On a cart whose keys are all [str(id)] -- the only carts the
    views write -- pricing either returns or raises the decimal
    [Overflow]; no key makes [int(...)] fail. *)
Theorem build_cart_items_raises K (c : gmap string Z) :
  map_Forall (λ key _, canonical_key key = true) c →
  (∃ items total, _build_cart_items K c = Ok (items, total))
  ∨ _build_cart_items K c = Raise DecimalOverflow.
Proof.
  intros Hkeys. rewrite build_cart_items_loop by done.
  destruct (price_loop _ _ _ _) as [[items total]|x] eqn:Hloop; [eauto|].
  right. by rewrite (price_loop_raises _ _ _ _ _ Hloop).
Qed.

Lemma build_cart_items_raises_witness :
  (∃ items total, _build_cart_items sample_catalog sample_cart = Ok (items, total))
  ∨ _build_cart_items sample_catalog sample_cart = Raise DecimalOverflow.
Proof.
  apply (build_cart_items_raises sample_catalog sample_cart).
  by apply (bool_decide_unpack _).
Defined.

Lemma py_int_raises s x : Py.int s = Raise x → x = ValueError.
Proof.
  unfold Py.int.
  match goal with
  | |- match ?parsed with _ => _ end = _ → _ => destruct parsed
  end; congruence.
Qed.

Lemma rmap_list_int_raises (l : list string) s x :
  s ∈ l → Py.int s = Raise x → rmap_list Py.int l = Raise ValueError.
Proof.
  intros Hs Hx. induction l as [|a l IH]; [by apply elem_of_nil in Hs|].
  cbn [rmap_list]. destruct (Py.int a) as [i|y] eqn:Ha.
  - apply elem_of_cons in Hs as [->|Hs]; [congruence|].
    cbn [mbind result_bind]. by rewrite (IH Hs).
  - by rewrite (py_int_raises _ _ Ha).
Qed.

(** X11. Pricing reads every key of the cart with [int(...)] before it
    looks at the product table: a cart holding a key of ASCII text that
    is not an integer literal raises [ValueError], whatever else it holds
    and whatever the table holds. *)
Theorem build_cart_items_bad_key K (c : gmap string Z) key q :
  c !! key = Some q →
  Py.isascii key = true →
  Py.int key = Raise ValueError →
  _build_cart_items K c = Raise ValueError.
Proof.
  intros Hq _ Hint. unfold _build_cart_items.
  destruct (decide (c = ∅)) as [->|_]; [by rewrite lookup_empty in Hq|].
  rewrite (rmap_list_int_raises _ key ValueError); [done| |done].
  apply list_elem_of_fmap. exists (key, q). split; [done|].
  by apply elem_of_map_to_list.
Qed.

Lemma build_cart_items_bad_key_witness :
  _build_cart_items sample_catalog (<["lamp" := 1]> sample_cart)
  = Raise ValueError.
Proof.
  apply (build_cart_items_bad_key sample_catalog (<["lamp" := 1]> sample_cart)
           "lamp" 1); reflexivity.
Defined.

Lemma price_loop_ext (c c' : gmap string Z) products items t :
  (∀ p, p ∈ products → c !! Py.str (product_id p) = c' !! Py.str (product_id p)) →
  price_loop c products items t = price_loop c' products items t.
Proof.
  revert items t. induction products as [|p products IH]; intros items t Hsame;
    [done|].
  cbn [price_loop]. unfold get_or. rewrite (Hsame p) by left.
  destruct (Dec.mul_int _ _) as [line|]; cbn [mbind result_bind]; [|done].
  destruct (Dec.add t line) as [t1|]; cbn [mbind result_bind]; [|done].
  apply IH. intros p' Hp'. apply Hsame. by right.
Qed.

(** X12. An entry whose product is missing from the table or inactive
    has no effect on pricing: without it, [_build_cart_items] gives the
    same items and the same total (or raises the same exception). *)
Theorem build_cart_items_ignores_inactive K (c : gmap string Z) key :
  map_Forall (λ key _, canonical_key key = true) c →
  (∀ p, p ∈ K → Py.str (product_id p) = key → is_active p = false) →
  _build_cart_items K (delete key c) = _build_cart_items K c.
Proof.
  intros Hkeys Hinactive.
  assert (Hkey : ∀ p, p ∈ K → is_active p = true → Py.str (product_id p) ≠ key).
  { intros p Hp Hact Heq. by rewrite (Hinactive p Hp Heq) in Hact. }
  rewrite !build_cart_items_loop by (done || by apply map_Forall_delete).
  rewrite (filter_iff_in _
             (λ p, is_Some (c !! Py.str (product_id p)) ∧ is_active p = true)).
  2:{ intros p Hp. split; intros [Hsome Hact]; (split; [|done]).
      - by rewrite lookup_delete_ne in Hsome by (apply not_eq_sym; auto).
      - by rewrite lookup_delete_ne by (apply not_eq_sym; auto). }
  apply price_loop_ext. intros p [[_ Hact] Hp]%list_elem_of_filter.
  apply lookup_delete_ne, not_eq_sym. auto.
Qed.

Lemma sample_vase_inactive p :
  p ∈ sample_catalog → Py.str (product_id p) = "5" → is_active p = false.
Proof.
  intros Hp Hid.
  apply elem_of_cons in Hp as [->|Hp]; [discriminate Hid|].
  apply elem_of_cons in Hp as [->|Hp]; [reflexivity|].
  by apply elem_of_nil in Hp.
Qed.

Lemma build_cart_items_ignores_inactive_witness :
  _build_cart_items sample_catalog (delete "5" sample_cart)
  = _build_cart_items sample_catalog sample_cart.
Proof.
  apply (build_cart_items_ignores_inactive sample_catalog sample_cart "5").
  - by apply (bool_decide_unpack _).
  - exact sample_vase_inactive.
Defined.

(** X13. Whatever the quantities, the amounts pricing returns stay on
    the cent grid and within the precision: the total and every line
    total have at most 28 digits and an exponent of at least -2, so their
    values are whole numbers of hundredths. *)
Theorem build_cart_items_cents K (c : gmap string Z) items total :
  catalog_ok K →
  _build_cart_items K c = Ok (items, total) →
  (Z.abs (coef total) < 10 ^ 28 ∧ -2 ≤ dexp total)
  ∧ Forall (λ it, Z.abs (coef (item_line_total it)) < 10 ^ 28
                  ∧ -2 ≤ dexp (item_line_total it)) items.
Proof.
  intros HK Hbuild. split; [by eapply build_cart_items_bounds|].
  destruct HK as [_ H2dp]. unfold _build_cart_items in Hbuild.
  destruct (decide (c = ∅)); [injection Hbuild as <- _; constructor|].
  destruct (rmap_list _ _) as [ids|]; [|done]. cbn [mbind result_bind] in Hbuild.
  apply price_loop_items in Hbuild as (l & -> & Hl & Hall). cbn [app].
  apply Forall_forall. intros it Hit.
  destruct (proj1 (Forall_forall _ _) Hall it Hit) as [_ Hline].
  assert (Hp : item_product it ∈ item_product <$> l) by by apply list_elem_of_fmap_2.
  rewrite Hl in Hp. apply list_elem_of_filter in Hp as [_ Hp].
  pose proof (proj1 (Forall_forall _ _) H2dp _ Hp) as Hexp.
  unfold Dec.mul_int, Dec.mul in Hline. cbn [Dec.of_int coef dexp] in Hline.
  rewrite Hexp in Hline. by apply fix_bounds in Hline.
Qed.

Lemma build_cart_items_cents_witness :
  ∃ items total,
    _build_cart_items pen_catalog huge_cart = Ok (items, total)
    ∧ Z.abs (coef total) < 10 ^ 28 ∧ -2 ≤ dexp total.
Proof.
  assert (Hbuild : _build_cart_items pen_catalog huge_cart
                   = Ok ([mkCartItem pen (10 ^ 30 + 1)
                            (mkDec 1999000000000000000000000000 4)],
                         mkDec 1999000000000000000000000000 4))
    by (vm_compute; reflexivity).
  assert (HK : catalog_ok pen_catalog)
    by (split; [by apply (bool_decide_unpack _)|by repeat constructor]).
  eexists _, _. split; [exact Hbuild|].
  destruct (build_cart_items_cents pen_catalog huge_cart _ _ HK Hbuild) as [H _].
  exact H.
Defined.

Lemma cart_magnitude_le K (c : gmap string Z) :
  Forall (λ p, Z.abs (coef (product_price p)) < 10 ^ 10) K →
  map_Forall (λ _ q, 0 ≤ q) c →
  cart_magnitude K c ≤ 10 ^ 10 * sum_values c.
Proof.
  intros Hprice. unfold cart_magnitude, cart_sum.
  induction c as [|key q m Hm IH] using map_ind; intros Hq.
  - unfold sum_values. rewrite !map_fold_empty. lia.
  - rewrite map_fold_insert_L; [|intros; lia|done].
    rewrite sum_values_insert_fresh by done.
    apply map_Forall_insert in Hq as [Hq0 Hq]; [|done].
    specialize (IH Hq).
    assert (Hw : entry_worth (λ p q, Z.abs (line_cents p q)) K key q ≤ 10 ^ 10 * q).
    { unfold entry_worth, active_product_of_key.
      destruct (List.find _ K) as [p|] eqn:Hfind; [|lia].
      apply find_some in Hfind as [Hp%list_elem_of_In _].
      pose proof (proj1 (Forall_forall _ _) Hprice _ Hp) as Hb. cbn beta in Hb.
      unfold line_cents. rewrite Z.abs_mul, (Z.abs_eq q) by done. nia. }
    lia.
Qed.

(** X14. With prices of at most ten digits, as the price field admits,
    and a cart as the views write it, pricing is exact as long as the cart
    count is below 10^18: [_build_cart_items] returns, and its total is the
    exact sum of [price * quantity] over the entries of active products,
    at two decimal places. *)
Theorem build_cart_items_exact_below K (c : gmap string Z) :
  catalog_ok K →
  Forall (λ p, Z.abs (coef (product_price p)) < 10 ^ 10) K →
  cart_ok c →
  sum_values c < 10 ^ 18 →
  ∃ items, _build_cart_items K c = Ok (items, mkDec (cart_total_cents K c) (-2)).
Proof.
  intros [Hnd H2dp] Hprice Hok Hcount.
  assert (Hkeys : map_Forall (λ key _, canonical_key key = true) c)
    by (intros key q Hq; by destruct (Hok key q Hq)).
  assert (Hfit : cart_magnitude K c < 10 ^ 28).
  { pose proof (cart_magnitude_le K c Hprice) as Hle.
    assert (map_Forall (λ _ q, 0 ≤ q) c) as Hnn
      by (intros key q Hq; destruct (Hok key q Hq); lia).
    specialize (Hle Hnn).
    change (10 ^ 28) with (10 ^ 10 * 10 ^ 18). nia. }
  unfold _build_cart_items. destruct (decide (c = ∅)) as [->|Hne].
  - exists []. unfold cart_total_cents, cart_sum. by rewrite map_fold_empty.
  - destruct (cart_product_ids c Hkeys) as (ids & -> & Hmem).
    cbn [mbind result_bind]. unfold cart_magnitude in Hfit.
    rewrite <- catalog_sum_cart_sum in Hfit by done.
    change Dec.zero_00 with (mkDec 0 (-2)).
    rewrite (price_loop_exact c ids K [] 0 Hmem H2dp) by (simpl; lia).
    unfold cart_total_cents. rewrite <- catalog_sum_cart_sum by done.
    eexists. reflexivity.
Qed.

Lemma build_cart_items_exact_below_witness :
  ∃ items,
    _build_cart_items sample_catalog sample_cart
    = Ok (items, mkDec (cart_total_cents sample_catalog sample_cart) (-2)).
Proof.
  apply (build_cart_items_exact_below sample_catalog sample_cart).
  - exact sample_catalog_ok.
  - by repeat constructor.
  - by apply (bool_decide_unpack _).
  - vm_compute. reflexivity.
Defined.

(** ** Checkout: guards and failure paths *)

(** X15. A checkout request of an authenticated user whose cart prices
    to no item -- an empty cart, or only entries of inactive or deleted
    products -- is answered by the redirect to the product list with a
    warning, for GET and POST alike: the session is untouched, nothing is
    mailed, notified or ordered. The profile row is there afterwards, as
    [get_or_create] runs first. *)
Theorem checkout_empty_cart env request w total :
  is_authenticated (user request) = true →
  _build_cart_items (catalog env) (_get_cart (session w)) = Ok ([], total) →
  ∃ w',
    checkout env request w = (Ok (Redirect "products"), w')
    ∧ session w' = session w
    ∧ flash w' = (flash w ++ [(warning, "Your cart is empty.")])%list
    ∧ outbox w' = outbox w
    ∧ remote_orders w' = remote_orders w
    ∧ notify_calls w' = notify_calls w
    ∧ profile_row w' = Some (default blank_profile (profile_row w)).
Proof.
  intros Hauth Hbuild. unfold checkout. rewrite Hauth. run. rewrite Hbuild. run.
  unfold _get_or_create_user_profile. run.
  destruct (profile_row w) eqn:Hrow; eexists; (split; [reflexivity|]); cbn;
    by rewrite ?Hrow.
Qed.

Lemma checkout_empty_cart_witness :
  ∃ w',
    checkout sample_env (post_request {["payment_method" := "cod"]}) fresh_world
    = (Ok (Redirect "products"), w')
    ∧ notify_calls w' = [].
Proof.
  destruct (checkout_empty_cart sample_env
              (post_request {["payment_method" := "cod"]}) fresh_world
              Dec.zero_00 eq_refl eq_refl)
    as (w' & H1 & _ & _ & _ & _ & H2 & _).
  exists w'. split; [exact H1|exact H2].
Defined.

Lemma payment_method_label_other v :
  v ≠ "cod" → v ≠ "online" → payment_method_label v = None.
Proof.
  intros Hcod Honline. unfold payment_method_label.
  cbn [PAYMENT_METHODS List.find fst snd].
  destruct (String.eqb_spec "cod" v) as [?|_]; [congruence|].
  destruct (String.eqb_spec "online" v) as [?|_]; [congruence|]. done.
Qed.

(** X16. A checkout POST with a payment method other than [cod] and
    [online] never finalizes an order: it is answered by the redirect to
    the checkout form with an error message, the cart and the pending
    record are as before, and nothing is mailed, notified or sent to the
    gateway. *)
Theorem checkout_invalid_method env request w items total v :
  is_authenticated (user request) = true →
  method request = "POST" →
  _build_cart_items (catalog env) (_get_cart (session w)) = Ok (items, total) →
  items ≠ [] →
  POST request !! "payment_method" = Some v →
  v ≠ "cod" → v ≠ "online" →
  ∃ w',
    checkout env request w = (Ok (Redirect "checkout"), w')
    ∧ session w' = session w
    ∧ flash w'
      = (flash w ++ [(error, "Please select a valid payment method.")])%list
    ∧ outbox w' = outbox w
    ∧ remote_orders w' = remote_orders w
    ∧ notify_calls w' = notify_calls w.
Proof.
  intros Hauth Hpost Hbuild Hitems Hv Hcod Honline.
  destruct items as [|item items]; [done|]. clear Hitems.
  assert (Hpm : get_or (POST request) "payment_method" "cod" = v)
    by (unfold get_or; by rewrite Hv).
  checkout_prefix Hauth Hpost Hbuild; rewrite Hpm;
    rewrite (payment_method_label_other v Hcod Honline); run;
    eexists; (split; [reflexivity|]); done.
Qed.

Lemma checkout_invalid_method_witness :
  ∃ w',
    checkout sample_env (post_request {["payment_method" := "barter"]}) sample_world
    = (Ok (Redirect "checkout"), w')
    ∧ session w' = session sample_world.
Proof.
  destruct (checkout_invalid_method sample_env
              (post_request {["payment_method" := "barter"]}) sample_world
              [mkCartItem lamp 2 (mkDec 20000 (-2))] (mkDec 20000 (-2)) "barter")
    as (w' & H1 & H2 & _);
    [reflexivity|reflexivity|vm_compute; reflexivity|discriminate|reflexivity
    |discriminate|discriminate|].
  exists w'. split; [exact H1|exact H2].
Defined.

Lemma razorpay_client_unconfigured env :
  RAZORPAY_KEY_ID (settings env) = ""
  ∨ RAZORPAY_KEY_SECRET (settings env) = ""
  ∨ razorpay_installed (settings env) = false →
  _get_razorpay_client env = None.
Proof.
  unfold _get_razorpay_client. intros [-> | [-> | ->]]; cbn.
  - done.
  - by rewrite orb_true_r.
  - by rewrite orb_true_r.
Qed.

(** X17. Without gateway credentials (an empty key id or key secret) or
    without the gateway library, online payment degrades to a message: an
    online checkout POST is answered by the redirect to the checkout form
    with the not-configured error, stores no pending record and sends
    nothing to the gateway; a verification POST is answered by the same
    redirect, and changes nothing but the flashed message. *)
Theorem gateway_unconfigured env request w :
  RAZORPAY_KEY_ID (settings env) = ""
  ∨ RAZORPAY_KEY_SECRET (settings env) = ""
  ∨ razorpay_installed (settings env) = false →
  is_authenticated (user request) = true →
  method request = "POST" →
  (∀ items total,
     _build_cart_items (catalog env) (_get_cart (session w)) = Ok (items, total) →
     items ≠ [] →
     get_or (POST request) "payment_method" "cod" = "online" →
     ∃ w',
       checkout env request w = (Ok (Redirect "checkout"), w')
       ∧ session w' = session w
       ∧ flash w'
         = (flash w ++ [(error, "Online payment is not configured yet. Add Razorpay keys in settings/env.")])%list
       ∧ remote_orders w' = remote_orders w
       ∧ notify_calls w' = notify_calls w
       ∧ outbox w' = outbox w)
  ∧ payment_verify env request w
    = (Ok (Redirect "checkout"),
       add_flash (error, "Online payment is not configured.") w).
Proof.
  intros Hconf%razorpay_client_unconfigured Hauth Hpost. split.
  - intros items total Hbuild Hitems Hpm.
    destruct items as [|item items]; [done|]. clear Hitems.
    checkout_prefix Hauth Hpost Hbuild; rewrite Hpm;
      change (payment_method_label "online")
        with (Some "Online Payment (UPI / Debit Card / Credit Card)"); run;
      rewrite Hconf; run; eexists; (split; [reflexivity|]); done.
  - unfold payment_verify. rewrite Hauth, Hpost, Hconf. by run.
Qed.

Lemma gateway_unconfigured_witness :
  payment_verify unconfigured_env (verify_request "order_A1" "valid") sample_world
  = (Ok (Redirect "checkout"),
     add_flash (error, "Online payment is not configured.") sample_world).
Proof.
  apply (gateway_unconfigured unconfigured_env
           (verify_request "order_A1" "valid") sample_world);
    [left; reflexivity|reflexivity|reflexivity].
Defined.



(** X19. A checkout request that is not a POST, from an authenticated
    user with a priced, non-empty cart, renders the checkout form with the
    items, the total and the payment methods, and decides nothing: the
    session and the messages are as before, nothing is mailed, notified or
    sent to the gateway. *)
Theorem checkout_form env request w items total :
  is_authenticated (user request) = true →
  method request ≠ "POST" →
  _build_cart_items (catalog env) (_get_cart (session w)) = Ok (items, total) →
  items ≠ [] →
  ∃ ctx w',
    checkout env request w = (Ok (Render "storefront/checkout.html" ctx), w')
    ∧ ("items", CItems items) ∈ ctx
    ∧ ("total", CDec total) ∈ ctx
    ∧ ("payment_methods", CDict PAYMENT_METHODS) ∈ ctx
    ∧ session w' = session w
    ∧ flash w' = flash w
    ∧ outbox w' = outbox w
    ∧ remote_orders w' = remote_orders w
    ∧ notify_calls w' = notify_calls w.
Proof.
  intros Hauth Hget%String.eqb_neq Hbuild Hitems.
  destruct items as [|item items]; [done|]. clear Hitems.
  unfold checkout. rewrite Hauth. run. rewrite Hbuild. run.
  unfold _get_or_create_user_profile. run. rewrite Hget.
  destruct (profile_row w); run; eexists _, _; (split; [reflexivity|]);
    (split; [set_solver|]); (split; [set_solver|]); (split; [set_solver|]);
    done.
Qed.

Lemma checkout_form_witness :
  ∃ ctx w',
    checkout sample_env get_request sample_world
    = (Ok (Render "storefront/checkout.html" ctx), w')
    ∧ ("total", CDec (mkDec 20000 (-2))) ∈ ctx
    ∧ session w' = session sample_world.
Proof.
  destruct (checkout_form sample_env get_request sample_world
              [mkCartItem lamp 2 (mkDec 20000 (-2))] (mkDec 20000 (-2)))
    as (ctx & w' & H1 & _ & H2 & _ & H3 & _);
    [reflexivity|discriminate|vm_compute; reflexivity|discriminate|].
  exists ctx, w'. split; [exact H1|]. split; [exact H2|exact H3].
Defined.

(** X20. The guards of the views. An unauthenticated request to
    [checkout] or [payment_verify] is sent to the login page, whatever
    its method; a request that is not a POST to [add_to_cart],
    [remove_from_cart] or, once authenticated, [payment_verify] is refused
    as not allowed, whatever product or form it names. In each case the
    world is left exactly as it was. *)
Theorem views_guards env request pid w :
  (is_authenticated (user request) = false →
   checkout env request w = (Ok RedirectToLogin, w)
   ∧ payment_verify env request w = (Ok RedirectToLogin, w))
  ∧ (method request ≠ "POST" →
     add_to_cart env request pid w = (Ok HttpResponseNotAllowed, w)
     ∧ remove_from_cart request pid w = (Ok HttpResponseNotAllowed, w)
     ∧ (is_authenticated (user request) = true →
        payment_verify env request w = (Ok HttpResponseNotAllowed, w))).
Proof.
  split.
  - intros Hanon. unfold checkout, payment_verify. rewrite Hanon. by run.
  - intros Hget%String.eqb_neq.
    unfold add_to_cart, remove_from_cart, payment_verify. rewrite Hget.
    split; [by run|]. split; [by run|]. intros ->. by run.
Qed.

Lemma views_guards_witness :
  payment_verify sample_env
    (mkRequest "POST" empty_form anonymous) sample_world
  = (Ok RedirectToLogin, sample_world)
  ∧ add_to_cart sample_env get_request 3 sample_world
    = (Ok HttpResponseNotAllowed, sample_world).
Proof.
  destruct (views_guards sample_env (mkRequest "POST" empty_form anonymous)
              3 sample_world) as [H1 _].
  destruct (views_guards sample_env get_request 3 sample_world) as [_ H2].
  split.
  - exact (proj2 (H1 eq_refl)).
  - assert (Hget : method get_request ≠ "POST") by discriminate.
    exact (proj1 (H2 Hget)).
Defined.

(** X21. Every checkout POST of an authenticated user with a priced,
    non-empty cart settles the address in the profile before it looks at
    the payment method: afterwards the profile row exists, holds the
    submitted address, stripped, when that is not blank and the former
    address otherwise, and keeps its other fields -- whether the order is
    then placed, refused for its payment method, stopped by a missing
    gateway or ended by an exception. The address field is ASCII text, on
    which [Py.strip] is [str.strip]. *)
Theorem checkout_profile env request w items total :
  is_authenticated (user request) = true →
  method request = "POST" →
  _build_cart_items (catalog env) (_get_cart (session w)) = Ok (items, total) →
  items ≠ [] →
  Py.isascii (get_or (POST request) "address" "") = true →
  let former := default blank_profile (profile_row w) in
  let submitted := Py.strip (get_or (POST request) "address" "") in
  profile_row (checkout env request w).2
  = Some (if String.eqb submitted "" then former
          else mkUserProfile (phone former) submitted (city former)
                 (state former) (postal_code former)).
Proof.
  intros Hauth Hpost Hbuild Hitems _.
  destruct items as [|item items]; [done|]. clear Hitems. cbn zeta.
  unfold checkout. rewrite Hauth. run. rewrite Hbuild. run.
  unfold _get_or_create_user_profile. run. rewrite Hpost. run.
  destruct (payment_method_label (get_or (POST request) "payment_method" "cod"))
    as [label|].
  2:{ destruct (profile_row w) eqn:Hrow;
        destruct (String.eqb (Py.strip (get_or (POST request) "address" "")) "");
        cbn; by rewrite ?Hrow. }
  destruct (String.eqb (get_or (POST request) "payment_method" "cod") "cod").
  - destruct (profile_row w) eqn:Hrow;
      destruct (String.eqb (Py.strip (get_or (POST request) "address" "")) "");
      cbn beta iota;
      match goal with
      | |- context [_send_order_notification env ?n ?w0] =>
          destruct (send_order_notification_run env n w0)
            as (w1 & Hrun & _ & Hrow1 & _);
          rewrite Hrun
      end; cbn; rewrite Hrow1; cbn; by rewrite ?Hrow.
  - destruct (_get_razorpay_client env) as [client|].
    2:{ destruct (profile_row w) eqn:Hrow;
          destruct (String.eqb (Py.strip (get_or (POST request) "address" "")) "");
          cbn; by rewrite ?Hrow. }
    destruct (amount_subunits total) as [a|].
    2:{ destruct (profile_row w) eqn:Hrow;
          destruct (String.eqb (Py.strip (get_or (POST request) "address" "")) "");
          cbn; by rewrite ?Hrow. }
    run.
    destruct (format_int_cases a) as [-> | ->].
    2:{ destruct (profile_row w) eqn:Hrow;
          destruct (String.eqb (Py.strip (get_or (POST request) "address" "")) "");
          cbn; by rewrite ?Hrow. }
    run.
    destruct (profile_row w) eqn:Hrow;
      destruct (String.eqb (Py.strip (get_or (POST request) "address" "")) "");
      cbn beta iota;
      match goal with
      | |- context [order_create client ?d] => destruct (order_create client d)
      end; cbn; by rewrite ?Hrow.
Qed.

Lemma checkout_profile_witness :
  profile_row (checkout sample_env (post_request barter_form) sample_world).2
  = Some (mkUserProfile "" "9 Elm Rd" "" "" "").
Proof.
  rewrite (checkout_profile sample_env (post_request barter_form) sample_world
             [mkCartItem lamp 2 (mkDec 20000 (-2))] (mkDec 20000 (-2)));
    [vm_compute; reflexivity|reflexivity|reflexivity|vm_compute; reflexivity
    |discriminate|vm_compute; reflexivity].
Defined.

(** ** The online payment flow *)




(** The session after a verification that succeeds. *)
Lemma payment_verify_success_session env request w client pending :
  is_authenticated (user request) = true →
  method request = "POST" →
  _get_razorpay_client env = Some client →
  session_pending (session w) = Some (PendingRecord pending) →
  submitted_order_id request = pp_razorpay_order_id pending →
  verify_payment_signature client (submitted_order_id request)
    (submitted_payment_id request) (submitted_signature request) = true →
  session (payment_verify env request w).2
  = store_pending PendingEmpty (store_cart ∅ (session w)).
Proof.
  intros Hauth Hpost Hclient Hpending Hid Hsig.
  unfold submitted_order_id, submitted_payment_id, submitted_signature in *.
  unfold payment_verify. rewrite Hauth, Hpost, Hclient. run.
  rewrite Hpending, Hid, String.eqb_refl. rewrite Hid in Hsig. rewrite Hsig. run.
  match goal with
  | |- context [_send_order_notification env ?n w] =>
      destruct (send_order_notification_run env n w) as (w1 & Hrun & Hs & _);
      rewrite Hrun
  end.
  cbn. by rewrite Hs.
Qed.



(** X24. A verification cannot be replayed: once [payment_verify] has
    confirmed a payment, any further verification POST in that session --
    the same one again or another -- is answered by the redirect with the
    no-pending-payment error, and changes nothing else: no second
    notification, no second mail. *)
Theorem payment_verify_replay env request request2 w client pending :
  is_authenticated (user request) = true →
  method request = "POST" →
  _get_razorpay_client env = Some client →
  session_pending (session w) = Some (PendingRecord pending) →
  submitted_order_id request = pp_razorpay_order_id pending →
  verify_payment_signature client (submitted_order_id request)
    (submitted_payment_id request) (submitted_signature request) = true →
  is_authenticated (user request2) = true →
  method request2 = "POST" →
  payment_verify env request2 (payment_verify env request w).2
  = (Ok (Redirect "checkout"),
     add_flash (error, "No pending online payment found.")
       (payment_verify env request w).2).
Proof.
  intros Hauth Hpost Hclient Hpending Hid Hsig Hauth2 Hpost2.
  pose proof (payment_verify_success_session env request w client pending
                Hauth Hpost Hclient Hpending Hid Hsig) as Hs.
  set (w1 := (payment_verify env request w).2) in *.
  unfold payment_verify at 1. rewrite Hauth2, Hpost2, Hclient. run.
  rewrite Hs. cbn [session_pending store_pending]. by run.
Qed.

Lemma payment_verify_replay_witness :
  ∃ w1,
    (payment_verify sample_env (verify_request "order_A1" "valid") sample_world).2
    = w1
    ∧ payment_verify sample_env (verify_request "order_A1" "valid") w1
      = (Ok (Redirect "checkout"),
         add_flash (error, "No pending online payment found.") w1).
Proof.
  eexists. split; [reflexivity|].
  apply (payment_verify_replay sample_env (verify_request "order_A1" "valid")
           (verify_request "order_A1" "valid") sample_world sample_gateway
           sample_pending); reflexivity.
Defined.

(** X25. A verification POST in a session that holds no pending payment
    -- no such key, or the empty dict a confirmed payment leaves -- is
    answered by the redirect to the checkout with an error message; the
    session is untouched and nothing is notified, whatever order id and
    signature the request carries. *)
Theorem payment_verify_no_pending env request w client :
  is_authenticated (user request) = true →
  method request = "POST" →
  _get_razorpay_client env = Some client →
  session_pending (session w) = None
  ∨ session_pending (session w) = Some PendingEmpty →
  payment_verify env request w
  = (Ok (Redirect "checkout"),
     add_flash (error, "No pending online payment found.") w).
Proof.
  intros Hauth Hpost Hclient Hnone.
  unfold payment_verify. rewrite Hauth, Hpost, Hclient. run.
  by destruct Hnone as [-> | ->].
Qed.

Lemma payment_verify_no_pending_witness :
  payment_verify sample_env (verify_request "order_A1" "valid") fresh_world
  = (Ok (Redirect "checkout"),
     add_flash (error, "No pending online payment found.") fresh_world).
Proof.
  apply (payment_verify_no_pending sample_env
           (verify_request "order_A1" "valid") fresh_world sample_gateway);
    [reflexivity|reflexivity|reflexivity|left; reflexivity].
Defined.

(** ** Notification and catalog pages *)

(** X26. [_send_order_notification] never raises and touches nothing
    but the outbox. Without a notification address it sends nothing; with
    one it hands exactly one mail to the transport, addressed to that
    address alone, from the default sender, with the customer name in the
    subject and the total among its lines; the mail has six lines, and a
    seventh, last one with the payment id when there is one. *)
Theorem send_order_notification_mail env n w :
  ∃ w',
    _send_order_notification env n w = (Ok (), w')
    ∧ session w' = session w
    ∧ profile_row w' = profile_row w
    ∧ flash w' = flash w
    ∧ remote_orders w' = remote_orders w
    ∧ (ORDER_NOTIFY_EMAIL (settings env) = "" → outbox w' = outbox w)
    ∧ (ORDER_NOTIFY_EMAIL (settings env) ≠ "" →
       ∃ m,
         outbox w' = (outbox w ++ [m])%list
         ∧ mail_recipient_list m = [ORDER_NOTIFY_EMAIL (settings env)]
         ∧ mail_from_email m = DEFAULT_FROM_EMAIL (settings env)
         ∧ mail_subject m = "New Order Placed: " +:+ n_customer_name n
         ∧ [Text "Total Amount: Rs "; Money2f (n_total n)] ∈ mail_message m
         ∧ (n_payment_id n = "" → length (mail_message m) = 6%nat)
         ∧ (n_payment_id n ≠ "" →
            length (mail_message m) = 7%nat
            ∧ last (mail_message m)
              = Some [Text ("Payment ID: " +:+ n_payment_id n)])).
Proof.
  unfold _send_order_notification. run.
  destruct (String.eqb_spec (ORDER_NOTIFY_EMAIL (settings env)) "") as [He|Hne].
  - eexists. split; [reflexivity|]. cbn. repeat (split; [done|]). done.
  - eexists. split; [reflexivity|]. cbn. repeat (split; [done|]).
    intros _. eexists. split; [reflexivity|]. cbn.
    repeat (split; [done|]).
    destruct (String.eqb_spec (n_payment_id n) "") as [Hp|Hp].
    + split; [set_solver|]. split; [done|]. by intros [].
    + split; [set_solver|]. split; [by intros ?|]. done.
Qed.

Lemma send_order_notification_mail_witness :
  ∃ w' m,
    _send_order_notification sample_env
      (mkNotification "Alice Doe" "alice@example.com" (mkDec 20000 (-2))
         "Cash on Delivery" "" "alice") sample_world
    = (Ok (), w')
    ∧ outbox w' = [m]
    ∧ mail_recipient_list m = ["shop@example.com"]
    ∧ length (mail_message m) = 6%nat.
Proof.
  destruct (send_order_notification_mail sample_env
              (mkNotification "Alice Doe" "alice@example.com" (mkDec 20000 (-2))
                 "Cash on Delivery" "" "alice") sample_world)
    as (w' & H1 & _ & _ & _ & _ & _ & H2).
  destruct H2 as (m & H3 & H4 & _ & _ & _ & H5 & _); [discriminate|].
  exists w', m. split; [exact H1|]. split; [exact H3|]. split; [exact H4|].
  apply H5. reflexivity.
Defined.

(** X27. The catalog pages. [home] lists at most six products, all of
    them featured and active, namely the first six such products of the
    table in its order, and all of them when there are no more than six;
    [products] lists exactly the active products, in the order of the
    table, so an inactive product is on neither page and every product of
    the home page is on the product page. Neither view changes
    anything. *)
Theorem catalog_pages env request w :
  ∃ home_page products_page,
    home env request w = (Ok home_page, w)
    ∧ products env request w = (Ok products_page, w)
    ∧ (length (page_products home_page) ≤ 6)%nat
    ∧ page_products home_page
      = take 6 (filter (λ p, is_featured p = true ∧ is_active p = true)
                  (catalog env))
    ∧ ((length (filter (λ p, is_featured p = true ∧ is_active p = true)
                  (catalog env)) ≤ 6)%nat →
       ∀ p, p ∈ catalog env → is_featured p = true → is_active p = true →
            p ∈ page_products home_page)
    ∧ (∀ p, p ∈ page_products home_page →
            p ∈ catalog env ∧ is_featured p = true ∧ is_active p = true)
    ∧ (∀ p, p ∈ page_products products_page
            ↔ p ∈ catalog env ∧ is_active p = true)
    ∧ page_products home_page `sublist_of` catalog env
    ∧ page_products products_page `sublist_of` catalog env
    ∧ page_products home_page ⊆ page_products products_page.
Proof.
  eexists _, _. split; [reflexivity|]. split; [reflexivity|].
  cbn [page_products].
  set (featured_active := filter (λ p, is_featured p = true ∧ is_active p = true)
                            (catalog env)).
  assert (Hin : ∀ p, p ∈ take 6 featured_active →
                     p ∈ catalog env ∧ is_featured p = true ∧ is_active p = true).
  { intros p Hp%(subseteq_take 6 featured_active).
    apply list_elem_of_filter in Hp as [[? ?] ?]. done. }
  split; [rewrite length_take; lia|]. split; [done|].
  split.
  { intros Hle p Hp Hf Ha. rewrite take_ge by done.
    apply list_elem_of_filter. done. }
  split; [done|].
  split; [intros p; rewrite list_elem_of_filter; tauto|].
  split; [etrans; [apply sublist_take|apply sublist_filter]|].
  split; [apply sublist_filter|].
  intros p Hp. destruct (Hin p Hp) as (? & ? & ?).
  apply list_elem_of_filter. done.
Qed.

Lemma catalog_pages_witness :
  ∃ home_page,
    home (mkEnv sample_settings featured_catalog sample_gateway) get_request
      fresh_world
    = (Ok home_page, fresh_world)
    ∧ length (page_products home_page) = 6%nat
    ∧ vase ∉ page_products home_page.
Proof.
  destruct (catalog_pages (mkEnv sample_settings featured_catalog sample_gateway)
              get_request fresh_world)
    as (home_page & products_page & H1 & _ & _ & H2 & _ & H3 & _).
  exists home_page. split; [exact H1|]. split.
  - rewrite H2. vm_compute. reflexivity.
  - intros Hv. destruct (H3 vase Hv) as (_ & Hf & _). discriminate Hf.
Defined.

Lemma str_or_nonempty a b : b ≠ "" → str_or a b ≠ "".
Proof.
  intros Hb. unfold str_or. by destruct (String.eqb_spec a "").
Qed.

(** The cash-on-delivery path of [checkout]: one call of the notifier,
    with the name, the email address and the total of the order. *)
Lemma checkout_cod_run env request w items total :
  is_authenticated (user request) = true →
  method request = "POST" →
  _build_cart_items (catalog env) (_get_cart (session w)) = Ok (items, total) →
  items ≠ [] →
  get_or (POST request) "payment_method" "cod" = "cod" →
  ∃ ctx w',
    checkout env request w
    = (Ok (Render "storefront/checkout_success.html" ctx), w')
    ∧ notify_calls w'
      = (notify_calls w
         ++ [mkNotification
               (str_or (Py.strip (get_or (POST request) "name"
                                    (str_or (get_full_name (user request))
                                       (username (user request)))))
                       (username (user request)))
               (Py.strip (get_or (POST request) "email" (email (user request))))
               total "Cash on Delivery" "" (username (user request))])%list
    ∧ ("total", CDec total) ∈ ctx
    ∧ ("customer_name",
       CStr (str_or (Py.strip (get_or (POST request) "name"
                                 (str_or (get_full_name (user request))
                                    (username (user request)))))
                    (username (user request)))) ∈ ctx
    ∧ remote_orders w' = remote_orders w.
Proof.
  intros Hauth Hpost Hbuild Hitems Hpm.
  destruct items as [|item items]; [done|]. clear Hitems.
  checkout_prefix Hauth Hpost Hbuild; rewrite Hpm;
    change (payment_method_label "cod") with (Some "Cash on Delivery"); run;
    match goal with
    | |- context [_send_order_notification env ?n ?w0] =>
        destruct (send_order_notification_run env n w0)
          as (w1 & Hrun & _ & _ & _ & Hro & Hc & _);
        rewrite Hrun; eexists _, _
    end;
    (split; [reflexivity|]);
    cbn [notify_calls set_session remote_orders];
    (split; [rewrite Hc; reflexivity|]);
    (split; [set_solver|]); (split; [set_solver|]);
    rewrite Hro; reflexivity.
Qed.

(** X28. What a cash-on-delivery order notifies. A COD checkout POST of
    an authenticated user with a priced, non-empty cart calls the notifier
    once, with the total exactly as priced, no payment id, the username
    and the Cash on Delivery label. The customer name in it is the name
    field of the form, stripped, when that is not blank, and the username
    when the field is there but blank; when the form has no name field it
    is the user's full name, and, when the full name is empty, the
    username (stripped, unless that leaves nothing). It is never blank for
    a user with a non-empty username. The success page shows the same
    total and the same name. The texts that are stripped -- the name
    field, or the user's names when the field is missing -- are ASCII
    text, on which [Py.strip] is [str.strip]. *)
Theorem cod_checkout_notification env request w items total :
  is_authenticated (user request) = true →
  method request = "POST" →
  _build_cart_items (catalog env) (_get_cart (session w)) = Ok (items, total) →
  items ≠ [] →
  get_or (POST request) "payment_method" "cod" = "cod" →
  ∃ ctx w' n,
    checkout env request w
    = (Ok (Render "storefront/checkout_success.html" ctx), w')
    ∧ notify_calls w' = (notify_calls w ++ [n])%list
    ∧ n_total n = total
    ∧ n_payment_id n = ""
    ∧ n_username n = username (user request)
    ∧ n_payment_method n = "Cash on Delivery"
    ∧ (username (user request) ≠ "" → n_customer_name n ≠ "")
    ∧ (∀ v, POST request !! "name" = Some v → Py.isascii v = true →
         (Py.strip v ≠ "" → n_customer_name n = Py.strip v)
         ∧ (Py.strip v = "" → n_customer_name n = username (user request)))
    ∧ (POST request !! "name" = None →
       Py.isascii (first_name (user request)) = true →
       Py.isascii (last_name (user request)) = true →
       Py.isascii (username (user request)) = true →
       (get_full_name (user request) ≠ "" →
        n_customer_name n = get_full_name (user request))
       ∧ (get_full_name (user request) = "" →
          n_customer_name n
          = str_or (Py.strip (username (user request)))
                   (username (user request))))
    ∧ ("total", CDec total) ∈ ctx
    ∧ ("customer_name", CStr (n_customer_name n)) ∈ ctx
    ∧ remote_orders w' = remote_orders w.
Proof.
  intros Hauth Hpost Hbuild Hitems Hpm.
  destruct (checkout_cod_run env request w items total
              Hauth Hpost Hbuild Hitems Hpm)
    as (ctx & w' & Hrun & Hcalls & Htotal & Hname & Hro).
  eexists ctx, w', _. split; [exact Hrun|]. split; [exact Hcalls|].
  cbn [n_total n_payment_id n_username n_payment_method n_customer_name].
  do 4 (split; [reflexivity|]).
  split; [apply str_or_nonempty|].
  split; [|split; [|done]].
  - intros v Hv _. unfold get_or. rewrite Hv. cbn [default from_option id].
    unfold str_or. split; intros Hs.
    + by apply String.eqb_neq in Hs as ->.
    + by rewrite Hs.
  - intros Hnone _ _ _. unfold get_or. rewrite Hnone. cbn [default from_option id].
    split; intros Hfull.
    + unfold str_or at 2. apply String.eqb_neq in Hfull as Hb. rewrite Hb.
      unfold get_full_name in *. rewrite strip_idemp.
      unfold str_or. by rewrite Hb.
    + by rewrite Hfull.
Qed.

Lemma cod_checkout_notification_witness :
  ∃ ctx w' n,
    checkout sample_env (post_request {["payment_method" := "cod"]}) sample_world
    = (Ok (Render "storefront/checkout_success.html" ctx), w')
    ∧ notify_calls w' = [n]
    ∧ n_total n = mkDec 20000 (-2)
    ∧ n_customer_name n = "Alice Doe".
Proof.
  destruct (cod_checkout_notification sample_env
              (post_request {["payment_method" := "cod"]}) sample_world
              [mkCartItem lamp 2 (mkDec 20000 (-2))] (mkDec 20000 (-2)))
    as (ctx & w' & n & H1 & H2 & H3 & _ & _ & _ & _ & _ & H9 & _);
    [reflexivity|reflexivity|vm_compute; reflexivity|discriminate|reflexivity|].
  exists ctx, w', n. split; [exact H1|]. split; [exact H2|]. split; [exact H3|].
  destruct H9 as [H9 _]; [reflexivity..|].
  rewrite H9; [reflexivity|discriminate].
Defined.
